(** * Face-Swap: the submission pipeline and what it is made of

    A shallow embedding of the server side of the application:
      - the sanitizer ([utils/sanitizer], in src/utils/faceSwapAPI.js
        after the transformation client): [sanitizeInput], [sanitizePhone];
      - the validation middleware ([middleware/validation], in
        src/middleware/upload.js): [validateSubmission],
        [validateSubmissionsQuery], [rateLimit];
      - the upload middleware (src/middleware/upload.js): [handleUpload];
      - the transformation client (src/utils/faceSwapAPI.js):
        [isValidImageBuffer], [getImageFormat], [validateImage], [swapFace];
      - the controller (src/unnamed/part_000): [handleSubmission],
        [renderSubmissions];
      - the routes (src/unnamed/part_003);
      - the model ([models/submission], in src/middleware/upload.js):
        [updateById].

    A JavaScript string is a sequence of UTF-16 code units; the embedding
    uses [string], whose characters are the code units below 256 (ASCII
    and Latin-1), which is where every pattern of the program lives.
    Numbers are integers ([Z]); NaN is [None].  The packages the program
    calls (DOMPurify, validator, the ObjectId of mongodb) are variables
    of the sections that use them. *)

From Stdlib Require Import ZArith Ascii String List Bool Lia.
From Stdlib Require Strings.Byte.
From stdpp Require Import base option list gmap strings.

Import ListNotations.
Local Open Scope string_scope.
Local Open Scope Z_scope.

(* ===================================================================== *)
(** ** JavaScript values and string primitives *)
(* ===================================================================== *)

Module Js.

(** The values a request field, an option or a stored field can hold.
    [JDate t] is a [Date] of [t] milliseconds; [JObj] stands for any
    other array or object (always truthy, never a string). *)
Inductive value :=
| JUndefined
| JNull
| JBool (b : bool)
| JNum (n : Z)
| JStr (s : string)
| JDate (t : Z)
| JObj.

(** ToBoolean. *)
Definition truthy (v : value) : bool :=
  match v with
  | JUndefined | JNull => false
  | JBool b => b
  | JNum n => negb (n =? 0)
  | JStr s => negb (String.eqb s "")
  | JDate _ | JObj => true
  end.

(** [v || d]. *)
Definition or_else (v d : value) : value := if truthy v then v else d.

Definition code (c : ascii) : N := N_of_ascii c.

Definition between (lo hi : N) (c : ascii) : bool :=
  (N.leb lo (code c) && N.leb (code c) hi)%bool.

(** White space of [String.prototype.trim] and of [\s], among the code
    units below 256: TAB, LF, VT, FF, CR, SPACE and NBSP. *)
Definition is_space (c : ascii) : bool :=
  (between 9 13 c || N.eqb (code c) 32 || N.eqb (code c) 160)%bool.

(** [\d] *)
Definition is_digit (c : ascii) : bool := between 48 57 c.

Definition is_upper (c : ascii) : bool := between 65 90 c.
Definition is_lower (c : ascii) : bool := between 97 122 c.

(** [[A-Za-z]] *)
Definition is_alpha (c : ascii) : bool := (is_upper c || is_lower c)%bool.

(** [\w] *)
Definition is_word (c : ascii) : bool :=
  (is_alpha c || is_digit c || N.eqb (code c) 95)%bool.

(** [[\x00-\x1F\x7F]] *)
Definition is_control (c : ascii) : bool :=
  (N.leb (code c) 31 || N.eqb (code c) 127)%bool.

(** [String.prototype.toLowerCase] on one code unit below 256: A-Z, and
    the Latin-1 capitals U+00C0..U+00DE except the multiplication sign. *)
Definition lower_char (c : ascii) : ascii :=
  if (is_upper c || (between 192 222 c && negb (N.eqb (code c) 215)))%bool
  then ascii_of_N (code c + 32)
  else c.

Fixpoint toLowerCase (s : string) : string :=
  match s with
  | EmptyString => EmptyString
  | String c s' => String (lower_char c) (toLowerCase s')
  end.

(** Equality of two code units under the [i] flag of a non-unicode
    regular expression whose pattern character [p] is an ASCII letter or
    punctuation: only the ASCII letters fold. *)
Definition ci_eq (p c : ascii) : bool :=
  if is_alpha p
  then (is_alpha c && Ascii.eqb (lower_char p) (lower_char c))%bool
  else Ascii.eqb p c.

Fixpoint all_chars (f : ascii -> bool) (s : string) : bool :=
  match s with
  | EmptyString => true
  | String c s' => (f c && all_chars f s')%bool
  end.

Fixpoint has_char (f : ascii -> bool) (s : string) : bool :=
  match s with
  | EmptyString => false
  | String c s' => (f c || has_char f s')%bool
  end.

Fixpoint trimStart (s : string) : string :=
  match s with
  | EmptyString => EmptyString
  | String c s' => if is_space c then trimStart s' else s
  end.

Fixpoint trimEnd (s : string) : string :=
  match s with
  | EmptyString => EmptyString
  | String c s' =>
      match trimEnd s' with
      | EmptyString => if is_space c then EmptyString else String c EmptyString
      | r => String c r
      end
  end.

(** [String.prototype.trim] *)
Definition trim (s : string) : string := trimEnd (trimStart s).

(** [s.substring(0, n)] for a natural [n]. *)
Fixpoint take (n : nat) (s : string) : string :=
  match n, s with
  | O, _ => EmptyString
  | _, EmptyString => EmptyString
  | S k, String c s' => String c (take k s')
  end.

(** [s.substring(1)] *)
Definition substring1 (s : string) : string :=
  match s with
  | EmptyString => EmptyString
  | String _ s' => s'
  end.

(** [s.startsWith(c)] for a single character. *)
Definition startsWithChar (c : ascii) (s : string) : bool :=
  match s with
  | String d _ => Ascii.eqb c d
  | EmptyString => false
  end.

(** The string made of one double quote. *)
Definition dquote : string := String (ascii_of_nat 34) EmptyString.

(** [Array.prototype.join] *)
Fixpoint join (sep : string) (l : list string) : string :=
  match l with
  | [] => ""
  | [x] => x
  | x :: r => x ++ sep ++ join sep r
  end.

(** *** Regular expressions

    A pattern is embedded as the function that says how many code units
    it matches at the head of a string ([None]: no match there).  Each of
    the program's patterns has one match at most at a position. *)

Definition matcher := string -> option nat.

(** A literal pattern, compared with [eqc]. *)
Fixpoint lit_with (eqc : ascii -> ascii -> bool) (p s : string) : option nat :=
  match p, s with
  | EmptyString, _ => Some O
  | String a p', String b s' =>
      if eqc a b then S <$> lit_with eqc p' s' else None
  | String _ _, EmptyString => None
  end.

Definition lit : string -> matcher := lit_with Ascii.eqb.
Definition lit_i : string -> matcher := lit_with ci_eq.

(** The length of the longest prefix of characters in the class [f]. *)
Fixpoint span (f : ascii -> bool) (s : string) : nat :=
  match s with
  | String c s' => if f c then S (span f s') else O
  | EmptyString => O
  end.

Fixpoint drop (n : nat) (s : string) : string :=
  match n, s with
  | O, _ => s
  | S k, String _ s' => drop k s'
  | S _, EmptyString => EmptyString
  end.

(** [/<[^>]*>/]: from a [<] to the first [>] after it. *)
Definition re_tag : matcher := fun s =>
  match s with
  | String "<" s' =>
      let n := span (fun c => negb (Ascii.eqb c ">")) s' in
      match drop n s' with
      | String _ _ => Some (n + 2)%nat
      | EmptyString => None
      end
  | _ => None
  end.

(** [/on\w+\s*=/i]: the greedy runs are the only way to reach the [=],
    since a word character is neither white space nor [=]. *)
Definition re_on_handler : matcher := fun s =>
  match lit_i "on" s with
  | Some k =>
      let r := drop k s in
      let w := span is_word r in
      let r := drop w r in
      let b := span is_space r in
      match w, drop b r with
      | S _, String "=" _ => Some (k + w + b + 1)%nat
      | _, _ => None
      end
  | None => None
  end.

(** [/expression\s*\(/i] *)
Definition re_expression : matcher := fun s =>
  match lit_i "expression" s with
  | Some k =>
      let r := drop k s in
      let b := span is_space r in
      match drop b r with
      | String "(" _ => Some (k + b + 1)%nat
      | _ => None
      end
  | None => None
  end.

(** [s.replace(re, rep)] with the [g] flag: the matches are found from
    left to right, each search starting where the last match ended.
    [skip] counts the code units of the current match still to drop. *)
Fixpoint replace_from (m : matcher) (rep : string) (skip : nat) (s : string)
  : string :=
  match s with
  | EmptyString => EmptyString
  | String c s' =>
      match skip with
      | S k => replace_from m rep k s'
      | O =>
          match m s with
          | Some (S n) => rep ++ replace_from m rep n s'
          | _ => String c (replace_from m rep O s')
          end
      end
  end.

Definition replace (m : matcher) (rep : string) (s : string) : string :=
  replace_from m rep O s.

(** [s.replace(/[class]/g, '')] *)
Fixpoint remove_chars (f : ascii -> bool) (s : string) : string :=
  match s with
  | EmptyString => EmptyString
  | String c s' => if f c then remove_chars f s' else String c (remove_chars f s')
  end.

(** [/^[A-Za-z\s]+$/.test(s)] *)
Definition re_name (s : string) : bool :=
  (negb (String.eqb s "") && all_chars (fun c => is_alpha c || is_space c) s)%bool.

(** [/^\d{10}$/.test(s)] *)
Definition re_phone (s : string) : bool :=
  (Nat.eqb (String.length s) 10 && all_chars is_digit s)%bool.

(** [/^[0-9a-fA-F]{24}$/.test(s)] *)
Definition is_hex (c : ascii) : bool :=
  (is_digit c || between 65 70 c || between 97 102 c)%bool.

Definition re_objectid (s : string) : bool :=
  (Nat.eqb (String.length s) 24 && all_chars is_hex s)%bool.

(** *** parseInt

    [parseInt(s)] with no radix: leading white space is skipped, a sign is
    read, a [0x]/[0X] prefix selects base 16, and the longest run of
    digits is the value; no digit at all is NaN ([None]).  The value is
    the exact integer: that is the number JavaScript reads up to
    [2 ^ 53], beyond which JavaScript rounds to the nearest double.  The
    comparisons the program makes with small constants come out the
    same either way; a statement about the number itself that was read
    carries the bound. *)

Definition digit_val (c : ascii) : Z :=
  if is_digit c then Z.of_N (code c) - 48
  else if between 65 70 c then Z.of_N (code c) - 55
  else Z.of_N (code c) - 87.

Fixpoint digits_from (base : Z) (isd : ascii -> bool) (acc : Z) (s : string) : Z :=
  match s with
  | String c s' =>
      if isd c then digits_from base isd (acc * base + digit_val c) s' else acc
  | EmptyString => acc
  end.

Definition parse_magnitude (s : string) : option Z :=
  match s with
  | String "0" (String x r) =>
      if (Ascii.eqb x "x" || Ascii.eqb x "X")%bool then
        match r with
        | String d _ => if is_hex d then Some (digits_from 16 is_hex 0 r) else None
        | EmptyString => None
        end
      else Some (digits_from 10 is_digit 0 s)
  | String d _ => if is_digit d then Some (digits_from 10 is_digit 0 s) else None
  | EmptyString => None
  end.

Definition parseInt (s : string) : option Z :=
  match trimStart s with
  | String "-" r => Z.opp <$> parse_magnitude r
  | String "+" r => parse_magnitude r
  | r => parse_magnitude r
  end.

(** [x || d] for a number that may be NaN: NaN and 0 are falsy. *)
Definition num_or (x : option Z) (d : Z) : Z :=
  match x with
  | Some n => if n =? 0 then d else n
  | None => d
  end.

End Js.

(* ===================================================================== *)
(** ** utils/sanitizer.js *)
(* ===================================================================== *)

Module Sanitizer.
Import Js.

(** The options object of [sanitizeInput]; [None] is a property that is
    absent (or, for [maxLength], null), so that the default applies.
    [stripTags] and [trim] hold the truthiness of what was passed. *)
Record options := Options {
  allowedTags : option (list string);
  stripTags : option bool;
  trim : option bool;
  maxLength : option Z
}.

(** [{}] *)
Definition no_options : options := Options None None None None.

Section WithPurify.

(** [purify.sanitize(text, {ALLOWED_TAGS, ALLOWED_ATTR: [], KEEP_CONTENT:
    true})] of the DOMPurify package, as a function of the allowed tags
    and the text. *)
Variable purify : list string -> string -> string.

(** The chain of entity replacements, in the order of the source. *)
Definition decode_entities (s : string) : string :=
  let s := replace (lit "&lt;") "<" s in
  let s := replace (lit "&gt;") ">" s in
  let s := replace (lit "&amp;") "&" s in
  let s := replace (lit "&quot;") dquote s in
  let s := replace (lit "&#x27;") "'" s in
  let s := replace (lit "&#x2F;") "/" s in
  replace (lit "&#x60;") "`" s.

(** [.replace(/<[^>]*>/g, '')] *)
Definition strip_tags (s : string) : string := replace re_tag "" s.

(** The four replacements of script-like content. *)
Definition strip_scripts (s : string) : string :=
  let s := replace (lit_i "javascript:") "" s in
  let s := replace (lit_i "vbscript:") "" s in
  let s := replace re_on_handler "" s in
  replace re_expression "" s.

(** [.replace(/[\x00-\x1F\x7F]/g, '')] *)
Definition strip_control (s : string) : string := remove_chars is_control s.

(** [if (maxLength && sanitized.length > maxLength)
       sanitized = sanitized.substring(0, maxLength)];
    [substring] takes a negative end as 0. *)
Definition limit_length (maxLength : option Z) (s : string) : string :=
  match maxLength with
  | Some n =>
      if (negb (n =? 0) && (Z.of_nat (String.length s) >? n))%bool
      then take (Z.to_nat n) s
      else s
  | None => s
  end.

Definition sanitizeInput (input : value) (opts : options) : string :=
  match input with
  | JStr input =>
      let allowedTags := default [] (allowedTags opts) in
      let stripTags := default true (stripTags opts) in
      let trim := default true (trim opts) in
      let maxLength := maxLength opts in
      let sanitized := input in
      let sanitized := if trim then Js.trim sanitized else sanitized in
      let sanitized := if stripTags then purify allowedTags sanitized else sanitized in
      let sanitized := decode_entities sanitized in
      let sanitized := strip_tags sanitized in
      let sanitized := strip_scripts sanitized in
      let sanitized := strip_control sanitized in
      limit_length maxLength sanitized
  | _ => ""
  end.

(** [sanitizePhone] *)
Definition sanitizePhone (phone : value) : string :=
  match phone with
  | JStr _ =>
      remove_chars (fun c => negb (is_digit c))
        (sanitizeInput phone (Options None None (Some true) None))
  | _ => ""
  end.

End WithPurify.

(** What the program relies on from DOMPurify for text without markup:
    [sanitize] returns a string that has no [<] as it is (its early exit
    on [dirty.indexOf('<') === -1]). *)
Definition markup_free (s : string) : bool :=
  negb (has_char (Ascii.eqb "<") s).

Definition keeps_plain_text (purify : list string -> string -> string) : Prop :=
  forall tags s, markup_free s = true -> purify tags s = s.

(** A sanitizer with that property, to run the program on concrete
    inputs: text without [<] is returned as it is, and from any other
    text the [<...>] runs are dropped. *)
Definition purify_text (tags : list string) (s : string) : string :=
  if markup_free s then s else strip_tags s.

End Sanitizer.

(* ===================================================================== *)
(** ** The request, the response and the middleware chain *)
(* ===================================================================== *)

Module Http.
Import Js.

(** [req.file], as multer fills it. *)
Record file := File {
  originalname : string;
  filename : string;
  path : string;
  mimetype : string;
  size : Z
}.

(** The four fields read from [req.body]. *)
Record body := Body {
  b_name : value;
  b_email : value;
  b_phone : value;
  b_terms : value
}.

(** The three parameters read from [req.query]; [None] is an absent one. *)
Record query := Query {
  q_page : option string;
  q_limit : option string;
  q_sort : option string
}.

(** [formData], echoed into the form on a validation error. *)
Record formData := FormData {
  fd_name : string;
  fd_email : string;
  fd_phone : string;
  fd_terms : string
}.

(** [req.validatedData] *)
Record validatedData := ValidatedData {
  vd_name : string;
  vd_email : string;
  vd_phone : string;
  vd_terms : bool
}.

(** [req.queryOptions] *)
Record queryOptions := QueryOptions {
  qo_page : Z;
  qo_limit : Z;
  qo_skip : Z;
  qo_sortBy : string;
  qo_sortOrder : Z
}.

Record request := Request {
  req_ip : string;
  req_body : body;
  req_file : option file;
  req_query : query;
  req_validatedData : option validatedData;
  req_queryOptions : option queryOptions
}.

(** A record of the mock database of the controller. *)
Record submission := Submission {
  s_id : Z;
  s_name : value;
  s_email : value;
  s_phone : value;
  s_terms : bool;
  s_originalImagePath : string;
  s_originalImageFilename : string;
  s_swappedImagePath : string;
  s_swappedImageFilename : string;
  s_processingTime : Z;
  s_createdAt : Z;
  s_status : string
}.

Record pagination := Pagination {
  totalCount : Z;
  currentPage : Z;
  totalPages : Z;
  hasNext : bool;
  hasPrev : bool;
  nextPage : Z;
  prevPage : Z
}.

(** The [formData] a form is rendered with: the empty object, the
    sanitized copy of the fields, or [req.body] as it came. *)
Inductive formEcho :=
| NoData
| Sanitized (fd : formData)
| Raw (b : body).

(** What a handler sends. *)
Inductive response :=
| RenderForm (status : Z) (error : string) (data : formEcho)
| JsonError (status : Z) (error : string)
| JsonSubmitted (status : Z) (message : string) (submissionId : Z)
    (swappedImageUrl : string) (processingTime : Z)
| RenderSubmissions (status : Z) (submissions : list submission) (p : pagination).

Definition status_of (r : response) : Z :=
  match r with
  | RenderForm s _ _ | JsonError s _ | JsonSubmitted s _ _ _ _
  | RenderSubmissions s _ _ => s
  end.

(** A middleware either calls [next()] or sends the response and returns. *)
Inductive outcome :=
| Next
| Respond (r : response).

End Http.

(* ===================================================================== *)
(** ** middleware/validation.js *)
(* ===================================================================== *)

Module ValidationMiddleware.
Import Js Http.
Export Sanitizer.

Definition allowedMimeTypes : list string :=
  ["image/jpeg"; "image/jpg"; "image/png"].

(** [2 * 1024 * 1024] *)
Definition maxFileSize : Z := 2 * 1024 * 1024.

Definition allowedSortFields : list string :=
  ["name"; "email"; "createdAt"; "updatedAt"].

(** [list.includes(s)] *)
Definition includes (l : list string) (s : string) : bool :=
  existsb (String.eqb s) l.

(** [errors.push(m)] *)
Definition push (errors : list string) (m : string) : list string :=
  errors ++ [m].

Section WithLibraries.

Variable purify : list string -> string -> string.

(** [validator.isEmail] of the validator package. *)
Variable isEmail : string -> bool.

Definition sanitize (v : value) : string := sanitizeInput purify v no_options.

(** The sanitized copy of the fields. *)
Definition formDataOf (b : body) : formData :=
  {| fd_name := sanitize (or_else (b_name b) (JStr ""));
     fd_email := sanitize (or_else (b_email b) (JStr ""));
     fd_phone := sanitize (or_else (b_phone b) (JStr ""));
     fd_terms := if truthy (b_terms b) then "on" else "" |}.

(** The five blocks of checks, each pushing onto the [errors] it is given. *)
Definition check_name (fd : formData) (errors : list string) : list string :=
  if String.eqb (fd_name fd) "" then
    push errors "Name is required"
  else if ((String.length (fd_name fd) <? 4)%nat
           || (30 <? String.length (fd_name fd))%nat)%bool then
    push errors "Name must be between 4 and 30 characters long"
  else if negb (re_name (fd_name fd)) then
    push errors "Name must contain only alphabetic characters and spaces"
  else errors.

Definition check_email (fd : formData) (errors : list string) : list string :=
  if String.eqb (fd_email fd) "" then
    push errors "Email is required"
  else if negb (isEmail (fd_email fd)) then
    push errors "Please provide a valid email address"
  else errors.

Definition check_phone (fd : formData) (errors : list string) : list string :=
  if String.eqb (fd_phone fd) "" then
    push errors "Phone number is required"
  else if negb (re_phone (fd_phone fd)) then
    push errors "Phone number must be exactly 10 digits"
  else errors.

Definition check_terms (b : body) (errors : list string) : list string :=
  if negb (truthy (b_terms b)) then
    push errors "You must accept the Terms & Conditions"
  else errors.

Definition check_file (f : option file) (errors : list string) : list string :=
  match f with
  | None => push errors "Image is required"
  | Some f =>
      let errors :=
        if negb (includes allowedMimeTypes (mimetype f)) then
          push errors "Image must be in JPG, JPEG, or PNG format"
        else errors in
      if size f >? maxFileSize then
        push errors "Image size must not exceed 2MB"
      else errors
  end.

(** The [errors] array when the checks are over. *)
Definition submissionErrors (req : request) : list string :=
  let fd := formDataOf (req_body req) in
  let errors := [] in
  let errors := check_name fd errors in
  let errors := check_email fd errors in
  let errors := check_phone fd errors in
  let errors := check_terms (req_body req) errors in
  check_file (req_file req) errors.

Definition with_validatedData (req : request) (v : validatedData) : request :=
  {| req_ip := req_ip req; req_body := req_body req; req_file := req_file req;
     req_query := req_query req; req_validatedData := Some v;
     req_queryOptions := req_queryOptions req |}.

(** [validateSubmission(req, res, next)]: the request as it leaves the
    middleware, and whether [next()] was called or a response sent. *)
Definition validateSubmission (req : request) : request * outcome :=
  let formData := formDataOf (req_body req) in
  let errors := submissionErrors req in
  if (0 <? length errors)%nat then
    (req, Respond (RenderForm 400 (join ". " errors) (Sanitized formData)))
  else
    (with_validatedData req
       {| vd_name := fd_name formData;
          vd_email := toLowerCase (fd_email formData);
          vd_phone := fd_phone formData;
          vd_terms := true |},
     Next).

Definition with_queryOptions (req : request) (o : queryOptions) : request :=
  {| req_ip := req_ip req; req_body := req_body req; req_file := req_file req;
     req_query := req_query req; req_validatedData := req_validatedData req;
     req_queryOptions := Some o |}.

(** A query parameter as a value: absent is [undefined]. *)
Definition param (p : option string) : value :=
  match p with
  | Some s => JStr s
  | None => JUndefined
  end.

Definition pageNumOf (page : option string) : Z :=
  if truthy (param page) then
    match parseInt (sanitize (param page)) with
    | Some n => if n <? 1 then 1 else n
    | None => 1
    end
  else 1.

Definition limitNumOf (limit : option string) : Z :=
  if truthy (param limit) then
    match parseInt (sanitize (param limit)) with
    | Some n => if ((n <? 1) || (50 <? n))%bool then 10 else n
    | None => 10
    end
  else 10.

Definition sortOf (sort : option string) : string * Z :=
  if truthy (param sort) then
    let sortValue := sanitize (param sort) in
    let '(sortField, sortOrder) :=
      if startsWithChar "-" sortValue
      then (substring1 sortValue, -1)
      else (sortValue, 1) in
    if negb (includes allowedSortFields sortField)
    then ("createdAt", -1)
    else (sortField, sortOrder)
  else ("createdAt", -1).

(** [validateSubmissionsQuery(req, res, next)]; it always calls [next()]. *)
Definition validateSubmissionsQuery (req : request) : request * outcome :=
  let pageNum := pageNumOf (q_page (req_query req)) in
  let limitNum := limitNumOf (q_limit (req_query req)) in
  let '(sortField, sortOrder) := sortOf (q_sort (req_query req)) in
  (with_queryOptions req
     {| qo_page := pageNum;
        qo_limit := limitNum;
        qo_skip := (pageNum - 1) * limitNum;
        qo_sortBy := sortField;
        qo_sortOrder := sortOrder |},
   Next).

End WithLibraries.

(** *** rateLimit *)

(** An entry of [req.app.locals.rateLimitStore]. *)
Record clientData := ClientData {
  count : Z;
  resetTime : Z
}.

(** [15 * 60 * 1000] *)
Definition windowMs : Z := 15 * 60 * 1000.
Definition maxRequests : Z := 10.

(** [rateLimit(req, res, next)] at time [now = Date.now()]: the store
    after the call, and whether the request went on.  A store that was
    never created is the empty map. *)
Definition rateLimit (now : Z) (store : gmap string clientData) (req : request)
  : gmap string clientData * outcome :=
  let ip := req_ip req in
  let clientData :=
    default {| count := 0; resetTime := now + windowMs |} (store !! ip) in
  let clientData :=
    if now >? resetTime clientData
    then {| count := 1; resetTime := now + windowMs |}
    else {| count := count clientData + 1; resetTime := resetTime clientData |} in
  let store := <[ip := clientData]> store in
  if count clientData >? maxRequests then
    (store,
     Respond (RenderForm 429 "Too many requests. Please try again later." NoData))
  else (store, Next).

End ValidationMiddleware.

(* ===================================================================== *)
(** ** utils/faceSwapAPI.js *)
(* ===================================================================== *)

Module FaceSwapAPI.
Import Js.
Import Stdlib.Init.Byte.

(** A [Buffer]. *)
Definition buffer := list byte.

(** The file system: the content of each file that exists. *)
Definition disk := gmap string buffer.

(** An async function either resolves or rejects with an [Error]. *)
Inductive result (A : Type) :=
| Resolve (a : A)
| Reject (message : string).
Arguments Resolve {A} a.
Arguments Reject {A} message.

(** What the instance reads from its surroundings. *)
Record env := Env {
  apiKey : value;          (* process.env.REMAKER_API_KEY *)
  now : Z;                 (* Date.now() *)
  random : string;         (* Math.random().toString(36).substring(2, 15) *)
  swappedDir : string;     (* __dirname/../public/uploads/swapped *)
  copyFails : option string (* the error of fs.copyFile, if it fails *)
}.

Definition signatures : list (string * list byte) :=
  [ ("jpg", [xff; xd8; xff]);
    ("png", [x89; x50; x4e; x47]);
    ("gif", [x47; x49; x46]);
    ("webp", [x52; x49; x46; x46]) ].

(** [buffer[index] === byte]; an index past the end reads [undefined]. *)
Definition byte_at (b : buffer) (index : nat) (x : byte) : bool :=
  match b !! index with
  | Some y => Byte.eqb y x
  | None => false
  end.

(** [signature.every((byte, index) => buffer[index] === byte)] *)
Definition every_byte (signature : list byte) (b : buffer) : bool :=
  forallb (fun '(index, x) => byte_at b index x)
          (zip (seq 0 (length signature)) signature).

Definition isValidImageBuffer (b : buffer) : bool :=
  if (length b <? 4)%nat then false
  else existsb (fun '(_, signature) => every_byte signature b) signatures.

Definition getImageFormat (b : buffer) : string :=
  if (length b <? 4)%nat then "unknown"
  else if (byte_at b 0 xff && byte_at b 1 xd8 && byte_at b 2 xff)%bool then "jpeg"
  else if (byte_at b 0 x89 && byte_at b 1 x50 && byte_at b 2 x4e
           && byte_at b 3 x47)%bool then "png"
  else if (byte_at b 0 x47 && byte_at b 1 x49 && byte_at b 2 x46)%bool then "gif"
  else if (byte_at b 0 x52 && byte_at b 1 x49 && byte_at b 2 x46
           && byte_at b 3 x46)%bool then "webp"
  else "unknown".

(** The result object of [validateImage]. *)
Inductive validation :=
| Valid (size : Z) (format : string)
| Invalid (error : string).

Definition valid (v : validation) : bool :=
  match v with
  | Valid _ _ => true
  | Invalid _ => false
  end.

(** The message of the error a call of [fs] ([stat], [open]) throws for
    a file that is not there. *)
Definition enoent (syscall path : string) : string :=
  "ENOENT: no such file or directory, " ++ syscall ++ " '" ++ path ++ "'".

(** [validateImage(imagePath)]; it catches what it throws. *)
Definition validateImage (d : disk) (imagePath : string) : validation :=
  match d !! imagePath with
  | None => Invalid ("Failed to validate image: " ++ enoent "stat" imagePath)
  | Some imageBuffer =>
      let size := Z.of_nat (length imageBuffer) in
      if size >? 2 * 1024 * 1024 then
        Invalid "Image file is too large (max 2MB allowed)"
      else if negb (isValidImageBuffer imageBuffer) then
        Invalid "Invalid image format"
      else Valid size (getImageFormat imageBuffer)
  end.

(** The result object of [swapFace]. *)
Record swapResult := SwapResult {
  success : bool;
  swappedImagePath : string;
  swappedImageFilename : string;
  originalSize : Z;
  processedSize : Z;
  processingTime : Z
}.

(** The text after the last [c] of [s], if [s] has one. *)
Fixpoint after_last (c : ascii) (s : string) : option string :=
  match s with
  | EmptyString => None
  | String d s' =>
      match after_last c s' with
      | Some r => Some r
      | None => if Ascii.eqb c d then Some s' else None
      end
  end.

(** [path.extname]: from the last dot of the last portion of the path,
    a dot that starts the portion not counting. *)
Definition extname (p : string) : string :=
  let base := default p (after_last "/" p) in
  if String.eqb base ".." then ""
  else match base with
       | String _ rest =>
           match after_last "." rest with
           | Some e => "." ++ e
           | None => ""
           end
       | EmptyString => ""
       end.

(** The decimal digits of an integer, for a template string.  A number
    has no more decimal digits than binary ones, which bounds the loop. *)
Definition digit_char (n : Z) : ascii := ascii_of_N (Z.to_N (48 + n mod 10)).

Fixpoint decimal_from (fuel : nat) (n : Z) (acc : string) : string :=
  match fuel with
  | O => acc
  | S fuel' =>
      let acc := String (digit_char n) acc in
      if n / 10 =? 0 then acc else decimal_from fuel' (n / 10) acc
  end.

Definition decimal (n : Z) : string :=
  let m := Z.abs n in
  (if n <? 0 then "-" else "")
  ++ decimal_from (S (Z.to_nat (Z.log2 m))) m "".

(** [simulateFaceSwap(originalImagePath)]: the disk afterwards and the
    result. *)
Definition simulateFaceSwap (e : env) (d : disk) (originalImagePath : string)
  : disk * result swapResult :=
  match d !! originalImagePath with
  | None => (d, Reject (enoent "open" originalImagePath))
  | Some originalImageBuffer =>
      let timestamp := now e in
      let randomString := random e in
      let extension := extname originalImagePath in
      let outputFilename :=
        "swapped_" ++ decimal timestamp ++ "_" ++ randomString ++ extension in
      let outputPath := swappedDir e ++ "/" ++ outputFilename in
      match copyFails e with
      | Some err => (d, Reject err)
      | None =>
          (<[outputPath := originalImageBuffer]> d,
           Resolve {| success := true;
                      swappedImagePath := outputPath;
                      swappedImageFilename := outputFilename;
                      originalSize := Z.of_nat (length originalImageBuffer);
                      processedSize := Z.of_nat (length originalImageBuffer);
                      processingTime := 2000 |})
      end
  end.

(** [swapFace(originalImagePath)] *)
Definition swapFace (e : env) (d : disk) (originalImagePath : string)
  : disk * result swapResult :=
  if negb (truthy (apiKey e)) then
    (d, Reject ("Face swap operation failed: " ++ "Remaker API key not configured"))
  else
    match simulateFaceSwap e d originalImagePath with
    | (d', Resolve r) => (d', Resolve r)
    | (d', Reject m) => (d', Reject ("Face swap operation failed: " ++ m))
    end.

(** The two methods the controller calls, as an interface. *)
Record api := Api {
  api_validateImage : disk -> string -> validation;
  api_swapFace : disk -> string -> disk * result swapResult
}.

(** The singleton the module exports. *)
Definition faceSwapAPI (e : env) : api :=
  {| api_validateImage := validateImage; api_swapFace := swapFace e |}.

End FaceSwapAPI.

(* ===================================================================== *)
(** ** controllers/submissionController.js *)
(* ===================================================================== *)

Module SubmissionController.
Import Js Http FaceSwapAPI.

(** The module's two variables, [submissions] and [submissionId], and the
    disk the transformation client writes to. *)
Record state := State {
  submissions : list submission;
  submissionId : Z;
  files : disk
}.

Definition with_files (st : state) (d : disk) : state :=
  {| submissions := submissions st; submissionId := submissionId st; files := d |}.

(** [terms === 'on' || terms === true] *)
Definition terms_accepted (terms : value) : bool :=
  match terms with
  | JStr s => String.eqb s "on"
  | JBool b => b
  | _ => false
  end.

(** [handleSubmission(req, res)] at time [now], with the transformation
    client [api].  A rejection of [swapFace] is caught by the handler's
    [catch]; what the client wrote to the disk before it stays. *)
Definition handleSubmission (api : api) (now : Z) (st : state) (req : request)
  : state * response :=
  let '(Body name email phone terms) := req_body req in
  match req_file req with
  | None => (st, JsonError 400 "No image file uploaded")
  | Some uploadedFile =>
      match api_validateImage api (files st) (path uploadedFile) with
      | Invalid error => (st, JsonError 400 error)
      | Valid _ _ =>
          match api_swapFace api (files st) (path uploadedFile) with
          | (d, Reject _) =>
              (with_files st d, JsonError 500 "Internal server error during processing")
          | (d, Resolve faceSwapResult) =>
              if negb (success faceSwapResult) then
                (with_files st d, JsonError 500 "Face swap processing failed")
              else
                let submission :=
                  {| s_id := submissionId st;
                     s_name := name;
                     s_email := email;
                     s_phone := phone;
                     s_terms := terms_accepted terms;
                     s_originalImagePath := path uploadedFile;
                     s_originalImageFilename := filename uploadedFile;
                     s_swappedImagePath := swappedImagePath faceSwapResult;
                     s_swappedImageFilename := swappedImageFilename faceSwapResult;
                     s_processingTime := processingTime faceSwapResult;
                     s_createdAt := now;
                     s_status := "completed" |} in
                ({| submissions := submissions st ++ [submission];
                    submissionId := submissionId st + 1;
                    files := d |},
                 JsonSubmitted 200 "Face swap completed successfully!"
                   (s_id submission)
                   ("/uploads/swapped/" ++ s_swappedImageFilename submission)
                   (s_processingTime submission))
          end
      end
  end.

(** [parseInt(req.query.page) || 1]; [parseInt(undefined)] is NaN. *)
Definition pageOf (q : query) : Z :=
  num_or (q_page q ≫= parseInt) 1.

(** [Math.min(parseInt(req.query.limit) || 10, 50)] *)
Definition limitOf (q : query) : Z :=
  Z.min (num_or (q_limit q ≫= parseInt) 10) 50.

(** [req.query.sort || 'createdAt'] *)
Definition sortKeyOf (q : query) : string :=
  match q_sort q with
  | Some s => if String.eqb s "" then "createdAt" else s
  | None => "createdAt"
  end.

(** [array.slice(start, end)]: a negative index counts from the end. *)
Definition slice {A} (l : list A) (start stop : Z) : list A :=
  let len := Z.of_nat (length l) in
  let clamp i := if i <? 0 then Z.max (len + i) 0 else Z.min i len in
  let from := clamp start in
  let to := clamp stop in
  firstn (Z.to_nat (Z.max (to - from) 0)) (skipn (Z.to_nat from) l).

(** [Math.ceil(a / b)] for integers, [b] not 0. *)
Definition ceil_div (a b : Z) : Z := - ((- a) / b).

Section WithSort.

(** [[...submissions].sort(compare)] for the comparison the handler builds
    from the sort key (it calls [localeCompare] and compares dates). *)
Variable sortedBy : string -> list submission -> list submission.

(** [renderSubmissions(req, res)]; the page holds the records as stored
    (the handler then adds the URLs and the formatted date the template
    shows). *)
Definition renderSubmissions (st : state) (req : request) : response :=
  let page := pageOf (req_query req) in
  let limit := limitOf (req_query req) in
  let sort := sortKeyOf (req_query req) in
  let sortedSubmissions := sortedBy sort (submissions st) in
  let startIndex := (page - 1) * limit in
  let endIndex := startIndex + limit in
  let paginatedSubmissions := slice sortedSubmissions startIndex endIndex in
  let total := Z.of_nat (length (submissions st)) in
  let totalPages := ceil_div total limit in
  RenderSubmissions 200 paginatedSubmissions
    {| totalCount := total;
       currentPage := page;
       totalPages := totalPages;
       hasNext := page <? totalPages;
       hasPrev := 1 <? page;
       nextPage := page + 1;
       prevPage := page - 1 |}.

End WithSort.

End SubmissionController.

(* ===================================================================== *)
(** ** middleware/upload.js and routes/submissionRoutes.js *)
(* ===================================================================== *)

Module Routes.
Import Js Http FaceSwapAPI ValidationMiddleware SubmissionController.

(** The error multer hands to the callback of [handleUpload]. *)
Inductive uploadError :=
| LimitFileSize
| LimitUnexpectedFile
| OtherMulterError (message : string)
| OtherError (message : string).

(** [handleUpload(req, res, next)], given what [uploadSingle] reported. *)
Definition handleUpload (err : option uploadError) (req : request) : outcome :=
  match err with
  | Some LimitFileSize =>
      Respond (RenderForm 400 "File size too large. Maximum allowed size is 2MB."
                 (Raw (req_body req)))
  | Some LimitUnexpectedFile =>
      Respond (RenderForm 400 "Unexpected file field. Please use the correct form."
                 (Raw (req_body req)))
  | Some (OtherMulterError message) =>
      Respond (RenderForm 400 ("File upload error: " ++ message) (Raw (req_body req)))
  | Some (OtherError message) =>
      Respond (RenderForm 400 message (Raw (req_body req)))
  | None => Next
  end.

(** The state of the application: the rate-limit store of [app.locals]
    and the state of the controller. *)
Record app := App {
  rateLimitStore : gmap string clientData;
  db : state
}.

Section WithLibraries.

Variable purify : list string -> string -> string.
Variable isEmail : string -> bool.
Variable api : api.

(** [router.post('/submit', rateLimit, handleUpload, validateSubmission,
    handleSubmission)]: the request arrives at time [now] with the upload
    multer made of it ([req.body], [req.file], or the error [upload]); the
    handler stamps the record with [created]. *)
Definition postSubmit (now created : Z) (upload : option uploadError)
    (a : app) (req : request) : app * response :=
  match rateLimit now (rateLimitStore a) req with
  | (store, Respond r) => ({| rateLimitStore := store; db := db a |}, r)
  | (store, Next) =>
      match handleUpload upload req with
      | Respond r => ({| rateLimitStore := store; db := db a |}, r)
      | Next =>
          match validateSubmission purify isEmail req with
          | (_, Respond r) => ({| rateLimitStore := store; db := db a |}, r)
          | (req, Next) =>
              let '(st, r) := handleSubmission api created (db a) req in
              ({| rateLimitStore := store; db := st |}, r)
          end
      end
  end.

Variable sortedBy : string -> list submission -> list submission.

(** [router.get('/submissions', validateSubmissionsQuery,
    renderSubmissions)] *)
Definition getSubmissions (st : state) (req : request) : response :=
  match validateSubmissionsQuery purify req with
  | (req, Next) => renderSubmissions sortedBy st req
  | (_, Respond r) => r
  end.

End WithLibraries.

End Routes.

(* ===================================================================== *)
(** ** models/submission.js *)
(* ===================================================================== *)

Module SubmissionModel.
Import Js FaceSwapAPI.

(** A document of the collection: its fields by name, [_id] apart (the
    collection is keyed by it).  The field names are top-level ones (no
    dotted path and no operator). *)
Abbreviation document := (gmap string value).

(** The [submissions] collection, keyed by the hexadecimal form of the
    [ObjectId]. *)
Abbreviation collection := (gmap string (gmap string value)).

Section WithObjectId.

(** [ObjectId.isValid(id)] and the key of [new ObjectId(id)], of the
    mongodb package. *)
Variable isValid : string -> bool.
Variable objectId : string -> string.

(** [{ ...updateData, updatedAt: new Date() }] *)
Definition updatedDataOf (now : Z) (updateData : document) : document :=
  <["updatedAt" := JDate now]> updateData.

(** [$set]: every field of the update replaces or adds the field of the
    document; the other fields stay. *)
Definition set_fields (update doc : document) : document := update ∪ doc.

(** [updateById(id, updateData)] at time [now]: the collection afterwards
    and the promise's outcome ([None] is null).  The server refuses a
    [$set] that changes the [_id] of the document it found (no [value]
    of the embedding is that [_id]), which the method rethrows. *)
Definition updateById (now : Z) (c : collection) (id : string)
    (updateData : document) : collection * result (option document) :=
  if negb (isValid id) then (c, Resolve None)
  else
    let updatedData := updatedDataOf now updateData in
    match c !! objectId id with
    | Some doc =>
        match updatedData !! "_id" with
        | Some _ => (c, Reject "Failed to update submission")
        | None =>
            let doc' := set_fields updatedData doc in
            (<[objectId id := doc']> c, Resolve (Some doc'))
        end
    | None => (c, Resolve None)
    end.

End WithObjectId.

(** Identifiers of 24 hexadecimal digits, keyed by their lower case. *)
Definition isValid_hex24 : string -> bool := re_objectid.
Definition objectId_hex24 : string -> string := toLowerCase.

End SubmissionModel.

(* ===================================================================== *)
(** ** utils/sanitizer.js: the field sanitizers *)
(* ===================================================================== *)

Module SanitizerHelpers.
Import Js.
Export Sanitizer.

(** [s.replace(/[class]/g, rep)]: every character of the class gives
    way to [rep]. *)
Fixpoint replace_chars (f : ascii -> bool) (rep : string) (s : string) : string :=
  match s with
  | EmptyString => EmptyString
  | String c s' =>
      if f c then rep ++ replace_chars f rep s'
      else String c (replace_chars f rep s')
  end.

(** A run of 1 or more, or of 2 or more, characters of a class:
    [/\s+/] and [/_{2,}/]. *)
Definition re_run (atLeast : nat) (f : ascii -> bool) : matcher := fun s =>
  let n := span f s in
  if (atLeast <=? n)%nat then Some n else None.

(** [[\w\.-@]]: a word character, or one from [.] to [@] (the hyphen
    between the escaped dot and the [@] makes a range). *)
Definition email_char (c : ascii) : bool := (is_word c || between 46 64 c)%bool.

(** [[a-zA-Z\s]] *)
Definition name_char (c : ascii) : bool := (is_alpha c || is_space c)%bool.

(** [[a-zA-Z0-9.-]] *)
Definition filename_char (c : ascii) : bool :=
  (is_alpha c || is_digit c || Ascii.eqb c "." || Ascii.eqb c "-")%bool.

(** [{ trim: true }] *)
Definition trim_option : options := Options None None (Some true) None.

(** The characters [escapeForDatabase] escapes. *)
Definition backslash : ascii := ascii_of_nat 92.
Definition quote : ascii := ascii_of_nat 39.
Definition doublequote : ascii := ascii_of_nat 34.
Definition newline : ascii := ascii_of_nat 10.
Definition carriage : ascii := ascii_of_nat 13.
Definition tab : ascii := ascii_of_nat 9.

(** A backslash and the character [c]. *)
Definition escaped (c : ascii) : string := String backslash (String c EmptyString).

(** [escapeForDatabase(input)] *)
Definition escapeForDatabase (input : value) : string :=
  match input with
  | JStr input =>
      let s := replace_chars (Ascii.eqb backslash) (escaped backslash) input in
      let s := replace_chars (Ascii.eqb quote) (escaped quote) s in
      let s := replace_chars (Ascii.eqb doublequote) (escaped doublequote) s in
      let s := replace_chars (Ascii.eqb newline) (escaped "n") s in
      let s := replace_chars (Ascii.eqb carriage) (escaped "r") s in
      replace_chars (Ascii.eqb tab) (escaped "t") s
  | _ => ""
  end.

(** [lowerFilename.endsWith(ext)] *)
Fixpoint endsWith (ext s : string) : bool :=
  (String.eqb s ext
   || match s with
      | String _ s' => endsWith ext s'
      | EmptyString => false
      end)%bool.

Definition dangerousExtensions : list string :=
  [".exe"; ".bat"; ".cmd"; ".com"; ".pif"; ".scr"; ".vbs"; ".js";
   ".jar"; ".php"; ".asp"; ".aspx"; ".jsp"; ".py"; ".rb"; ".pl"].

(** [isSafeFilename(filename)] *)
Definition isSafeFilename (filename : value) : bool :=
  match filename with
  | JStr filename =>
      let lowerFilename := toLowerCase filename in
      negb (existsb (fun ext => endsWith ext lowerFilename) dangerousExtensions)
  | _ => false
  end.

Section WithPurify.

Variable purify : list string -> string -> string.

(** [sanitizeEmail(email)] *)
Definition sanitizeEmail (email : value) : string :=
  match email with
  | JStr _ =>
      remove_chars (fun c => negb (email_char c))
        (toLowerCase (sanitizeInput purify email trim_option))
  | _ => ""
  end.

(** [sanitizeName(name)] *)
Definition sanitizeName (name : value) : string :=
  match name with
  | JStr _ =>
      replace (re_run 1 is_space) " "
        (remove_chars (fun c => negb (name_char c))
           (sanitizeInput purify name trim_option))
  | _ => ""
  end.

(** [sanitizeFilename(filename)] *)
Definition sanitizeFilename (filename : value) : string :=
  match filename with
  | JStr _ =>
      toLowerCase
        (replace (re_run 2 (Ascii.eqb "_")) "_"
           (replace_chars (fun c => negb (filename_char c)) "_"
              (sanitizeInput purify filename trim_option)))
  | _ => ""
  end.

End WithPurify.

End SanitizerHelpers.

(* ===================================================================== *)
(** ** middleware/upload.js: the file filter and the file checks *)
(* ===================================================================== *)

Module Upload.
Import Js Http FaceSwapAPI ValidationMiddleware.

Definition allowedExtensions : list string := [".jpg"; ".jpeg"; ".png"].

(** The [filename] function of the storage, at the time [timestamp] and
    with the random string [randomString]. *)
Definition storageFilename (timestamp : Z) (randomString : string) (f : file)
  : string :=
  let extension := toLowerCase (extname (originalname f)) in
  decimal timestamp ++ "-" ++ randomString ++ extension.

(** [fileFilter(req, file, cb)]: [cb(null, true)], or [cb] with the
    error. *)
Definition fileFilter (f : file) : result bool :=
  let fileExtension := toLowerCase (extname (originalname f)) in
  if (includes allowedMimeTypes (mimetype f)
      && includes allowedExtensions fileExtension)%bool
  then Resolve true
  else Reject "Only JPG, JPEG, and PNG images are allowed".

(** [validateUploadedFile(filePath)]: whatever goes wrong, the error
    thrown on is the same one. *)
Definition validateUploadedFile (d : disk) (filePath : string) : result bool :=
  match d !! filePath with
  | None => Reject "Invalid file upload"
  | Some content =>
      if Z.of_nat (length content) >? 2 * 1024 * 1024
      then Reject "Invalid file upload"
      else Resolve true
  end.

(** [cleanupFile(filePath)]: the disk afterwards; a failure of [unlink]
    is logged only. *)
Definition cleanupFile (d : disk) (filePath : string) : disk :=
  delete filePath d.

End Upload.

(* ===================================================================== *)
(** ** utils/faceSwapAPI.js: cleanup *)
(* ===================================================================== *)

Module FaceSwapFiles.
Import Js FaceSwapAPI.

(** [cleanup(filePaths)]: each file is unlinked in turn, and a failure
    is logged only. *)
Definition cleanup (d : disk) (filePaths : list string) : disk :=
  foldl (fun d filePath => delete filePath d) d filePaths.

End FaceSwapFiles.

(* ===================================================================== *)
(** ** The handlers of one submission *)
(* ===================================================================== *)

Module Api.
Import Js Http FaceSwapAPI FaceSwapFiles ValidationMiddleware
  SubmissionController.

(** [submissionDetails], the record without its file paths. *)
Record details := Details {
  d_id : Z;
  d_name : value;
  d_email : value;
  d_phone : value;
  d_createdAt : Z;
  d_status : string;
  d_processingTime : Z;
  d_originalImageUrl : string;
  d_swappedImageUrl : string
}.

(** What these handlers send as JSON. *)
Inductive reply :=
| ErrorOnly (status : Z) (error : string)          (* { error } *)
| Failure (status : Z) (error : string)            (* { success: false, error } *)
| Found (submission : details)                     (* { success: true, submission } *)
| Done (message : string).                         (* { success: true, message } *)

Definition reply_status (r : reply) : Z :=
  match r with
  | ErrorOnly s _ | Failure s _ => s
  | Found _ | Done _ => 200
  end.

(** [submissions.find(s => s.id === submissionId)]; NaN is no identifier
    of a record. *)
Definition findSubmission (l : list submission) (submissionId : option Z)
  : option submission :=
  match submissionId with
  | Some n => List.find (fun s => s_id s =? n) l
  | None => None
  end.

(** [getSubmissionDetails(req, res)], given [req.params.id]. *)
Definition getSubmissionDetails (st : state) (id : string) : reply :=
  let submissionId := parseInt id in
  match findSubmission (submissions st) submissionId with
  | None => Failure 404 "Submission not found"
  | Some submission =>
      Found {| d_id := s_id submission;
               d_name := s_name submission;
               d_email := s_email submission;
               d_phone := s_phone submission;
               d_createdAt := s_createdAt submission;
               d_status := s_status submission;
               d_processingTime := s_processingTime submission;
               d_originalImageUrl :=
                 "/uploads/" ++ s_originalImageFilename submission;
               d_swappedImageUrl :=
                 "/uploads/swapped/" ++ s_swappedImageFilename submission |}
  end.

(** [submissions.findIndex(s => s.id === submissionId)]; [None] is -1. *)
Fixpoint findIndex (l : list submission) (n : Z) : option nat :=
  match l with
  | [] => None
  | s :: r => if s_id s =? n then Some O else S <$> findIndex r n
  end.

(** [[a, b].filter(Boolean)]: the paths that are not empty. *)
Definition nonEmpty (paths : list string) : list string :=
  List.filter (fun p => negb (String.eqb p "")) paths.

(** What [deleteSubmission] holds on to while it awaits the cleanup: the
    index [findIndex] gave it and the files of the record it read
    there. *)
Record deletion := Deletion {
  del_index : nat;
  del_files : list string
}.

(** [deleteSubmission(req, res)], given [req.params.id], runs in three
    parts, and other handlers may run between them.  The first part, up
    to the [await]: the index is looked up and the record read ([None]
    is the 404; the index found is one of the list). *)
Definition deleteFind (st : state) (id : string) : option deletion :=
  match parseInt id ≫= findIndex (submissions st) with
  | None => None
  | Some submissionIndex =>
      match submissions st !! submissionIndex with
      | None => None
      | Some submission =>
          Some {| del_index := submissionIndex;
                  del_files :=
                    nonEmpty [s_originalImagePath submission;
                              s_swappedImagePath submission] |}
      end
  end.

(** [await faceSwapAPI.cleanup(filesToCleanup)] *)
Definition deleteCleanup (st : state) (d : deletion) : state :=
  with_files st (cleanup (files st) (del_files d)).

(** The part after the [await]:
    [submissions.splice(submissionIndex, 1)] with the index found
    before, on the array as it is by then, and the response. *)
Definition deleteSplice (st : state) (d : deletion) : state * reply :=
  ({| submissions := delete (del_index d) (submissions st);
      submissionId := submissionId st;
      files := files st |},
   Done "Submission deleted successfully").

(** A [deleteSubmission(req, res)] that no other handler runs in
    between of. *)
Definition deleteSubmission (st : state) (id : string) : state * reply :=
  match deleteFind st id with
  | None => (st, Failure 404 "Submission not found")
  | Some d => deleteSplice (deleteCleanup st d) d
  end.

Section WithPurify.

Variable purify : list string -> string -> string.

(** What [validateObjectId] does: it sends a response, or it stores the
    sanitized identifier in [req.params] and calls [next()]. *)
Inductive checked :=
| Refused (r : reply)
| Passed (sanitizedId : string).

(** [validateObjectId(paramName)(req, res, next)], given
    [req.params[paramName]]. *)
Definition validateObjectId (paramName : string) (id : option string)
  : checked :=
  if negb (truthy (param id)) then
    Refused (ErrorOnly 400 (paramName ++ " parameter is required"))
  else
    let sanitizedId := sanitizeInput purify (param id) no_options in
    if negb (re_objectid sanitizedId) then
      Refused (ErrorOnly 400 ("Invalid " ++ paramName ++ " format"))
    else Passed sanitizedId.

(** [router.get('/submissions/:id', validateObjectId('id'),
    getSubmissionDetails)] *)
Definition getSubmission (st : state) (id : string) : reply :=
  match validateObjectId "id" (Some id) with
  | Refused r => r
  | Passed id => getSubmissionDetails st id
  end.

(** [router.delete('/submissions/:id', validateObjectId('id'),
    deleteSubmission)] *)
Definition deleteRoute (st : state) (id : string) : state * reply :=
  match validateObjectId "id" (Some id) with
  | Refused r => (st, r)
  | Passed id => deleteSubmission st id
  end.

End WithPurify.

End Api.

(* ===================================================================== *)
(** ** models/submission.js: create, find, delete, count *)
(* ===================================================================== *)

Module SubmissionStore.
Import Js FaceSwapAPI SubmissionModel.

Section WithObjectId.

Variable isValid : string -> bool.
Variable objectId : string -> string.

(** [create(submissionData)] at time [now], the server storing the
    document under the fresh identifier [insertedId]; the data carry no
    [_id] of their own.  The result is the identifier and the fields. *)
Definition create (now : Z) (insertedId : string) (c : collection)
    (submissionData : document) : collection * (string * document) :=
  let submission :=
    <["updatedAt" := JDate now]> (<["createdAt" := JDate now]> submissionData) in
  (<[insertedId := submission]> c, (insertedId, submission)).

(** [findById(id)]; [None] is null. *)
Definition findById (c : collection) (id : string) : option document :=
  if negb (isValid id) then None else c !! objectId id.

(** [deleteById(id)]: the collection afterwards and whether one document
    was deleted. *)
Definition deleteById (c : collection) (id : string) : collection * bool :=
  if negb (isValid id) then (c, false)
  else
    match c !! objectId id with
    | Some _ => (delete (objectId id) c, true)
    | None => (c, false)
    end.

(** [count()] *)
Definition count (c : collection) : nat := size c.

End WithObjectId.

End SubmissionStore.

(* ===================================================================== *)
(** ** The scripts of the form page *)
(* ===================================================================== *)

Module Browser.
Import Js.

(** The [rules] of [validateField]; [None] is a rule that is absent, and
    [pattern] is the [test] of the regular expression. *)
Record rules := Rules {
  required : bool;
  minLength : option nat;
  maxLength : option nat;
  pattern : option (string -> bool);
  patternMessage : option string
}.

(** [rules.minLength && ...]: a length of 0 is no rule. *)
Definition rule_length (r : option nat) : option nat :=
  match r with
  | Some O => None
  | r => r
  end.

(** [rules.patternMessage || default]: an empty message is none. *)
Definition message_or (m : option string) (d : string) : string :=
  match m with
  | Some m => if String.eqb m "" then d else m
  | None => d
  end.

(** [validateField(field, rules)], given [field.name] and
    [field.value]. *)
Definition validateField (name value : string) (r : rules) : list string :=
  let value := trim value in
  let errors := [] in
  let errors :=
    if (required r && String.eqb value "")%bool
    then ValidationMiddleware.push errors (name ++ " is required")
    else errors in
  let errors :=
    match rule_length (minLength r) with
    | Some n =>
        if (String.length value <? n)%nat
        then ValidationMiddleware.push errors
               (name ++ " must be at least "
                ++ FaceSwapAPI.decimal (Z.of_nat n) ++ " characters")
        else errors
    | None => errors
    end in
  let errors :=
    match rule_length (maxLength r) with
    | Some n =>
        if (n <? String.length value)%nat
        then ValidationMiddleware.push errors
               (name ++ " must not exceed "
                ++ FaceSwapAPI.decimal (Z.of_nat n) ++ " characters")
        else errors
    | None => errors
    end in
  match pattern r with
  | Some test =>
      if negb (test value)
      then ValidationMiddleware.push errors
             (message_or (patternMessage r) (name ++ " format is invalid"))
      else errors
  | None => errors
  end.

(** The result of [validateImageFile]. *)
Inductive fileCheck :=
| IsValid
| NotValid (message : string).

(** [validateImageFile(file)], given [file.type] and [file.size]. *)
Definition validateImageFile (type : string) (size : Z) : fileCheck :=
  let maxSize := 2 * 1024 * 1024 in
  let allowedTypes := ["image/jpeg"; "image/jpg"; "image/png"] in
  if negb (ValidationMiddleware.includes allowedTypes type) then
    NotValid "Only JPG, JPEG, and PNG files are allowed"
  else if size >? maxSize then
    NotValid "File size must not exceed 2MB"
  else IsValid.

(** The [input] listener of the phone field: what [this.value] is after
    it. *)
Definition phoneInput (value : string) : string :=
  let value := remove_chars (fun c => negb (is_digit c)) value in
  if (10 <? String.length value)%nat then take 10 value else value.

(** The rules the page gives the three fields. *)
Definition nameRules : rules :=
  Rules true (Some 4%nat) (Some 30%nat) (Some re_name)
    (Some "Name must contain only alphabetic characters").

Definition phoneRules : rules :=
  Rules true None None (Some re_phone)
    (Some "Phone number must be exactly 10 digits").

End Browser.

(* ===================================================================== *)
(** ** The vocabulary of the properties *)
(* ===================================================================== *)

Module Spec.
Import Js Http FaceSwapAPI ValidationMiddleware SubmissionController Routes.

(** *** The sanitizer *)

(** [sanitizeInput] with the default options, on a string. *)
Definition sanitized (purify : list string -> string -> string) (x : string)
  : string :=
  sanitizeInput purify (JStr x) no_options.

(** The characters one of the sanitizer's patterns starts from or ends
    with: markup, entities, the colon of a scheme, the [=] of a handler,
    the parenthesis of [expression(], and the control characters. *)
Definition special (c : ascii) : bool :=
  (Ascii.eqb "<" c || Ascii.eqb "&" c || Ascii.eqb ":" c || Ascii.eqb "=" c
   || Ascii.eqb "(" c || is_control c)%bool.

(** Text that holds none of them. *)
Definition plain_text (x : string) : bool := negb (has_char special x).

Definition is_string (v : value) : bool :=
  match v with
  | JStr _ => true
  | _ => false
  end.

(** *** The rules of the validator, as the specification lists them *)

Definition name_rule (fd : formData) : bool :=
  (negb (String.eqb (fd_name fd) "")
   && (4 <=? String.length (fd_name fd))%nat
   && (String.length (fd_name fd) <=? 30)%nat
   && re_name (fd_name fd))%bool.

Definition email_rule (isEmail : string -> bool) (fd : formData) : bool :=
  (negb (String.eqb (fd_email fd) "") && isEmail (fd_email fd))%bool.

Definition phone_rule (fd : formData) : bool :=
  (negb (String.eqb (fd_phone fd) "") && re_phone (fd_phone fd))%bool.

Definition terms_rule (b : body) : bool := truthy (b_terms b).

Definition file_rule (f : option file) : bool :=
  match f with
  | Some f => (includes allowedMimeTypes (mimetype f) && (size f <=? maxFileSize))%bool
  | None => false
  end.

(** The messages of each rule. *)
Definition name_messages : list string :=
  ["Name is required";
   "Name must be between 4 and 30 characters long";
   "Name must contain only alphabetic characters and spaces"].

Definition email_messages : list string :=
  ["Email is required"; "Please provide a valid email address"].

Definition phone_messages : list string :=
  ["Phone number is required"; "Phone number must be exactly 10 digits"].

Definition terms_messages : list string :=
  ["You must accept the Terms & Conditions"].

Definition file_messages : list string :=
  ["Image is required";
   "Image must be in JPG, JPEG, or PNG format";
   "Image size must not exceed 2MB"].

(** The errors of a request whose sanitized fields are [fd]: the five
    blocks of checks of [submissionErrors] in a row. *)
Definition errorsOf (isEmail : string -> bool) (fd : formData) (req : request)
  : list string :=
  check_file (req_file req)
    (check_terms (req_body req)
       (check_phone fd (check_email isEmail fd (check_name fd [])))).

(** One of [messages] is among [errors]. *)
Definition mentions (errors messages : list string) : bool :=
  existsb (includes errors) messages.

(** *** The rate limiter *)

Definition tooManyRequests : outcome :=
  Respond (RenderForm 429 "Too many requests. Please try again later." NoData).

(** The outcome for the request that brings the count to [k]. *)
Definition decision (k : Z) : outcome :=
  if k >? maxRequests then tooManyRequests else Next.

(** The requests of a trace, each with the time it arrives at, through
    [rateLimit] in order: the store at the end and the outcome of each. *)
Fixpoint rateLimitAll (store : gmap string clientData)
    (trace : list (Z * request)) : gmap string clientData * list outcome :=
  match trace with
  | [] => (store, [])
  | (now, req) :: rest =>
      let '(store, o) := rateLimit now store req in
      let '(store, os) := rateLimitAll store rest in
      (store, o :: os)
  end.

(** How many requests of a trace come from [ip]. *)
Definition requestsFrom (ip : string) (trace : list (Z * request)) : Z :=
  Z.of_nat (length (filter (fun e => req_ip e.2 = ip) trace)).

(** A window opens for [ip] at time [now]: the store has no entry for it,
    or one whose reset time is over. *)
Definition windowOpens (store : gmap string clientData) (ip : string) (now : Z)
  : Prop :=
  match store !! ip with
  | Some d => now > resetTime d
  | None => True
  end.

(** *** The pipeline *)

(** The transformation failed: the promise was rejected, or the result
    says so. *)
Definition swapFailed (r : result swapResult) : bool :=
  match r with
  | Reject _ => true
  | Resolve r => negb (success r)
  end.

(** *** A scenario to run the pipeline on *)

(** A checker to run the validator with: one [@], something before it
    and a dot inside what follows. *)
Definition isEmail_simple (s : string) : bool :=
  match after_last "@" s with
  | Some domain =>
      let localLen := (String.length s - String.length domain - 1)%nat in
      ((0 <? localLen)%nat
       && negb (has_char (Ascii.eqb "@") (take localLen s))
       && match after_last "." domain with
          | Some tld =>
              (negb (String.eqb tld "")
               && (String.length tld + 1 <? String.length domain)%nat)%bool
          | None => false
          end)%bool
  | None => false
  end.

Definition johnBody : body :=
  {| b_name := JStr "John Doe";
     b_email := JStr "JOHN@EXAMPLE.COM";
     b_phone := JStr "1234567890";
     b_terms := JStr "on" |}.

Definition johnFile : file :=
  {| originalname := "valid.jpg";
     filename := "1700000000000-k3j2h1g0f9e.jpg";
     path := "/app/public/uploads/original/1700000000000-k3j2h1g0f9e.jpg";
     mimetype := "image/jpeg";
     size := 6 |}.

Definition johnRequest : request :=
  {| req_ip := "203.0.113.7";
     req_body := johnBody;
     req_file := Some johnFile;
     req_query := Query None None None;
     req_validatedData := None;
     req_queryOptions := None |}.

(** The first bytes of a JPEG file. *)
Definition jpegBytes : buffer :=
  [Byte.xff; Byte.xd8; Byte.xff; Byte.xe0; Byte.x00; Byte.x10].

Definition someEnv : env :=
  {| apiKey := JStr "secret";
     now := 1700000000500;
     random := "q7w8e9r0t1y";
     swappedDir := "/app/public/uploads/swapped";
     copyFails := None |}.

(** A fresh application with the uploaded file on the disk. *)
Definition freshApp : app :=
  {| rateLimitStore := ∅;
     db := {| submissions := [];
              submissionId := 1;
              files := {[ path johnFile := jpegBytes ]} |} |}.

(** A stored record and its identifier, to run the store on. *)
Definition someId : string := "65a1b2c3d4e5f60718293a4b".

Definition someRecord : SubmissionModel.document :=
  {[ "name" := JStr "John Doe";
     "email" := JStr "john@example.com";
     "status" := JStr "completed";
     "createdAt" := JDate 1700000000000;
     "updatedAt" := JDate 1700000000000 ]}.

Definition someCollection : SubmissionModel.collection :=
  {[ someId := someRecord ]}.

End Spec.

(* ===================================================================== *)
(** ** More vocabulary: shapes of strings *)
(* ===================================================================== *)

Module Shapes.
Import Js SanitizerHelpers.

(** [t] is [s] with some characters left out. *)
Inductive subseq : string -> string -> Prop :=
| subseq_nil : subseq "" ""
| subseq_skip (c : ascii) (t s : string) : subseq t s -> subseq t (String c s)
| subseq_keep (c : ascii) (t s : string) :
    subseq t s -> subseq (String c t) (String c s).

(** No [<] of the string has a [>] anywhere after it: the string holds
    no tag, closed or not, that [/<[^>]*>/] could match. *)
Fixpoint tagless (s : string) : bool :=
  match s with
  | EmptyString => true
  | String c s' =>
      ((negb (Ascii.eqb c "<") || negb (has_char (Ascii.eqb ">") s'))
       && tagless s')%bool
  end.

(** The string starts with a character of the class. *)
Definition starts_in (f : ascii -> bool) (s : string) : bool :=
  match s with
  | String c _ => f c
  | EmptyString => false
  end.

(** No two characters of the class stand next to each other. *)
Fixpoint no_adjacent (f : ascii -> bool) (s : string) : bool :=
  match s with
  | EmptyString => true
  | String c s' => (negb (f c && starts_in f s') && no_adjacent f s')%bool
  end.

(** What [sanitizeEmail] lets through: [a-z], [0-9], [_] and the
    characters from [.] to [@]. *)
Definition email_output_char (c : ascii) : bool :=
  (is_lower c || is_digit c || Ascii.eqb c "_" || between 46 64 c)%bool.

(** What [sanitizeName] lets through: letters and the space. *)
Definition name_output_char (c : ascii) : bool :=
  (is_alpha c || Ascii.eqb c " ")%bool.

(** What [sanitizeFilename] lets through. *)
Definition filename_output_char (c : ascii) : bool :=
  (is_lower c || is_digit c || Ascii.eqb c "." || Ascii.eqb c "-"
   || Ascii.eqb c "_")%bool.

(** What [escapeForDatabase] writes for one character. *)
Definition escape_char (c : ascii) : string :=
  if Ascii.eqb backslash c then escaped backslash
  else if Ascii.eqb quote c then escaped quote
  else if Ascii.eqb doublequote c then escaped doublequote
  else if Ascii.eqb newline c then escaped "n"
  else if Ascii.eqb carriage c then escaped "r"
  else if Ascii.eqb tab c then escaped "t"
  else String c EmptyString.

Fixpoint escape_all (s : string) : string :=
  match s with
  | EmptyString => EmptyString
  | String c s' => escape_char c ++ escape_all s'
  end.

(** The reading that undoes [escapeForDatabase]: a backslash and a
    character stand for one character. *)
Definition unescape_char (d : ascii) : ascii :=
  if Ascii.eqb d "n" then newline
  else if Ascii.eqb d "r" then carriage
  else if Ascii.eqb d "t" then tab
  else d.

Fixpoint unescape (s : string) : string :=
  match s with
  | EmptyString => EmptyString
  | String c s' =>
      if Ascii.eqb backslash c then
        match s' with
        | String d s'' => String (unescape_char d) (unescape s'')
        | EmptyString => String c EmptyString
        end
      else String c (unescape s')
  end.

(** The characters [escapeForDatabase] means to take out of a text. *)
Definition raw_break (c : ascii) : bool :=
  (Ascii.eqb newline c || Ascii.eqb carriage c || Ascii.eqb tab c)%bool.

(** The characters that are no digit. *)
Definition non_digit (c : ascii) : bool := negb (is_digit c).

(** The last character of a string. *)
Fixpoint last_char (s : string) : option ascii :=
  match s with
  | EmptyString => None
  | String c EmptyString => Some c
  | String _ s' => last_char s'
  end.

End Shapes.

(* ===================================================================== *)
(** ** More vocabulary: files, records and pages *)
(* ===================================================================== *)

Module Records.
Import Js Http FaceSwapAPI SubmissionController Routes.
Import Spec.

(** The formats [getImageFormat] knows. *)
Definition knownFormats : list string := ["jpeg"; "png"; "gif"; "webp"].

(** The identifiers of the records in store. *)
Definition ids (st : state) : list Z := map s_id (submissions st).

(** Every record has an identifier of its own, from 1 on and below the
    next one to give. *)
Definition ids_fresh (st : state) : Prop :=
  NoDup (ids st)
  /\ Forall (fun n => 1 <= n < submissionId st) (ids st)
  /\ 1 <= submissionId st.

(** The integers a number of the program holds exactly are those up to
    [2 ^ 53]: up to there the counter counts and [parseInt] reads as the
    definitions say. *)
Definition maxSafe : Z := 2 ^ 53.

(** The state the controller starts in, on a disk. *)
Definition initial (d : disk) : state :=
  {| submissions := []; submissionId := 1; files := d |}.

(** What changes the records: a submission that reaches the handler,
    and a deletion. *)
Inductive action :=
| Submit (api : api) (now : Z) (req : request)
| Delete (id : string).

Definition step (st : state) (a : action) : state :=
  match a with
  | Submit api now req => (handleSubmission api now st req).1
  | Delete id => (Api.deleteSubmission st id).1
  end.

(** The records of the page a response shows. *)
Definition itemsOf (r : response) : list submission :=
  match r with
  | RenderSubmissions _ l _ => l
  | _ => []
  end.

(** The pagination a response shows. *)
Definition paginationOf (r : response) : option pagination :=
  match r with
  | RenderSubmissions _ _ p => Some p
  | _ => None
  end.

(** Sample data: three submissions of John's upload, one of them
    deleted again; a request for a page; a list left in its order. *)
Definition johnSubmits : action :=
  Submit (faceSwapAPI someEnv) 1700000000600 johnRequest.

Definition oneRecord : state := step (db freshApp) johnSubmits.

(** The record of John's submission that got the identifier [n]. *)
Definition johnRecord (n : Z) : submission :=
  {| s_id := n;
     s_name := JStr "John Doe";
     s_email := JStr "JOHN@EXAMPLE.COM";
     s_phone := JStr "1234567890";
     s_terms := true;
     s_originalImagePath := path johnFile;
     s_originalImageFilename := filename johnFile;
     s_swappedImagePath :=
       "/app/public/uploads/swapped/swapped_1700000000500_q7w8e9r0t1y.jpg";
     s_swappedImageFilename := "swapped_1700000000500_q7w8e9r0t1y.jpg";
     s_processingTime := 2000;
     s_createdAt := 1700000000600;
     s_status := "completed" |}.

Definition threeRecords : state :=
  foldl step (db freshApp) [johnSubmits; johnSubmits; johnSubmits].

Definition pageRequest (page limit : string) : request :=
  {| req_ip := "203.0.113.7";
     req_body := Body JUndefined JUndefined JUndefined JUndefined;
     req_file := None;
     req_query := Query (Some page) (Some limit) None;
     req_validatedData := None;
     req_queryOptions := None |}.

Definition unsorted (key : string) (l : list submission) : list submission := l.

End Records.

(* ===================================================================== *)
(** ** Facts about the string primitives *)
(* ===================================================================== *)

Module JsFacts.
Import Js.

Lemma has_char_false_all (f : ascii -> bool) (s : string) :
  has_char f s = false <-> all_chars (fun c => negb (f c)) s = true.
Proof.
  induction s as [|c s IH]; simpl; [tauto|].
  rewrite orb_false_iff, andb_true_iff, negb_true_iff. tauto.
Qed.

Lemma has_char_weaken (f g : ascii -> bool) (s : string) :
  (forall c, f c = true -> g c = true) ->
  has_char g s = false -> has_char f s = false.
Proof.
  intros Hfg. induction s as [|c s IH]; simpl; [easy|].
  rewrite !orb_false_iff. intros [Hc Hs]. split; [|auto].
  destruct (f c) eqn:E; [|easy]. rewrite (Hfg _ E) in Hc. discriminate.
Qed.

(** *** take and remove_chars *)

Lemma take_length (n : nat) (s : string) : (String.length (take n s) <= n)%nat.
Proof.
  revert s. induction n as [|n IH]; intros [|c s]; simpl; try lia.
  specialize (IH s). lia.
Qed.

Lemma take_has_char (f : ascii -> bool) (n : nat) (s : string) :
  has_char f s = false -> has_char f (take n s) = false.
Proof.
  revert s. induction n as [|n IH]; intros [|c s]; simpl; try easy.
  rewrite !orb_false_iff. intros [-> Hs]. auto.
Qed.

Lemma remove_chars_clean (f : ascii -> bool) (s : string) :
  has_char f (remove_chars f s) = false.
Proof.
  induction s as [|c s IH]; simpl; [easy|].
  destruct (f c) eqn:E; simpl; [easy|]. now rewrite E.
Qed.

Lemma remove_chars_id (f : ascii -> bool) (s : string) :
  has_char f s = false -> remove_chars f s = s.
Proof.
  induction s as [|c s IH]; simpl; [easy|].
  rewrite orb_false_iff. intros [-> Hs]. now rewrite IH.
Qed.

(** *** trim *)

Lemma trimStart_head (s : string) :
  trimStart s = "" \/
  exists c r, trimStart s = String c r /\ is_space c = false.
Proof.
  induction s as [|c s IH]; simpl; [now left|].
  destruct (is_space c) eqn:E; [exact IH|]. right. eauto.
Qed.

Lemma trimStart_id (c : ascii) (s : string) :
  is_space c = false -> trimStart (String c s) = String c s.
Proof. intros E. simpl. now rewrite E. Qed.

Lemma trimEnd_head (c : ascii) (s : string) :
  is_space c = false -> exists r, trimEnd (String c s) = String c r.
Proof.
  intros E. simpl. destruct (trimEnd s); rewrite ?E; eauto.
Qed.

Lemma trimEnd_idem (s : string) : trimEnd (trimEnd s) = trimEnd s.
Proof.
  induction s as [|c s IH]; simpl; [easy|].
  destruct (trimEnd s) as [|d r] eqn:E.
  - destruct (is_space c) eqn:Ec; simpl; [easy|]. now rewrite Ec.
  - change (trimEnd (String c (String d r))) with
      (match trimEnd (String d r) with
       | "" => if is_space c then "" else String c ""
       | r' => String c r'
       end).
    rewrite IH. reflexivity.
Qed.

Lemma trim_idem (s : string) : trim (trim s) = trim s.
Proof.
  unfold trim. destruct (trimStart_head s) as [->|(c & r & -> & Hc)]; [easy|].
  destruct (trimEnd_head c r Hc) as [r' E]. rewrite E.
  rewrite (trimStart_id _ _ Hc), <- E. apply trimEnd_idem.
Qed.

Lemma trimStart_has_char (f : ascii -> bool) (s : string) :
  has_char f s = false -> has_char f (trimStart s) = false.
Proof.
  induction s as [|c s IH]; simpl; [easy|].
  rewrite orb_false_iff. intros [Hc Hs].
  destruct (is_space c); [auto|]. simpl. now rewrite Hc, Hs.
Qed.

Lemma trimEnd_has_char (f : ascii -> bool) (s : string) :
  has_char f s = false -> has_char f (trimEnd s) = false.
Proof.
  induction s as [|c s IH]; simpl; [easy|].
  rewrite orb_false_iff. intros [Hc Hs]. specialize (IH Hs).
  destruct (trimEnd s) as [|d r].
  - destruct (is_space c); simpl; [easy|]. now rewrite Hc.
  - change (has_char f (String c (String d r)))
      with (f c || has_char f (String d r))%bool.
    now rewrite Hc, IH.
Qed.

Lemma trim_has_char (f : ascii -> bool) (s : string) :
  has_char f s = false -> has_char f (trim s) = false.
Proof. intros H. apply trimEnd_has_char, trimStart_has_char, H. Qed.

(** *** replace *)

(** A pattern that needs a character of the class [key] leaves a string
    without one as it is. *)
Lemma replace_id (key : ascii -> bool) (m : matcher) (rep s : string) :
  (forall t, has_char key t = false -> m t = None) ->
  has_char key s = false -> replace m rep s = s.
Proof.
  intros Hm. unfold replace. induction s as [|c s IH]; [easy|].
  intros Hs. cbn [replace_from]. rewrite (Hm _ Hs).
  simpl in Hs. apply orb_false_iff in Hs as [_ Hs]. now rewrite IH.
Qed.

Lemma has_char_drop (key : ascii -> bool) (n : nat) (s : string) :
  has_char key (drop n s) = true -> has_char key s = true.
Proof.
  revert s. induction n as [|n IH]; intros s; [easy|].
  destruct s as [|d s]; simpl; [easy|].
  intros H. rewrite (IH _ H). apply orb_true_r.
Qed.

Lemma drop_has_char (key : ascii -> bool) (n : nat) (s : string) (c : ascii)
    (t : string) :
  drop n s = String c t -> key c = true -> has_char key s = true.
Proof.
  intros E Hc. apply (has_char_drop key n). rewrite E. simpl. now rewrite Hc.
Qed.

(** A literal whose pattern holds the character [k] matches only a
    string holding a character that [eqc] equates with [k]. *)
Lemma lit_with_has_char (eqc : ascii -> ascii -> bool) (key : ascii -> bool)
    (k : ascii) (p1 p2 s : string) (n : nat) :
  (forall c, eqc k c = true -> key c = true) ->
  lit_with eqc (p1 ++ String k p2) s = Some n -> has_char key s = true.
Proof.
  intros Hk. revert s n. induction p1 as [|a p1 IH]; intros [|c s] n; simpl;
    try discriminate.
  - destruct (eqc k c) eqn:E; [|discriminate]. intros _. now rewrite (Hk _ E).
  - destruct (eqc a c); [|discriminate].
    destruct (lit_with eqc (p1 ++ String k p2) s) eqn:E; [|discriminate].
    intros _. rewrite (IH _ _ E). apply orb_true_r.
Qed.

End JsFacts.

(* ===================================================================== *)
(** ** The sanitizer: output invariants and (non-)idempotence *)
(* ===================================================================== *)

Module SanitizerFacts.
Import Js Sanitizer Spec JsFacts.

Section WithPurify.

Variable purify : list string -> string -> string.

Lemma limit_length_has_char (f : ascii -> bool) (m : option Z) (s : string) :
  has_char f s = false -> has_char f (limit_length m s) = false.
Proof.
  intros H. unfold limit_length. destruct m as [n|]; [|exact H].
  destruct (_ && _)%bool; [|exact H]. now apply take_has_char.
Qed.

Lemma limit_length_bound (n : Z) (s : string) :
  1 <= n -> Z.of_nat (String.length (limit_length (Some n) s)) <= n.
Proof.
  intros Hn. unfold limit_length.
  destruct (n =? 0) eqn:E0; [lia|]. simpl.
  destruct (Z.of_nat (String.length s) >? n) eqn:E; [|lia].
  pose proof (take_length (Z.to_nat n) s). lia.
Qed.

(** C10, as amended: the result has no control character; a maximum
    length of 1 or more bounds its length; an input that is no string
    gives the empty string. *)
Theorem sanitizeInput_output (input : value) (opts : options) :
  has_char is_control (sanitizeInput purify input opts) = false
  /\ (forall n, maxLength opts = Some n -> 1 <= n ->
        Z.of_nat (String.length (sanitizeInput purify input opts)) <= n)
  /\ (is_string input = false -> sanitizeInput purify input opts = "").
Proof.
  assert (Hempty : forall n : Z, 1 <= n -> Z.of_nat (String.length "") <= n)
    by (simpl; lia).
  destruct input as [| |b|n|s|t|]; simpl;
    try (split; [reflexivity|split; [intros k _; apply Hempty|easy]]).
  split; [|split].
  - apply limit_length_has_char, remove_chars_clean.
  - intros n -> Hn. now apply limit_length_bound.
  - discriminate.
Qed.

(** With [stripTags] off and a maximum length of 0, nothing is cut. *)
Lemma sanitizeInput_maxLength_zero :
  sanitizeInput purify (JStr "abc") (Options None (Some false) None (Some 0))
  = "abc".
Proof. reflexivity. Qed.

(** *** Plain text *)

Lemma special_lt (s : string) :
  has_char special s = false -> has_char (Ascii.eqb "<") s = false.
Proof.
  apply has_char_weaken. intros c H. unfold special. now rewrite H.
Qed.

Lemma special_control (s : string) :
  has_char special s = false -> has_char is_control s = false.
Proof.
  apply has_char_weaken. intros c H. unfold special. rewrite H.
  now rewrite !orb_true_r.
Qed.

Lemma special_key (k : ascii) (s : string) :
  special k = true -> has_char special s = false ->
  has_char (Ascii.eqb k) s = false.
Proof.
  intros Hk. apply has_char_weaken. intros c H.
  apply Ascii.eqb_eq in H. now subst.
Qed.

(** A literal, compared either way, that holds a special character does
    not match in plain text. *)
Lemma lit_plain (p1 : string) (k : ascii) (p2 t : string) :
  special k = true -> is_alpha k = false ->
  has_char special t = false ->
  lit (p1 ++ String k p2) t = None /\ lit_i (p1 ++ String k p2) t = None.
Proof.
  intros Hk Ha Ht. unfold lit, lit_i. split.
  - destruct (lit_with Ascii.eqb _ t) eqn:E; [|easy].
    apply (lit_with_has_char _ special) in E; [congruence|].
    intros c Hc. apply Ascii.eqb_eq in Hc. now subst.
  - destruct (lit_with ci_eq _ t) eqn:E; [|easy].
    apply (lit_with_has_char _ special) in E; [congruence|].
    intros c Hc. unfold ci_eq in Hc. rewrite Ha in Hc.
    apply Ascii.eqb_eq in Hc. now subst.
Qed.

Lemma re_tag_plain (t : string) :
  has_char special t = false -> re_tag t = None.
Proof.
  intros Ht. destruct t as [|c t]; [easy|]. simpl in Ht.
  apply orb_false_iff in Ht as [Hc _].
  unfold re_tag. destruct c as [[] [] [] [] [] [] [] []]; try easy.
Qed.

Lemma re_on_handler_plain (t : string) :
  has_char special t = false -> re_on_handler t = None.
Proof.
  intros Ht. unfold re_on_handler. destruct (lit_i "on" t) as [k|]; [|easy].
  cbv zeta. destruct (span is_word (drop k t)) as [|w]; [easy|].
  destruct (drop _ (drop (S w) (drop k t))) as [|c r] eqn:E; [easy|].
  destruct (Ascii.eqb "=" c) eqn:Ec.
  - apply Ascii.eqb_eq in Ec. subst c.
    apply (drop_has_char special) in E; [|reflexivity].
    do 2 apply has_char_drop in E. congruence.
  - destruct c as [[] [] [] [] [] [] [] []]; try easy.
Qed.

Lemma re_expression_plain (t : string) :
  has_char special t = false -> re_expression t = None.
Proof.
  intros Ht. unfold re_expression.
  destruct (lit_i "expression" t) as [k|]; [|easy].
  cbv zeta. destruct (drop _ (drop k t)) as [|c r] eqn:E; [easy|].
  destruct (Ascii.eqb "(" c) eqn:Ec.
  - apply Ascii.eqb_eq in Ec. subst c.
    apply (drop_has_char special) in E; [|reflexivity].
    apply has_char_drop in E. congruence.
  - destruct c as [[] [] [] [] [] [] [] []]; try easy.
Qed.

(** The passes after DOMPurify leave plain text as it is. *)
Lemma decode_entities_plain (s : string) :
  has_char special s = false -> decode_entities s = s.
Proof.
  intros Hs. unfold decode_entities. cbv zeta.
  assert (H : forall p rep, replace (lit (String "&" p)) rep s = s).
  { intros p rep. apply (replace_id special); [|exact Hs].
    intros t Ht. now apply (lit_plain "" "&" p t). }
  now rewrite !H.
Qed.

Lemma strip_tags_plain (s : string) :
  has_char special s = false -> strip_tags s = s.
Proof.
  intros Hs. apply (replace_id special); [|exact Hs]. apply re_tag_plain.
Qed.

Lemma strip_scripts_plain (s : string) :
  has_char special s = false -> strip_scripts s = s.
Proof.
  intros Hs. unfold strip_scripts. cbv zeta.
  rewrite (replace_id special (lit_i "javascript:") "" s); [|
    intros t Ht; now apply (lit_plain "javascript" ":" "" t) | exact Hs].
  rewrite (replace_id special (lit_i "vbscript:") "" s); [|
    intros t Ht; now apply (lit_plain "vbscript" ":" "" t) | exact Hs].
  rewrite (replace_id special re_on_handler "" s);
    [|apply re_on_handler_plain|exact Hs].
  apply (replace_id special); [apply re_expression_plain|exact Hs].
Qed.

Hypothesis purify_plain : keeps_plain_text purify.

(** On plain text the sanitizer only trims. *)
Lemma sanitized_plain (x : string) :
  plain_text x = true -> sanitized purify x = Js.trim x.
Proof.
  unfold plain_text. rewrite negb_true_iff. intros Hx.
  pose proof (trim_has_char special x Hx) as Ht.
  unfold sanitized, sanitizeInput. simpl.
  rewrite purify_plain
    by (unfold markup_free; now rewrite (special_lt _ Ht)).
  rewrite (decode_entities_plain _ Ht), (strip_tags_plain _ Ht),
    (strip_scripts_plain _ Ht).
  unfold strip_control. apply remove_chars_id, special_control, Ht.
Qed.

(** On plain text sanitizing twice is sanitizing once. *)
Lemma sanitized_plain_twice (x : string) :
  plain_text x = true ->
  sanitized purify (sanitized purify x) = sanitized purify x.
Proof.
  intros Hx. rewrite (sanitized_plain x Hx).
  rewrite sanitized_plain; [apply trim_idem|].
  unfold plain_text in *. rewrite negb_true_iff in *.
  now apply trim_has_char.
Qed.

(** C2: the sanitizer is not idempotent, and it lets through what it
    sets out to remove.  Each replacement runs once over the text: where
    taking a pattern out joins what stood around it into the pattern
    again, the result holds the scheme [javascript:], which the pass
    that removes script-like content would still change, and a second
    call removes it.  The same happens with a doubly encoded entity,
    which comes out as an entity, and with a null byte inside the
    scheme, since control characters are removed after the schemes. *)
Theorem sanitizeInput_leaves_script_content :
  (sanitized purify "javajavascript:script:" = "javascript:"
   /\ strip_scripts (sanitized purify "javajavascript:script:")
      <> sanitized purify "javajavascript:script:"
   /\ sanitized purify (sanitized purify "javajavascript:script:") = ""
   /\ sanitized purify (sanitized purify "javajavascript:script:")
      <> sanitized purify "javajavascript:script:")
  /\ (sanitized purify "&amp;lt;b&amp;gt;" = "&lt;b&gt;"
      /\ sanitized purify (sanitized purify "&amp;lt;b&amp;gt;") = "")
  /\ (sanitized purify (String.append "java" (String zero "script:x"))
      = "javascript:x"
      /\ sanitized purify
           (sanitized purify (String.append "java" (String zero "script:x")))
         = "x").
Proof.
  assert (H1 : sanitized purify "javajavascript:script:" = "javascript:").
  { unfold sanitized, sanitizeInput. simpl.
    now rewrite purify_plain by reflexivity. }
  assert (H2 : sanitized purify "javascript:" = "").
  { unfold sanitized, sanitizeInput. simpl.
    now rewrite purify_plain by reflexivity. }
  assert (H3 : sanitized purify "&amp;lt;b&amp;gt;" = "&lt;b&gt;").
  { unfold sanitized, sanitizeInput. simpl.
    now rewrite purify_plain by reflexivity. }
  assert (H4 : sanitized purify "&lt;b&gt;" = "").
  { unfold sanitized, sanitizeInput. simpl.
    now rewrite purify_plain by reflexivity. }
  assert (H5 : sanitized purify (String.append "java" (String zero "script:x"))
               = "javascript:x").
  { unfold sanitized, sanitizeInput. simpl.
    now rewrite purify_plain by reflexivity. }
  assert (H6 : sanitized purify "javascript:x" = "x").
  { unfold sanitized, sanitizeInput. simpl.
    now rewrite purify_plain by reflexivity. }
  rewrite H1, H2, H3, H4, H5, H6.
  repeat split; try reflexivity; discriminate.
Qed.

End WithPurify.

(** The sanitizer used to run the program keeps plain text. *)
Lemma purify_text_plain : keeps_plain_text purify_text.
Proof. intros tags s H. unfold purify_text. now rewrite H. Qed.

(** C10, at a maximum length of 5 and an input with markup and a null
    byte. *)
Lemma sanitizeInput_output_witness :
  let input := JStr (String.append "<b>hello</b> wor" (String zero "ld")) in
  let opts := Options None None None (Some 5) in
  has_char is_control (sanitizeInput purify_text input opts) = false
  /\ Z.of_nat (String.length (sanitizeInput purify_text input opts)) <= 5.
Proof.
  intros input opts.
  destruct (sanitizeInput_output purify_text input opts) as (H1 & H2 & _).
  split; [exact H1|]. apply H2; [reflexivity|lia].
Defined.

(** C10 fails as stated: a maximum length of 0 counts as none given, so
    the result is longer than it; and below 0 the result is empty, which
    is still longer.  The first holds for any DOMPurify that keeps plain
    text. *)
Lemma sanitizeInput_maxLength_not_a_bound :
  (maxLength (Options None None None (Some 0)) = Some 0
   /\ sanitizeInput purify_text (JStr "abc") (Options None None None (Some 0))
      = "abc"
   /\ ~ (Z.of_nat (String.length
           (sanitizeInput purify_text (JStr "abc")
              (Options None None None (Some 0)))) <= 0))
  /\ ~ (Z.of_nat (String.length
          (sanitizeInput purify_text (JStr "abc")
             (Options None None None (Some (-1))))) <= -1)
  /\ (forall purify, keeps_plain_text purify ->
        sanitizeInput purify (JStr "abc") (Options None None None (Some 0))
        = "abc").
Proof.
  repeat split; try reflexivity; try (intros H; vm_compute in H; congruence).
  intros purify Hp. unfold sanitizeInput. simpl.
  now rewrite Hp by reflexivity.
Qed.

(** C2 with the sanitizer used to run the program: the string that is
    left is the scheme itself. *)
Lemma sanitizeInput_leaves_script_content_witness :
  sanitized purify_text "javajavascript:script:" = "javascript:"
  /\ sanitized purify_text (sanitized purify_text "javajavascript:script:")
     <> sanitized purify_text "javajavascript:script:".
Proof.
  destruct (sanitizeInput_leaves_script_content purify_text purify_text_plain)
    as ((H1 & _ & _ & H2) & _).
  split; [exact H1|exact H2].
Defined.

End SanitizerFacts.

(* ===================================================================== *)
(** ** The validator *)
(* ===================================================================== *)

Module ValidationFacts.
Import Js Http ValidationMiddleware Spec JsFacts SanitizerFacts.
Local Open Scope list_scope.

(** The comparisons of the source in terms of those of the rules. *)
Ltac rules_vs_checks :=
  rewrite ?Nat.ltb_antisym, ?Z.gtb_ltb, ?Z.ltb_antisym.

Section WithLibraries.

Variable purify : list string -> string -> string.
Variable isEmail : string -> bool.

Lemma submissionErrors_errorsOf (req : request) :
  submissionErrors purify isEmail req
  = errorsOf isEmail (formDataOf purify (req_body req)) req.
Proof. reflexivity. Qed.

(** [errors.push] after [errors.push]: a block of checks appends what it
    pushes on an empty array. *)
Lemma check_name_app (fd : formData) (errors : list string) :
  check_name fd errors = errors ++ check_name fd [].
Proof.
  unfold check_name, push.
  repeat (match goal with |- context [if ?b then _ else _] => destruct b end);
    simpl; now rewrite ?app_nil_r.
Qed.

Lemma check_email_app (fd : formData) (errors : list string) :
  check_email isEmail fd errors = errors ++ check_email isEmail fd [].
Proof.
  unfold check_email, push.
  repeat (match goal with |- context [if ?b then _ else _] => destruct b end);
    simpl; now rewrite ?app_nil_r.
Qed.

Lemma check_phone_app (fd : formData) (errors : list string) :
  check_phone fd errors = errors ++ check_phone fd [].
Proof.
  unfold check_phone, push.
  repeat (match goal with |- context [if ?b then _ else _] => destruct b end);
    simpl; now rewrite ?app_nil_r.
Qed.

Lemma check_terms_app (b : body) (errors : list string) :
  check_terms b errors = errors ++ check_terms b [].
Proof.
  unfold check_terms, push. destruct (negb _); simpl; now rewrite ?app_nil_r.
Qed.

Lemma check_file_app (f : option file) (errors : list string) :
  check_file f errors = errors ++ check_file f [].
Proof.
  unfold check_file, push. destruct f as [f|]; [|reflexivity].
  destruct (negb _), (size f >? maxFileSize); simpl;
    now rewrite <- ?app_assoc, ?app_nil_r.
Qed.

Lemma errorsOf_blocks (fd : formData) (req : request) :
  errorsOf isEmail fd req
  = check_name fd [] ++ check_email isEmail fd [] ++ check_phone fd []
    ++ check_terms (req_body req) [] ++ check_file (req_file req) [].
Proof.
  unfold errorsOf.
  rewrite check_file_app, check_terms_app, check_phone_app, check_email_app.
  now rewrite <- !app_assoc.
Qed.

Lemma includes_app (l1 l2 : list string) (m : string) :
  includes (l1 ++ l2) m = (includes l1 m || includes l2 m)%bool.
Proof. apply existsb_app. Qed.

Lemma mentions_app (l1 l2 messages : list string) :
  mentions (l1 ++ l2) messages
  = (mentions l1 messages || mentions l2 messages)%bool.
Proof.
  unfold mentions. induction messages as [|m ms IH]; simpl; [easy|].
  rewrite IH, includes_app.
  destruct (includes l1 m), (includes l2 m), (existsb (includes l1) ms);
    reflexivity.
Qed.

Lemma nonempty_app (l1 l2 : list string) :
  (0 <? length (l1 ++ l2))%nat
  = ((0 <? length l1)%nat || (0 <? length l2)%nat)%bool.
Proof. destruct l1, l2; reflexivity. Qed.

(** What a block says about its rule and about the messages of the
    other rules. *)
Lemma check_name_rule (fd : formData) :
  mentions (check_name fd []) name_messages = negb (name_rule fd)
  /\ mentions (check_name fd []) email_messages = false
  /\ mentions (check_name fd []) phone_messages = false
  /\ mentions (check_name fd []) terms_messages = false
  /\ mentions (check_name fd []) file_messages = false
  /\ (0 <? length (check_name fd []))%nat = negb (name_rule fd).
Proof.
  unfold check_name, name_rule. rules_vs_checks.
  destruct (String.eqb (fd_name fd) ""),
    (4 <=? String.length (fd_name fd))%nat,
    (String.length (fd_name fd) <=? 30)%nat,
    (re_name (fd_name fd)); repeat split; reflexivity.
Qed.

Lemma check_email_rule (fd : formData) :
  mentions (check_email isEmail fd []) name_messages = false
  /\ mentions (check_email isEmail fd []) email_messages
     = negb (email_rule isEmail fd)
  /\ mentions (check_email isEmail fd []) phone_messages = false
  /\ mentions (check_email isEmail fd []) terms_messages = false
  /\ mentions (check_email isEmail fd []) file_messages = false
  /\ (0 <? length (check_email isEmail fd []))%nat
     = negb (email_rule isEmail fd).
Proof.
  unfold check_email, email_rule.
  destruct (String.eqb (fd_email fd) ""), (isEmail (fd_email fd));
    repeat split; reflexivity.
Qed.

Lemma check_phone_rule (fd : formData) :
  mentions (check_phone fd []) name_messages = false
  /\ mentions (check_phone fd []) email_messages = false
  /\ mentions (check_phone fd []) phone_messages = negb (phone_rule fd)
  /\ mentions (check_phone fd []) terms_messages = false
  /\ mentions (check_phone fd []) file_messages = false
  /\ (0 <? length (check_phone fd []))%nat = negb (phone_rule fd).
Proof.
  unfold check_phone, phone_rule.
  destruct (String.eqb (fd_phone fd) ""), (re_phone (fd_phone fd));
    repeat split; reflexivity.
Qed.

Lemma check_terms_rule (b : body) :
  mentions (check_terms b []) name_messages = false
  /\ mentions (check_terms b []) email_messages = false
  /\ mentions (check_terms b []) phone_messages = false
  /\ mentions (check_terms b []) terms_messages = negb (terms_rule b)
  /\ mentions (check_terms b []) file_messages = false
  /\ (0 <? length (check_terms b []))%nat = negb (terms_rule b).
Proof.
  unfold check_terms, terms_rule.
  destruct (truthy (b_terms b)); repeat split; reflexivity.
Qed.

Lemma check_file_rule (f : option file) :
  mentions (check_file f []) name_messages = false
  /\ mentions (check_file f []) email_messages = false
  /\ mentions (check_file f []) phone_messages = false
  /\ mentions (check_file f []) terms_messages = false
  /\ mentions (check_file f []) file_messages = negb (file_rule f)
  /\ (0 <? length (check_file f []))%nat = negb (file_rule f).
Proof.
  unfold check_file, file_rule.
  destruct f as [f|]; [|repeat split; reflexivity]. rules_vs_checks.
  destruct (includes allowedMimeTypes (mimetype f)), (size f <=? maxFileSize);
    repeat split; reflexivity.
Qed.

(** Each rule has one of its messages among the errors when it is
    violated, and none when it holds; no error means every rule holds. *)
Lemma errorsOf_rules (fd : formData) (req : request) :
  mentions (errorsOf isEmail fd req) name_messages = negb (name_rule fd)
  /\ mentions (errorsOf isEmail fd req) email_messages
     = negb (email_rule isEmail fd)
  /\ mentions (errorsOf isEmail fd req) phone_messages = negb (phone_rule fd)
  /\ mentions (errorsOf isEmail fd req) terms_messages
     = negb (terms_rule (req_body req))
  /\ mentions (errorsOf isEmail fd req) file_messages
     = negb (file_rule (req_file req))
  /\ (0 <? length (errorsOf isEmail fd req))%nat
     = negb (name_rule fd && email_rule isEmail fd && phone_rule fd
             && terms_rule (req_body req) && file_rule (req_file req)).
Proof.
  rewrite errorsOf_blocks, !mentions_app, !nonempty_app.
  destruct (check_name_rule fd) as (-> & -> & -> & -> & -> & ->).
  destruct (check_email_rule fd) as (-> & -> & -> & -> & -> & ->).
  destruct (check_phone_rule fd) as (-> & -> & -> & -> & -> & ->).
  destruct (check_terms_rule (req_body req)) as (-> & -> & -> & -> & -> & ->).
  destruct (check_file_rule (req_file req)) as (-> & -> & -> & -> & -> & ->).
  destruct (name_rule fd), (email_rule isEmail fd), (phone_rule fd),
    (terms_rule (req_body req)), (file_rule (req_file req));
    repeat split; reflexivity.
Qed.

(** C4: the validator either calls [next()] and leaves the normalized
    fields on the request, whose other parts stay, when every rule
    holds; or it sends a 400 whose error joins a list of messages that
    is not empty, and leaves the request as it came, so with no
    validated data put on it.  Each violated rule has a message of its
    own in the list, and a rule that holds has none. *)
Theorem validateSubmission_outcomes (req : request) :
  let fd := formDataOf purify (req_body req) in
  let errors := submissionErrors purify isEmail req in
  let out := validateSubmission purify isEmail req in
  (if (name_rule fd && email_rule isEmail fd && phone_rule fd
       && terms_rule (req_body req) && file_rule (req_file req))%bool
   then errors = []
        /\ out.2 = Next
        /\ req_validatedData out.1
           = Some {| vd_name := fd_name fd;
                     vd_email := toLowerCase (fd_email fd);
                     vd_phone := fd_phone fd;
                     vd_terms := true |}
        /\ req_ip out.1 = req_ip req
        /\ req_body out.1 = req_body req
        /\ req_file out.1 = req_file req
        /\ req_query out.1 = req_query req
        /\ req_queryOptions out.1 = req_queryOptions req
   else errors <> []
        /\ out.2 = Respond (RenderForm 400 (join ". " errors) (Sanitized fd))
        /\ out.1 = req
        /\ req_validatedData out.1 = req_validatedData req)
  /\ mentions errors name_messages = negb (name_rule fd)
  /\ mentions errors email_messages = negb (email_rule isEmail fd)
  /\ mentions errors phone_messages = negb (phone_rule fd)
  /\ mentions errors terms_messages = negb (terms_rule (req_body req))
  /\ mentions errors file_messages = negb (file_rule (req_file req)).
Proof.
  intros fd errors out.
  destruct (errorsOf_rules fd req) as (Hn & He & Hp & Ht & Hf & Hlen).
  change (errorsOf isEmail fd req) with errors in *.
  split; [|now repeat split].
  subst out. unfold validateSubmission. cbv zeta. fold fd. fold errors.
  rewrite Hlen.
  destruct (_ && _)%bool; cbn [negb fst snd] in *.
  - split; [destruct errors; [reflexivity|discriminate]|].
    now repeat split.
  - split; [destruct errors; [discriminate|easy]|]. now repeat split.
Qed.

Lemma re_phone_spec (s : string) :
  re_phone s = true
  <-> String.length s = 10%nat /\ all_chars is_digit s = true.
Proof.
  unfold re_phone. rewrite andb_true_iff, Nat.eqb_eq. tauto.
Qed.

Lemma re_phone_nonempty (s : string) :
  re_phone s = true -> String.eqb s "" = false.
Proof.
  intros [H _]%re_phone_spec. destruct s; [discriminate|reflexivity].
Qed.

Hypothesis purify_plain : keeps_plain_text purify.

Lemma sanitize_plain (x : string) :
  plain_text x = true -> sanitize purify (JStr x) = Js.trim x.
Proof. apply (sanitized_plain purify purify_plain). Qed.

Lemma sanitize_field_plain (x : string) :
  plain_text x = true ->
  sanitize purify (or_else (JStr x) (JStr "")) = Js.trim x.
Proof.
  intros Hx. unfold or_else. cbn [truthy].
  destruct (String.eqb_spec x "") as [->|Hne]; cbn [negb].
  - now rewrite sanitize_plain.
  - now apply sanitize_plain.
Qed.

Lemma non_digit_not_digits (s : string) :
  has_char (fun c => negb (is_digit c)) s = true ->
  all_chars is_digit s = false /\ String.eqb s "" = false.
Proof.
  intros H. split; [|now destruct s].
  induction s as [|c s IH]; [discriminate|]. cbn [has_char all_chars] in *.
  destruct (is_digit c); cbn [negb orb andb] in *; auto.
Qed.

Lemma check_phone_non_digit (fd : formData) :
  has_char (fun c => negb (is_digit c)) (fd_phone fd) = true ->
  check_phone fd [] = ["Phone number must be exactly 10 digits"].
Proof.
  intros [Hd He]%non_digit_not_digits. unfold check_phone, re_phone.
  now rewrite He, Hd, andb_false_r.
Qed.

(** C7, as amended: the phone field is accepted exactly when its
    sanitized value is ten digits and nothing else.  A sanitized value
    that holds a character that is no digit is rejected with the message
    of the rule, never cut down to its digits; on plain text the
    sanitized value is the trimmed input, so that a phone number is
    accepted exactly when it is ten digits with white space around them
    at most.  So ["123-456-7890"] stays as it is in the sanitized fields
    and is rejected (the digits-only helper [sanitizePhone] is not
    applied). *)
Theorem phone_accepted_iff_ten_digits :
  (forall req,
      mentions (submissionErrors purify isEmail req) phone_messages = false
      <-> re_phone (fd_phone (formDataOf purify (req_body req))) = true)
  /\ (forall s, re_phone s = true
        <-> String.length s = 10%nat /\ all_chars is_digit s = true)
  /\ (forall req, b_phone (req_body req) = JStr "123-456-7890" ->
        fd_phone (formDataOf purify (req_body req)) = "123-456-7890"
        /\ includes (submissionErrors purify isEmail req)
             "Phone number must be exactly 10 digits" = true
        /\ sanitizePhone purify (JStr "123-456-7890") = "1234567890")
  /\ (forall req,
        has_char (fun c => negb (is_digit c))
          (fd_phone (formDataOf purify (req_body req))) = true ->
        includes (submissionErrors purify isEmail req)
          "Phone number must be exactly 10 digits" = true
        /\ (validateSubmission purify isEmail req).2 <> Next
        /\ req_validatedData (validateSubmission purify isEmail req).1
           = req_validatedData req)
  /\ (forall req x,
        b_phone (req_body req) = JStr x ->
        plain_text x = true ->
        fd_phone (formDataOf purify (req_body req)) = Js.trim x
        /\ (mentions (submissionErrors purify isEmail req) phone_messages
            = false
            <-> String.length (Js.trim x) = 10%nat
                /\ all_chars is_digit (Js.trim x) = true)).
Proof.
  assert (Hiff : forall req,
      mentions (submissionErrors purify isEmail req) phone_messages = false
      <-> re_phone (fd_phone (formDataOf purify (req_body req))) = true).
  { intros req. rewrite submissionErrors_errorsOf.
    destruct (errorsOf_rules (formDataOf purify (req_body req)) req)
      as (_ & _ & -> & _).
    unfold phone_rule. rewrite negb_false_iff, andb_true_iff, negb_true_iff.
    split; [tauto|]. intros H. split; [now apply re_phone_nonempty|exact H]. }
  assert (Hrej : forall req,
      has_char (fun c => negb (is_digit c))
        (fd_phone (formDataOf purify (req_body req))) = true ->
      includes (submissionErrors purify isEmail req)
        "Phone number must be exactly 10 digits" = true).
  { intros req Hnd. rewrite submissionErrors_errorsOf, errorsOf_blocks.
    rewrite !includes_app, (check_phone_non_digit _ Hnd).
    cbn. now rewrite !orb_true_r. }
  assert (Hplain : forall req x,
      b_phone (req_body req) = JStr x -> plain_text x = true ->
      fd_phone (formDataOf purify (req_body req)) = Js.trim x).
  { intros req x Hphone Hx. unfold formDataOf. cbn [fd_phone].
    rewrite Hphone. now apply sanitize_field_plain. }
  split; [exact Hiff|]. split; [exact re_phone_spec|]. split; [|split].
  - intros req Hphone.
    pose proof (Hplain req _ Hphone eq_refl) as Hfd.
    change (Js.trim "123-456-7890") with "123-456-7890" in Hfd.
    split; [exact Hfd|split].
    + apply Hrej. now rewrite Hfd.
    + unfold sanitizePhone.
      change (sanitizeInput purify (JStr "123-456-7890")
                (Options None None (Some true) None))
        with (sanitize purify (JStr "123-456-7890")).
      now rewrite sanitize_plain.
  - intros req Hnd. pose proof (Hrej req Hnd) as Hin.
    split; [exact Hin|].
    unfold validateSubmission. cbv zeta.
    destruct (submissionErrors purify isEmail req) as [|m errors];
      [discriminate|].
    cbn. split; [discriminate|reflexivity].
  - intros req x Hphone Hx. pose proof (Hplain req x Hphone Hx) as Hfd.
    split; [exact Hfd|]. rewrite Hiff, Hfd. apply re_phone_spec.
Qed.

(** *** The query of the list *)

Lemma pageNumOf_bound (page : option string) : 1 <= pageNumOf purify page.
Proof.
  unfold pageNumOf. destruct (truthy _); [|lia].
  destruct (parseInt _) as [n|]; [|lia]. destruct (n <? 1) eqn:E; lia.
Qed.

Lemma limitNumOf_bound (limit : option string) :
  1 <= limitNumOf purify limit <= 50.
Proof.
  unfold limitNumOf. destruct (truthy _); [|lia].
  destruct (parseInt _) as [n|]; [|lia].
  destruct (n <? 1) eqn:E1, (50 <? n) eqn:E2; simpl; lia.
Qed.

Lemma sortOf_allowed (sort : option string) :
  includes allowedSortFields (sortOf purify sort).1 = true
  /\ ((sortOf purify sort).2 = 1 \/ (sortOf purify sort).2 = -1).
Proof.
  unfold sortOf. destruct (truthy _); [|split; [reflexivity|now right]].
  destruct (startsWithChar _ _);
    match goal with
    | |- context [negb (includes allowedSortFields ?f)] =>
        destruct (includes allowedSortFields f) eqn:E
    end; cbn [negb fst snd]; rewrite ?E; split; auto.
Qed.

(** The query validator: the page is 1 at least, the limit is between 1
    and 50, the sort field is one of the four allowed, and an absent
    parameter gives page 1, limit 10 and [createdAt] descending. *)
Lemma validateSubmissionsQuery_bounds (req : request) :
  exists o,
    validateSubmissionsQuery purify req = (with_queryOptions req o, Next)
    /\ 1 <= qo_page o
    /\ 1 <= qo_limit o <= 50
    /\ qo_skip o = (qo_page o - 1) * qo_limit o
    /\ includes allowedSortFields (qo_sortBy o) = true
    /\ (qo_sortOrder o = 1 \/ qo_sortOrder o = -1)
    /\ (q_page (req_query req) = None -> qo_page o = 1)
    /\ (q_limit (req_query req) = None -> qo_limit o = 10)
    /\ (q_sort (req_query req) = None ->
          qo_sortBy o = "createdAt" /\ qo_sortOrder o = -1).
Proof.
  unfold validateSubmissionsQuery. cbv zeta.
  pose proof (sortOf_allowed (q_sort (req_query req))) as [Hs Ho].
  pose proof (pageNumOf_bound (q_page (req_query req))) as Hpage.
  pose proof (limitNumOf_bound (q_limit (req_query req))) as Hlimit.
  destruct (sortOf purify (q_sort (req_query req))) as [f o] eqn:E.
  eexists. split; [reflexivity|].
  cbn [qo_page qo_limit qo_skip qo_sortBy qo_sortOrder fst snd] in *.
  split; [lia|]. split; [lia|]. split; [reflexivity|].
  split; [exact Hs|]. split; [exact Ho|].
  split; [intros Hq; now rewrite Hq|].
  split; [intros Hq; now rewrite Hq|].
  intros Hq. rewrite Hq in E. now inversion E.
Qed.

End WithLibraries.

(** C4 at the request of the scenario, and at the same request with the
    name [Al] and no file: the first goes on with the normalized fields
    on the request, the second gets the two messages and the request
    stays without validated data. *)
Lemma validateSubmission_outcomes_witness :
  let bad :=
    Request "203.0.113.7"
      (Body (JStr "Al") (JStr "JOHN@EXAMPLE.COM") (JStr "1234567890") (JStr "on"))
      None (Query None None None) None None in
  ((validateSubmission purify_text isEmail_simple johnRequest).2 = Next
   /\ req_validatedData
        (validateSubmission purify_text isEmail_simple johnRequest).1
      = Some (ValidatedData "John Doe" "john@example.com" "1234567890" true))
  /\ ((validateSubmission purify_text isEmail_simple bad).2
      = Respond
          (RenderForm 400
             "Name must be between 4 and 30 characters long. Image is required"
             (Sanitized (FormData "Al" "JOHN@EXAMPLE.COM" "1234567890" "on")))
      /\ req_validatedData (validateSubmission purify_text isEmail_simple bad).1
         = None).
Proof.
  intros bad. split.
  - destruct (proj1 (validateSubmission_outcomes purify_text isEmail_simple
                       johnRequest)) as (_ & H1 & H2 & _).
    split; [exact H1|exact H2].
  - destruct (proj1 (validateSubmission_outcomes purify_text isEmail_simple
                       bad)) as (_ & H1 & _ & H2).
    split; [exact H1|exact H2].
Defined.

(** C7 at the request of the scenario, whose phone is accepted, at the
    same request with the phone ["123-456-7890"], which is rejected as
    it stands, and with white space around the ten digits, which is
    accepted. *)
Lemma phone_accepted_iff_ten_digits_witness :
  let dashed :=
    Request "203.0.113.7"
      (Body (JStr "John Doe") (JStr "JOHN@EXAMPLE.COM") (JStr "123-456-7890")
         (JStr "on"))
      (Some johnFile) (Query None None None) None None in
  let padded :=
    Request "203.0.113.7"
      (Body (JStr "John Doe") (JStr "JOHN@EXAMPLE.COM") (JStr "  1234567890 ")
         (JStr "on"))
      (Some johnFile) (Query None None None) None None in
  mentions (submissionErrors purify_text isEmail_simple johnRequest)
    phone_messages = false
  /\ fd_phone (formDataOf purify_text (req_body dashed)) = "123-456-7890"
  /\ includes (submissionErrors purify_text isEmail_simple dashed)
       "Phone number must be exactly 10 digits" = true
  /\ (validateSubmission purify_text isEmail_simple dashed).2 <> Next
  /\ fd_phone (formDataOf purify_text (req_body padded)) = "1234567890"
  /\ mentions (submissionErrors purify_text isEmail_simple padded)
       phone_messages = false.
Proof.
  intros dashed padded.
  destruct (phone_accepted_iff_ten_digits purify_text isEmail_simple
              purify_text_plain) as (H1 & _ & H3 & H4 & H5).
  split; [apply H1; reflexivity|].
  destruct (H3 dashed eq_refl) as (Hfd & Hin & _).
  split; [exact Hfd|]. split; [exact Hin|].
  split; [apply (H4 dashed); reflexivity|].
  destruct (H5 padded "  1234567890 " eq_refl eq_refl) as (Hfd' & Hacc).
  split; [exact Hfd'|]. apply Hacc. split; reflexivity.
Defined.

(** C7 fails as stated: an input that holds a character that is no digit
    is not always rejected.  A TAB between the digits is a control
    character, which the sanitizer removes before the check, and so is
    the scheme [javascript:]; the ten digits that are left are accepted,
    and the validator calls [next()] with them.  So it is for any
    DOMPurify that keeps plain text. *)
Lemma phone_with_other_characters_accepted :
  let tabbed := String.append "12345" (String (ascii_of_nat 9) "67890") in
  let request phone :=
    Request "203.0.113.7"
      (Body (JStr "John Doe") (JStr "JOHN@EXAMPLE.COM") (JStr phone) (JStr "on"))
      (Some johnFile) (Query None None None) None None in
  (has_char (fun c => negb (is_digit c)) tabbed = true
   /\ fd_phone (formDataOf purify_text (req_body (request tabbed)))
      = "1234567890"
   /\ mentions (submissionErrors purify_text isEmail_simple (request tabbed))
        phone_messages = false
   /\ (validateSubmission purify_text isEmail_simple (request tabbed)).2 = Next
   /\ req_validatedData
        (validateSubmission purify_text isEmail_simple (request tabbed)).1
      = Some (ValidatedData "John Doe" "john@example.com" "1234567890" true))
  /\ (has_char (fun c => negb (is_digit c)) "12345javascript:67890" = true
      /\ (validateSubmission purify_text isEmail_simple
            (request "12345javascript:67890")).2 = Next)
  /\ (forall purify, keeps_plain_text purify ->
        fd_phone (formDataOf purify (req_body (request tabbed)))
        = "1234567890"
        /\ fd_phone
             (formDataOf purify (req_body (request "12345javascript:67890")))
           = "1234567890").
Proof.
  intros tabbed request. split; [|split].
  - repeat split; reflexivity.
  - split; reflexivity.
  - intros purify Hp. unfold formDataOf, sanitize, sanitizeInput.
    cbn [fd_phone req_body b_phone request]. simpl.
    rewrite !Hp by reflexivity. split; reflexivity.
Qed.

End ValidationFacts.

(* ===================================================================== *)
(** ** The image pre-check *)
(* ===================================================================== *)

Module FaceSwapAPIFacts.
Import Js FaceSwapAPI Spec.
Import Stdlib.Init.Byte.

(** The loop over the signatures, one test after the other. *)
Lemma isValidImageBuffer_tests (b : buffer) :
  isValidImageBuffer b =
  if (length b <? 4)%nat then false
  else ((byte_at b 0 xff && byte_at b 1 xd8 && byte_at b 2 xff)
        || (byte_at b 0 x89 && byte_at b 1 x50 && byte_at b 2 x4e
            && byte_at b 3 x47)
        || (byte_at b 0 x47 && byte_at b 1 x49 && byte_at b 2 x46)
        || (byte_at b 0 x52 && byte_at b 1 x49 && byte_at b 2 x46
            && byte_at b 3 x46))%bool.
Proof.
  unfold isValidImageBuffer. destruct (length b <? 4)%nat; [reflexivity|].
  cbn [signatures existsb every_byte length seq zip zip_with forallb].
  now rewrite !andb_true_r, orb_false_r, <- !andb_assoc, <- !orb_assoc.
Qed.

(** C9: a buffer is a valid image exactly when its format is known; a
    buffer of less than 4 bytes is neither, whatever its bytes. *)
Theorem isValidImageBuffer_iff_known_format (b : buffer) :
  (isValidImageBuffer b = true <-> getImageFormat b <> "unknown")
  /\ ((length b < 4)%nat ->
      isValidImageBuffer b = false /\ getImageFormat b = "unknown").
Proof.
  rewrite isValidImageBuffer_tests. unfold getImageFormat.
  destruct (length b <? 4)%nat eqn:E.
  - split; [split; [discriminate|congruence]|]. intros _. now split.
  - apply Nat.ltb_ge in E. split; [|lia].
    destruct (byte_at b 0 xff && byte_at b 1 xd8 && byte_at b 2 xff)%bool;
      [split; [discriminate|reflexivity]|].
    destruct (byte_at b 0 x89 && byte_at b 1 x50 && byte_at b 2 x4e
              && byte_at b 3 x47)%bool;
      [split; [discriminate|reflexivity]|].
    destruct (byte_at b 0 x47 && byte_at b 1 x49 && byte_at b 2 x46)%bool;
      [split; [discriminate|reflexivity]|].
    destruct (byte_at b 0 x52 && byte_at b 1 x49 && byte_at b 2 x46
              && byte_at b 3 x46)%bool;
      [split; [discriminate|reflexivity]|].
    split; [discriminate|congruence].
Qed.

(** C9 at the three bytes of a JPEG signature. *)
Lemma isValidImageBuffer_iff_known_format_witness :
  isValidImageBuffer [xff; xd8; xff] = false
  /\ getImageFormat [xff; xd8; xff] = "unknown".
Proof.
  apply (proj2 (isValidImageBuffer_iff_known_format [xff; xd8; xff])).
  simpl. lia.
Defined.

End FaceSwapAPIFacts.

(* ===================================================================== *)
(** ** The rate limiter *)
(* ===================================================================== *)

Module RateLimitFacts.
Import Http ValidationMiddleware Spec.
Local Open Scope list_scope.

(** A request of another client leaves the entry of [ip] alone. *)
Lemma rateLimit_other (ip : string) (now : Z) (store : gmap string clientData)
    (req : request) :
  req_ip req <> ip -> (rateLimit now store req).1 !! ip = store !! ip.
Proof.
  intros Hne. unfold rateLimit. cbv zeta.
  destruct (_ >? maxRequests); cbn [fst];
    rewrite lookup_insert_ne by exact Hne; reflexivity.
Qed.

(** A request inside the window counts one more. *)
Lemma rateLimit_counts (now c r : Z) (store : gmap string clientData)
    (req : request) :
  store !! req_ip req = Some (ClientData c r) -> now <= r ->
  rateLimit now store req
  = (<[req_ip req := ClientData (c + 1) r]> store, decision (c + 1)).
Proof.
  intros Hs Hnow. unfold rateLimit, decision. cbv zeta. rewrite Hs.
  cbn [default count resetTime id].
  destruct (Z.gtb_spec now r); [exfalso; lia|]. cbn [count resetTime].
  now destruct (c + 1 >? maxRequests).
Qed.

(** The request that opens a window is the first of it, and goes on. *)
Lemma rateLimit_opens (now : Z) (store : gmap string clientData)
    (req : request) :
  windowOpens store (req_ip req) now ->
  rateLimit now store req
  = (<[req_ip req := ClientData 1 (now + windowMs)]> store, Next).
Proof.
  unfold windowOpens, rateLimit. cbv zeta.
  destruct (store !! req_ip req) as [[c r]|]; cbn [default count resetTime id].
  - intros H. destruct (Z.gtb_spec now r); [|exfalso; lia]. reflexivity.
  - intros _. unfold windowMs.
    destruct (Z.gtb_spec now (now + 15 * 60 * 1000)); [exfalso; lia|].
    reflexivity.
Qed.

Lemma requestsFrom_cons (ip : string) (t : Z) (req : request)
    (trace : list (Z * request)) :
  requestsFrom ip ((t, req) :: trace)
  = (if decide (req_ip req = ip) then 1 else 0) + requestsFrom ip trace.
Proof.
  unfold requestsFrom. rewrite filter_cons. cbn [snd].
  destruct (decide (req_ip req = ip)); cbn [length]; lia.
Qed.

(** Inside a window whose count is [c], the requests of [ip] are counted
    one by one, and each is decided by the count it brings. *)
Lemma rateLimitAll_counts (ip : string) (r : Z) (trace : list (Z * request)) :
  forall (store : gmap string clientData) (c : Z),
    store !! ip = Some (ClientData c r) ->
    (forall t req, (t, req) ∈ trace -> req_ip req = ip -> t <= r) ->
    (rateLimitAll store trace).1 !! ip
    = Some (ClientData (c + requestsFrom ip trace) r)
    /\ (forall i t req, trace !! i = Some (t, req) -> req_ip req = ip ->
          (rateLimitAll store trace).2 !! i
          = Some (decision (c + requestsFrom ip (firstn (S i) trace)))).
Proof.
  induction trace as [|[t0 req0] trace IH]; intros store c Hs Hin.
  - cbn. split; [now rewrite Z.add_0_r|]. intros i t req H. discriminate.
  - assert (Hrest : forall t req, (t, req) ∈ trace -> req_ip req = ip -> t <= r)
      by (intros t req H; apply Hin; now apply list_elem_of_further).
    cbn [rateLimitAll]. rewrite requestsFrom_cons.
    destruct (decide (req_ip req0 = ip)) as [Heq|Hne].
    + subst ip. rewrite (rateLimit_counts t0 c r) by
        first [exact Hs
              |apply (Hin t0 req0); [apply list_elem_of_here|reflexivity]].
      destruct (IH (<[req_ip req0 := ClientData (c + 1) r]> store) (c + 1))
        as [IH1 IH2]; [apply lookup_insert_eq|exact Hrest|].
      destruct (rateLimitAll _ trace) as [store' os]. cbn [fst snd] in *.
      split; [rewrite IH1; do 2 f_equal; lia|].
      intros [|i] t req Hi Hip.
      * change (firstn 1 ((t0, req0) :: trace)) with [(t0, req0)].
        rewrite requestsFrom_cons, decide_True by reflexivity.
        reflexivity.
      * etransitivity; [exact (IH2 i t req Hi Hip)|].
        do 2 f_equal. change (firstn (S (S i)) ((t0, req0) :: trace))
          with ((t0, req0) :: firstn (S i) trace).
        rewrite requestsFrom_cons, decide_True by reflexivity. lia.
    + pose proof (rateLimit_other ip t0 store req0 Hne) as Ho.
      destruct (rateLimit t0 store req0) as [store1 o1]. cbn [fst] in Ho.
      destruct (IH store1 c) as [IH1 IH2]; [now rewrite Ho|exact Hrest|].
      destruct (rateLimitAll store1 trace) as [store' os]. cbn [fst snd] in *.
      split; [rewrite IH1; do 2 f_equal; lia|].
      intros [|i] t req Hi Hip.
      * cbn in Hi. inversion Hi; subst. contradiction.
      * etransitivity; [exact (IH2 i t req Hi Hip)|].
        do 2 f_equal. change (firstn (S (S i)) ((t0, req0) :: trace))
          with ((t0, req0) :: firstn (S i) trace).
        rewrite requestsFrom_cons, decide_False by exact Hne. lia.
Qed.

(** C6: from the request that opens a window for a client on, with the
    requests of other clients in between, the request that is the k-th of
    the client in the window goes on when k is 10 at most and gets the
    429 otherwise; and the first request of the client after the reset
    time goes on again. *)
Theorem rateLimit_fixed_window (store : gmap string clientData) (t0 : Z)
    (req0 : request) (rest : list (Z * request)) :
  let ip := req_ip req0 in
  let trace := (t0, req0) :: rest in
  windowOpens store ip t0 ->
  (forall t req, (t, req) ∈ rest -> req_ip req = ip -> t <= t0 + windowMs) ->
  (forall i t req, trace !! i = Some (t, req) -> req_ip req = ip ->
     (rateLimitAll store trace).2 !! i
     = Some (if requestsFrom ip (firstn (S i) trace) >? 10
             then tooManyRequests else Next))
  /\ (forall t req, req_ip req = ip -> t0 + windowMs < t ->
        (rateLimit t (rateLimitAll store trace).1 req).2 = Next).
Proof.
  intros ip trace Hopen Hin. subst trace. cbn [rateLimitAll].
  rewrite (rateLimit_opens t0 store req0 Hopen). fold ip.
  destruct (rateLimitAll_counts ip (t0 + windowMs) rest
              (<[ip := ClientData 1 (t0 + windowMs)]> store) 1)
    as [H1 H2]; [apply lookup_insert_eq|exact Hin|].
  destruct (rateLimitAll _ rest) as [store' os]. cbn [fst snd] in *.
  split.
  - intros [|i] t req Hi Hip.
    + change (firstn 1 ((t0, req0) :: rest)) with [(t0, req0)].
      rewrite requestsFrom_cons, decide_True by reflexivity.
      reflexivity.
    + etransitivity; [exact (H2 i t req Hi Hip)|].
      f_equal. unfold decision, maxRequests.
      change (firstn (S (S i)) ((t0, req0) :: rest))
        with ((t0, req0) :: firstn (S i) rest).
      now rewrite requestsFrom_cons, decide_True by reflexivity.
  - intros t req Hip Ht. rewrite rateLimit_opens; [reflexivity|].
    unfold windowOpens. rewrite Hip, H1. cbn [resetTime]. lia.
Qed.

(** C6 for a fresh client that sends 12 requests, one a second, with
    another client in between. *)
Lemma rateLimit_fixed_window_witness :
  let other :=
    Request "198.51.100.2" johnBody None (Query None None None) None None in
  let trace :=
    [(0, johnRequest); (1000, johnRequest); (1500, other); (2000, johnRequest);
     (3000, johnRequest); (4000, johnRequest); (5000, johnRequest);
     (6000, johnRequest); (7000, johnRequest); (8000, johnRequest);
     (9000, johnRequest); (10000, johnRequest); (11000, johnRequest)] in
  (rateLimitAll ∅ trace).2 !! 10%nat = Some Next
  /\ (rateLimitAll ∅ trace).2 !! 11%nat = Some tooManyRequests
  /\ (rateLimitAll ∅ trace).2 !! 12%nat = Some tooManyRequests
  /\ (rateLimit (windowMs + 1) (rateLimitAll ∅ trace).1 johnRequest).2 = Next.
Proof.
  intros other trace.
  destruct (rateLimit_fixed_window ∅ 0 johnRequest (tail trace)) as [H1 H2].
  - exact I.
  - intros t req H _. unfold windowMs.
    repeat (apply elem_of_cons in H as [H|H]; [inversion H; lia|]).
    inversion H.
  - split; [exact (H1 10%nat 9000 johnRequest eq_refl eq_refl)|].
    split; [exact (H1 11%nat 10000 johnRequest eq_refl eq_refl)|].
    split; [exact (H1 12%nat 11000 johnRequest eq_refl eq_refl)|].
    apply H2; [reflexivity|unfold windowMs; lia].
Defined.

End RateLimitFacts.

(* ===================================================================== *)
(** ** The submission pipeline and the list *)
(* ===================================================================== *)

Module PipelineFacts.
Import Js Http FaceSwapAPI ValidationMiddleware SubmissionController Routes.
Import Spec JsFacts SanitizerFacts ValidationFacts RateLimitFacts.
Local Open Scope list_scope.

(** C3: when the pre-check of the stored image fails, the handler answers
    400 and its state is the one before; when the pre-check passes and
    the transformation is rejected or reports a failure, it answers 500
    and the records and the next identifier are the ones before. *)
Theorem handleSubmission_atomic (api : api) (now : Z) (st : state)
    (req : request) (f : file) :
  req_file req = Some f ->
  let image := api_validateImage api (files st) (path f) in
  let swap := (api_swapFace api (files st) (path f)).2 in
  let st' := (handleSubmission api now st req).1 in
  let r := (handleSubmission api now st req).2 in
  (valid image = false -> status_of r = 400 /\ st' = st)
  /\ (valid image = true -> swapFailed swap = true ->
      status_of r = 500
      /\ submissions st' = submissions st
      /\ submissionId st' = submissionId st).
Proof.
  intros Hf. cbv zeta. unfold handleSubmission.
  destruct (req_body req) as [name email phone terms]. rewrite Hf.
  destruct (api_validateImage api (files st) (path f)) as [sz fmt|err];
    cbn [valid].
  - split; [discriminate|]. intros _.
    destruct (api_swapFace api (files st) (path f)) as [d [res|msg]];
      cbn [snd swapFailed].
    + intros ->. cbn. auto.
    + intros _. cbn. auto.
  - split; [|discriminate]. intros _. cbn. auto.
Qed.

(** C3 for a file that is no image, and for a client with no API key. *)
Lemma handleSubmission_atomic_witness :
  let st := db freshApp in
  let text := {[ path johnFile := [Byte.x68; Byte.x65; Byte.x6c; Byte.x6c] ]} in
  let noKey := Env JUndefined 0 "" "" None in
  (status_of
     (handleSubmission (faceSwapAPI someEnv) 0 (with_files st text)
        johnRequest).2 = 400
   /\ (handleSubmission (faceSwapAPI someEnv) 0 (with_files st text)
         johnRequest).1 = with_files st text)
  /\ (status_of (handleSubmission (faceSwapAPI noKey) 0 st johnRequest).2 = 500
      /\ submissions (handleSubmission (faceSwapAPI noKey) 0 st johnRequest).1
         = submissions st
      /\ submissionId (handleSubmission (faceSwapAPI noKey) 0 st johnRequest).1
         = submissionId st).
Proof.
  intros st text noKey. split.
  - apply (handleSubmission_atomic (faceSwapAPI someEnv) 0
             (with_files st text) johnRequest johnFile eq_refl).
    reflexivity.
  - apply (handleSubmission_atomic (faceSwapAPI noKey) 0 st johnRequest
             johnFile eq_refl); reflexivity.
Defined.

(** The handler adds one record when it answers 200 and none otherwise. *)
Lemma handleSubmission_records (api : api) (now : Z) (st : state)
    (req : request) :
  if status_of (handleSubmission api now st req).2 =? 200
  then exists s,
      submissions (handleSubmission api now st req).1 = submissions st ++ [s]
  else submissions (handleSubmission api now st req).1 = submissions st.
Proof.
  unfold handleSubmission.
  destruct (req_body req) as [name email phone terms].
  destruct (req_file req) as [f|]; [|reflexivity].
  destruct (api_validateImage api (files st) (path f)); [|reflexivity].
  destruct (api_swapFace api (files st) (path f)) as [d [res|msg]];
    [|reflexivity].
  destruct (success res); cbn; eauto.
Qed.

(** Whatever the pipeline answers but 200, the records are the ones
    before; with 200 there is one more. *)
Lemma postSubmit_records (purify : list string -> string -> string)
    (isEmail : string -> bool) (api : api) (now created : Z)
    (upload : option uploadError) (a : app) (req : request) :
  if status_of (postSubmit purify isEmail api now created upload a req).2
     =? 200
  then exists s,
      submissions (db (postSubmit purify isEmail api now created upload a req).1)
      = submissions (db a) ++ [s]
  else submissions (db (postSubmit purify isEmail api now created upload a req).1)
       = submissions (db a).
Proof.
  unfold postSubmit.
  destruct (rateLimit now (rateLimitStore a) req) as [store o] eqn:Er.
  assert (Ho : o = Next \/ o = tooManyRequests).
  { unfold rateLimit in Er. cbv zeta in Er.
    destruct (_ >? maxRequests) in Er; inversion Er; auto. }
  destruct Ho as [-> | ->]; [|reflexivity].
  destruct upload as [[| |m|m]|]; try reflexivity. cbn [handleUpload].
  unfold validateSubmission. cbv zeta.
  destruct (0 <? length _)%nat; [reflexivity|].
  match goal with
  | |- context [handleSubmission api created (db a) ?q] =>
      pose proof (handleSubmission_records api created (db a) q) as H;
      destruct (handleSubmission api created (db a) q) as [st r]
  end.
  exact H.
Qed.

Section WithLibraries.

Variable purify : list string -> string -> string.
Variable isEmail : string -> bool.
Hypothesis purify_plain : keeps_plain_text purify.

Lemma formDataOf_john :
  formDataOf purify johnBody
  = FormData "John Doe" "JOHN@EXAMPLE.COM" "1234567890" "on".
Proof.
  unfold formDataOf, johnBody. cbn [b_name b_email b_phone b_terms].
  change (or_else (JStr "John Doe") (JStr "")) with (JStr "John Doe").
  change (or_else (JStr "JOHN@EXAMPLE.COM") (JStr ""))
    with (JStr "JOHN@EXAMPLE.COM").
  change (or_else (JStr "1234567890") (JStr "")) with (JStr "1234567890").
  now rewrite !(sanitize_plain purify purify_plain) by reflexivity.
Qed.

Lemma validateSubmission_john :
  isEmail "JOHN@EXAMPLE.COM" = true ->
  validateSubmission purify isEmail johnRequest
  = (with_validatedData johnRequest
       (ValidatedData "John Doe" "john@example.com" "1234567890" true),
     Next).
Proof.
  intros He. unfold validateSubmission, submissionErrors. cbv zeta.
  change (req_body johnRequest) with johnBody. rewrite formDataOf_john.
  unfold check_email. cbn [fd_email String.eqb Ascii.eqb Bool.eqb].
  rewrite He. reflexivity.
Qed.

(** C1 at its request: the pipeline answers 200 with the identifier 1 and
    the URL of the transformed image, and the validator leaves the
    normalized fields on the request, the email in lower case; but the
    record the handler stores holds the email as it was sent, not the
    normalized one. *)
Theorem postSubmit_stores_raw_email (now created : Z) :
  isEmail "JOHN@EXAMPLE.COM" = true ->
  let out :=
    postSubmit purify isEmail (faceSwapAPI someEnv) now created None
      freshApp johnRequest in
  out.2 = JsonSubmitted 200 "Face swap completed successfully!" 1
            "/uploads/swapped/swapped_1700000000500_q7w8e9r0t1y.jpg" 2000
  /\ req_validatedData (validateSubmission purify isEmail johnRequest).1
     = Some (ValidatedData "John Doe" "john@example.com" "1234567890" true)
  /\ map s_email (submissions (db out.1)) = [JStr "JOHN@EXAMPLE.COM"]
  /\ map s_email (submissions (db out.1)) <> [JStr "john@example.com"]
  /\ map s_terms (submissions (db out.1)) = [true].
Proof.
  intros He out. subst out. unfold postSubmit.
  rewrite rateLimit_opens by exact I. cbn [handleUpload].
  rewrite (validateSubmission_john He).
  split; [reflexivity|]. split; [reflexivity|]. split; [reflexivity|].
  split; [discriminate|reflexivity].
Qed.

Variable sortedBy : string -> list submission -> list submission.

Lemma sanitize_trimmed (x : string) :
  plain_text x = true -> Js.trim x = x -> sanitize purify (JStr x) = x.
Proof. intros Hx Ht. now rewrite (sanitize_plain purify purify_plain). Qed.

(** C5 at [?page=-1&limit=100]: the validator leaves page 1 and limit 10
    on the request, and the handler, which reads the query again, slices
    with page -1 and limit 50. *)
Theorem getSubmissions_ignores_queryOptions (st : state) (req : request) :
  req_query req = Query (Some "-1") (Some "100") None ->
  let total := Z.of_nat (length (submissions st)) in
  req_queryOptions (validateSubmissionsQuery purify req).1
  = Some (QueryOptions 1 10 0 "createdAt" (-1))
  /\ getSubmissions purify sortedBy st req
     = RenderSubmissions 200
         (slice (sortedBy "createdAt" (submissions st)) (-100) (-50))
         {| totalCount := total;
            currentPage := -1;
            totalPages := ceil_div total 50;
            hasNext := -1 <? ceil_div total 50;
            hasPrev := false;
            nextPage := 0;
            prevPage := -2 |}.
Proof.
  intros Hq total.
  assert (Hv : validateSubmissionsQuery purify req
               = (with_queryOptions req
                    (QueryOptions 1 10 0 "createdAt" (-1)), Next)).
  { unfold validateSubmissionsQuery. rewrite Hq.
    cbn [q_page q_limit q_sort]. unfold pageNumOf, limitNumOf, sortOf.
    cbn [param truthy String.eqb negb].
    rewrite !sanitize_trimmed by reflexivity. reflexivity. }
  split; [now rewrite Hv|].
  unfold getSubmissions. rewrite Hv. unfold renderSubmissions.
  cbn [req_query with_queryOptions]. rewrite Hq. reflexivity.
Qed.

End WithLibraries.

(** The checker used to run the program takes the address of C1. *)
Lemma isEmail_simple_john : isEmail_simple "JOHN@EXAMPLE.COM" = true.
Proof. reflexivity. Qed.

(** C1, run with the sanitizer and the checker of the scenario. *)
Lemma postSubmit_stores_raw_email_witness :
  let out :=
    postSubmit purify_text isEmail_simple (faceSwapAPI someEnv)
      1700000000000 1700000002600 None freshApp johnRequest in
  out.2 = JsonSubmitted 200 "Face swap completed successfully!" 1
            "/uploads/swapped/swapped_1700000000500_q7w8e9r0t1y.jpg" 2000
  /\ req_validatedData
       (validateSubmission purify_text isEmail_simple johnRequest).1
     = Some (ValidatedData "John Doe" "john@example.com" "1234567890" true)
  /\ map s_email (submissions (db out.1)) = [JStr "JOHN@EXAMPLE.COM"]
  /\ map s_email (submissions (db out.1)) <> [JStr "john@example.com"]
  /\ map s_terms (submissions (db out.1)) = [true].
Proof.
  exact (postSubmit_stores_raw_email purify_text isEmail_simple
           purify_text_plain 1700000000000 1700000002600 isEmail_simple_john).
Defined.

(** C5, run with the sanitizer of the scenario on an empty list. *)
Lemma getSubmissions_ignores_queryOptions_witness :
  let req :=
    Request "203.0.113.7" johnBody None
      (Query (Some "-1") (Some "100") None) None None in
  let st := State [] 1 ∅ in
  req_queryOptions (validateSubmissionsQuery purify_text req).1
  = Some (QueryOptions 1 10 0 "createdAt" (-1))
  /\ getSubmissions purify_text (fun _ l => l) st req
     = RenderSubmissions 200 []
         {| totalCount := 0; currentPage := -1; totalPages := 0;
            hasNext := true; hasPrev := false; nextPage := 0;
            prevPage := -2 |}.
Proof.
  intros req st.
  exact (getSubmissions_ignores_queryOptions purify_text purify_text_plain
           (fun _ l => l) st req eq_refl).
Defined.

End PipelineFacts.

(* ===================================================================== *)
(** ** The store *)
(* ===================================================================== *)

Module SubmissionModelFacts.
Import Js FaceSwapAPI SubmissionModel Spec.

Section WithObjectId.

Variable isValid : string -> bool.
Variable objectId : string -> string.

Lemma set_fields_lookup (update doc : document) (k : string) :
  set_fields update doc !! k
  = match update !! k with
    | Some v => Some v
    | None => doc !! k
    end.
Proof.
  unfold set_fields. rewrite lookup_union.
  destruct (update !! k), (doc !! k); reflexivity.
Qed.

(** An update of a document that is there, with a valid identifier and
    no [_id] in it, resolves with the merged document and stores it. *)
Lemma updateById_found (now : Z) (c : collection) (id : string)
    (updateData doc : document) :
  isValid id = true -> c !! objectId id = Some doc ->
  updateData !! "_id" = None ->
  updateById isValid objectId now c id updateData
  = (<[objectId id := set_fields (updatedDataOf now updateData) doc]> c,
     Resolve (Some (set_fields (updatedDataOf now updateData) doc))).
Proof.
  intros Hv Hdoc Hid. unfold updateById. rewrite Hv, Hdoc. cbn [negb].
  unfold updatedDataOf at 1. now rewrite lookup_insert_ne, Hid.
Qed.

(** C8, as amended: an update that does not name [createdAt] leaves the
    [createdAt] of the record as it was; when it does not name [_id]
    either, it resolves with the record as stored, whose [updatedAt] is
    the time of the update, whose fields named by the update hold the
    values of the update, and whose other fields, and the other records,
    are as they were. *)
Theorem updateById_frame (now : Z) (c : collection) (id : string)
    (updateData doc : document) :
  isValid id = true ->
  c !! objectId id = Some doc ->
  updateData !! "createdAt" = None ->
  let c' := (updateById isValid objectId now c id updateData).1 in
  let r := (updateById isValid objectId now c id updateData).2 in
  (exists doc', c' !! objectId id = Some doc'
                /\ doc' !! "createdAt" = doc !! "createdAt")
  /\ (updateData !! "_id" = None ->
      exists doc',
        r = Resolve (Some doc')
        /\ c' !! objectId id = Some doc'
        /\ doc' !! "updatedAt" = Some (JDate now)
        /\ (forall k v, k <> "updatedAt" -> updateData !! k = Some v ->
              doc' !! k = Some v)
        /\ (forall k, k <> "updatedAt" -> updateData !! k = None ->
              doc' !! k = doc !! k)
        /\ (forall j, j <> objectId id -> c' !! j = c !! j)).
Proof.
  intros Hv Hdoc Hcreated. cbv zeta.
  assert (Hframe : forall k, k <> "updatedAt" ->
            set_fields (updatedDataOf now updateData) doc !! k
            = match updateData !! k with
              | Some v => Some v
              | None => doc !! k
              end).
  { intros k Hk. rewrite set_fields_lookup. unfold updatedDataOf.
    now rewrite lookup_insert_ne. }
  split.
  - unfold updateById. rewrite Hv, Hdoc. cbn [negb].
    destruct (updatedDataOf now updateData !! "_id"); cbn [fst].
    + exists doc. auto.
    + eexists. split; [apply lookup_insert_eq|].
      rewrite Hframe by discriminate. now rewrite Hcreated.
  - intros Hid. rewrite (updateById_found now c id updateData doc Hv Hdoc Hid).
    cbn [fst snd]. eexists. split; [reflexivity|].
    split; [apply lookup_insert_eq|].
    split; [rewrite set_fields_lookup; unfold updatedDataOf;
            now rewrite lookup_insert_eq|].
    split; [intros k v Hk Hkv; now rewrite Hframe, Hkv|].
    split; [intros k Hk Hkv; now rewrite Hframe, Hkv|].
    intros j Hj. now rewrite lookup_insert_ne.
Qed.

End WithObjectId.

(** C8, as amended, for an update of the status. *)
Lemma updateById_frame_witness :
  let update : document := {[ "status" := JStr "failed" ]} in
  let c' :=
    (updateById isValid_hex24 objectId_hex24 1700000009000 someCollection
       someId update).1 in
  exists doc',
    c' !! someId = Some doc'
    /\ doc' !! "createdAt" = Some (JDate 1700000000000)
    /\ doc' !! "updatedAt" = Some (JDate 1700000009000)
    /\ doc' !! "status" = Some (JStr "failed")
    /\ doc' !! "email" = Some (JStr "john@example.com").
Proof.
  intros update c'.
  destruct (updateById_frame isValid_hex24 objectId_hex24 1700000009000
              someCollection someId update someRecord
              eq_refl eq_refl eq_refl) as [_ H].
  destruct (H eq_refl) as (doc' & _ & Hc & Hu & Hset & Hkeep & _).
  exists doc'. split; [exact Hc|].
  split; [exact (Hkeep "createdAt" ltac:(discriminate) eq_refl)|].
  split; [exact Hu|].
  split; [exact (Hset "status" _ ltac:(discriminate) eq_refl)|].
  exact (Hkeep "email" ltac:(discriminate) eq_refl).
Defined.

(** C8 fails as stated: an update that names [createdAt] replaces it. *)
Lemma updateById_overwrites_createdAt :
  let update : document := {[ "createdAt" := JDate 5 ]} in
  let c' :=
    (updateById isValid_hex24 objectId_hex24 1700000009000 someCollection
       someId update).1 in
  someCollection !! someId ≫= (.!! "createdAt") = Some (JDate 1700000000000)
  /\ c' !! someId ≫= (.!! "createdAt") = Some (JDate 5).
Proof. split; reflexivity. Qed.

End SubmissionModelFacts.

(* ===================================================================== *)
(** ** The sanitizer: what its output is made of *)
(* ===================================================================== *)

Module ShapeFacts.
Import Js Sanitizer SanitizerHelpers Shapes Spec JsFacts SanitizerFacts.

(** *** Subsequences *)

Lemma subseq_refl (s : string) : subseq s s.
Proof. induction s; constructor; assumption. Qed.

Lemma subseq_trans (a b c : string) : subseq a b -> subseq b c -> subseq a c.
Proof.
  intros Hab Hbc. revert a Hab.
  induction Hbc as [|x t s _ IH|x t s _ IH]; intros a Hab.
  - exact Hab.
  - apply subseq_skip, IH, Hab.
  - inversion Hab; subst.
    + apply subseq_skip, IH. assumption.
    + apply subseq_keep, IH. assumption.
Qed.

Lemma subseq_has_char (f : ascii -> bool) (t s : string) :
  subseq t s -> has_char f s = false -> has_char f t = false.
Proof.
  induction 1 as [|c t s _ IH|c t s _ IH]; simpl; [easy| |].
  - rewrite orb_false_iff. intros [_ H]. auto.
  - rewrite !orb_false_iff. intros [Hc H]. auto.
Qed.

Lemma subseq_tagless (t s : string) :
  subseq t s -> tagless s = true -> tagless t = true.
Proof.
  induction 1 as [|c t s _ IH|c t s Hts IH]; simpl; [easy| |].
  - rewrite andb_true_iff. intros [_ H]. auto.
  - rewrite !andb_true_iff, !orb_true_iff, !negb_true_iff.
    intros [[Hc|Hgt] H]; (split; [|auto]); [now left|right].
    exact (subseq_has_char _ _ _ Hts Hgt).
Qed.

Lemma replace_from_subseq (m : matcher) (s : string) :
  forall skip, subseq (replace_from m "" skip s) s.
Proof.
  induction s as [|c s IH]; intros skip; [constructor|].
  cbn [replace_from]. destruct skip as [|k]; [|apply subseq_skip, IH].
  destruct (m (String c s)) as [[|n]|].
  - apply subseq_keep, IH.
  - apply subseq_skip, IH.
  - apply subseq_keep, IH.
Qed.

Lemma replace_subseq (m : matcher) (s : string) : subseq (replace m "" s) s.
Proof. apply replace_from_subseq. Qed.

Lemma remove_chars_subseq (f : ascii -> bool) (s : string) :
  subseq (remove_chars f s) s.
Proof.
  induction s as [|c s IH]; simpl; [constructor|].
  destruct (f c); constructor; assumption.
Qed.

Lemma take_subseq (n : nat) (s : string) : subseq (take n s) s.
Proof.
  assert (Hnil : forall t, subseq "" t)
    by (intros t; induction t; constructor; assumption).
  revert s. induction n as [|n IH]; intros [|c s]; simpl; try apply Hnil.
  apply subseq_keep, IH.
Qed.

(** A search that starts after a match starts afresh. *)
Lemma replace_from_drop (m : matcher) (rep : string) (skip : nat) (s : string) :
  replace_from m rep skip s = replace_from m rep 0 (drop skip s).
Proof.
  revert s. induction skip as [|k IH]; intros s; [reflexivity|].
  destruct s as [|c s]; [reflexivity|]. cbn [replace_from drop]. apply IH.
Qed.

(** *** No tag survives *)

Lemma span_drop_nil (f : ascii -> bool) (s : string) :
  drop (span f s) s = "" -> all_chars f s = true.
Proof.
  induction s as [|c s IH]; simpl; [easy|].
  destruct (f c); simpl; [exact IH|discriminate].
Qed.

Lemma all_chars_ext (f g : ascii -> bool) (s : string) :
  (forall c, f c = g c) -> all_chars f s = all_chars g s.
Proof.
  intros H. induction s as [|c s IH]; [reflexivity|].
  cbn [all_chars]. now rewrite H, IH.
Qed.

Lemma all_drop_span (f : ascii -> bool) (s : string) :
  all_chars f s = true -> drop (span f s) s = "".
Proof.
  induction s as [|c s IH]; [reflexivity|]. cbn [all_chars span].
  rewrite andb_true_iff. intros [-> H]. cbn [drop]. auto.
Qed.

(** No [>] in a string, in the two ways the definitions say it. *)
Lemma no_gt_iff (s : string) :
  has_char (Ascii.eqb ">") s = false
  <-> all_chars (fun c => negb (Ascii.eqb c ">")) s = true.
Proof.
  rewrite has_char_false_all.
  now rewrite (all_chars_ext _ (fun c => negb (Ascii.eqb c ">")) s)
    by (intros c; now rewrite Ascii.eqb_sym).
Qed.

Lemma re_tag_none (s : string) :
  re_tag (String "<" s) = None -> has_char (Ascii.eqb ">") s = false.
Proof.
  unfold re_tag.
  destruct (drop _ s) eqn:E; [|discriminate]. intros _.
  apply span_drop_nil in E. now apply no_gt_iff.
Qed.

Lemma re_tag_only_at_lt (c : ascii) (s : string) :
  Ascii.eqb c "<" = false -> re_tag (String c s) = None.
Proof.
  intros H. unfold re_tag.
  destruct c as [[] [] [] [] [] [] [] []]; try reflexivity. discriminate.
Qed.

Lemma strip_tags_tagless_from (s : string) :
  forall k, tagless (strip_tags (drop k s)) = true.
Proof.
  unfold strip_tags, replace.
  induction s as [|c s IH]; intros [|k]; try reflexivity; [|apply IH].
  cbn [drop replace_from].
  destruct (re_tag (String c s)) as [[|n]|] eqn:E.
  - unfold re_tag in E. destruct c as [[] [] [] [] [] [] [] []];
      try discriminate. destruct (drop _ s); [discriminate|].
    inversion E. lia.
  - rewrite replace_from_drop. apply IH.
  - pose proof (IH 0%nat) as H0. cbn [drop] in H0.
    cbn [tagless]. rewrite H0, andb_true_r.
    destruct (Ascii.eqb c "<") eqn:Ec; [|reflexivity]. cbn [negb orb].
    apply Ascii.eqb_eq in Ec. subst c. apply re_tag_none in E.
    rewrite negb_true_iff.
    exact (subseq_has_char _ _ _ (replace_from_subseq re_tag s 0) E).
Qed.

Lemma strip_tags_tagless (s : string) : tagless (strip_tags s) = true.
Proof. apply (strip_tags_tagless_from s 0). Qed.

Lemma tagless_strip_tags (s : string) : tagless s = true -> strip_tags s = s.
Proof.
  unfold strip_tags, replace.
  induction s as [|c s IH]; [reflexivity|]. cbn [tagless replace_from].
  rewrite andb_true_iff, orb_true_iff, !negb_true_iff. intros [Hc Hs].
  assert (E : re_tag (String c s) = None).
  { destruct Hc as [Hc|Hgt]; [now apply re_tag_only_at_lt|].
    destruct (Ascii.eqb c "<") eqn:Ec; [|now apply re_tag_only_at_lt].
    apply Ascii.eqb_eq in Ec. subst c. unfold re_tag.
    apply no_gt_iff, all_drop_span in Hgt.
    pose proof Hgt as H.
    now rewrite H. }
  rewrite E. now rewrite IH.
Qed.

Section WithPurify.

Variable purify : list string -> string -> string.

Lemma limit_length_subseq (m : option Z) (s : string) :
  subseq (limit_length m s) s.
Proof.
  unfold limit_length. destruct m as [n|]; [|apply subseq_refl].
  destruct (_ && _)%bool; [apply take_subseq|apply subseq_refl].
Qed.

(** X1: whatever DOMPurify returns and whatever the options, the result of
    [sanitizeInput] holds no [<] with a [>] after it: no tag is left in
    it, and the pass that strips tags finds nothing more to strip. *)
Theorem sanitizeInput_no_tag (input : value) (opts : options) :
  tagless (sanitizeInput purify input opts) = true
  /\ strip_tags (sanitizeInput purify input opts)
     = sanitizeInput purify input opts.
Proof.
  assert (H : tagless (sanitizeInput purify input opts) = true).
  { destruct input; try reflexivity. unfold sanitizeInput. cbv zeta.
    eapply subseq_tagless; [|apply strip_tags_tagless].
    eapply subseq_trans; [apply limit_length_subseq|].
    eapply subseq_trans; [apply remove_chars_subseq|].
    unfold strip_scripts. cbv zeta.
    do 4 (eapply subseq_trans; [apply replace_subseq|]).
    apply subseq_refl. }
  split; [exact H|now apply tagless_strip_tags].
Qed.

End WithPurify.

(** *** Classes of characters *)

(** A fact about every character, by running through the 256 of them. *)
Ltac by_ascii :=
  let c := fresh "c" in
  intros c; destruct c as [[] [] [] [] [] [] [] []];
  first [reflexivity | intros; discriminate | intros; reflexivity].

Lemma all_chars_impl (f g : ascii -> bool) (s : string) :
  (forall c, f c = true -> g c = true) ->
  all_chars f s = true -> all_chars g s = true.
Proof.
  intros H. induction s as [|c s IH]; [reflexivity|]. cbn [all_chars].
  rewrite !andb_true_iff. intros [Hc Hs]. auto.
Qed.

Lemma all_chars_and (f g : ascii -> bool) (s : string) :
  all_chars f s = true -> all_chars g s = true ->
  all_chars (fun c => f c && g c)%bool s = true.
Proof.
  induction s as [|c s IH]; [reflexivity|]. cbn [all_chars].
  rewrite !andb_true_iff. intros [-> Hf] [-> Hg]. auto.
Qed.

Lemma all_chars_none (f h : ascii -> bool) (s : string) :
  (forall c, f c = true -> h c = false) ->
  all_chars f s = true -> has_char h s = false.
Proof.
  intros H. induction s as [|c s IH]; [reflexivity|].
  cbn [all_chars has_char]. rewrite andb_true_iff, orb_false_iff.
  intros [Hc Hs]. auto.
Qed.

Lemma remove_chars_all (f : ascii -> bool) (s : string) :
  all_chars (fun c => negb (f c)) (remove_chars f s) = true.
Proof. apply has_char_false_all, remove_chars_clean. Qed.

Lemma subseq_all_chars (f : ascii -> bool) (t s : string) :
  subseq t s -> all_chars f s = true -> all_chars f t = true.
Proof.
  induction 1 as [|c t s _ IH|c t s _ IH]; cbn [all_chars]; [easy| |];
    rewrite ?andb_true_iff; intros [Hc H]; auto.
Qed.

Lemma toLowerCase_all (g : ascii -> bool) (s : string) :
  (forall c, g (lower_char c) = true) -> all_chars g (toLowerCase s) = true.
Proof.
  intros H. induction s as [|c s IH]; [reflexivity|].
  cbn [toLowerCase all_chars]. now rewrite H, IH.
Qed.

Lemma toLowerCase_all_from (f g : ascii -> bool) (s : string) :
  (forall c, f c = true -> g (lower_char c) = true) ->
  all_chars f s = true -> all_chars g (toLowerCase s) = true.
Proof.
  intros H. induction s as [|c s IH]; [reflexivity|].
  cbn [toLowerCase all_chars]. rewrite !andb_true_iff. intros [Hc Hs]. auto.
Qed.

Lemma lower_char_not_upper : forall c, negb (is_upper (lower_char c)) = true.
Proof. by_ascii. Qed.

(** *** trim and the classes that hold the white space *)

Lemma trim_no_space (s : string) : has_char is_space s = false -> Js.trim s = s.
Proof.
  intros H. unfold Js.trim.
  assert (E : trimStart s = s).
  { destruct s as [|c s]; [reflexivity|]. simpl in H.
    apply orb_false_iff in H as [Hc _]. now apply trimStart_id. }
  rewrite E. clear E. induction s as [|c s IH]; [reflexivity|].
  simpl in H. apply orb_false_iff in H as [Hc Hs]. cbn [trimEnd].
  rewrite (IH Hs), Hc. now destruct s.
Qed.

Lemma remove_chars_trimStart (f : ascii -> bool) (s : string) :
  (forall c, is_space c = true -> f c = true) ->
  remove_chars f (trimStart s) = remove_chars f s.
Proof.
  intros H. induction s as [|c s IH]; [reflexivity|]. cbn [trimStart].
  destruct (is_space c) eqn:E; [|reflexivity].
  cbn [remove_chars]. now rewrite (H _ E).
Qed.

Lemma remove_chars_trimEnd (f : ascii -> bool) (s : string) :
  (forall c, is_space c = true -> f c = true) ->
  remove_chars f (trimEnd s) = remove_chars f s.
Proof.
  intros H. induction s as [|c s IH]; [reflexivity|]. cbn [trimEnd].
  destruct (trimEnd s) as [|d r] eqn:E.
  - destruct (is_space c) eqn:Ec; cbn [remove_chars] in *.
    + now rewrite (H _ Ec), <- IH.
    + now rewrite <- IH.
  - change (remove_chars f (String c (String d r)))
      with (if f c then remove_chars f (String d r)
            else String c (remove_chars f (String d r))).
    cbn [remove_chars] in IH |- *. fold (remove_chars f s). now rewrite IH.
Qed.

Lemma remove_chars_trim (f : ascii -> bool) (s : string) :
  (forall c, is_space c = true -> f c = true) ->
  remove_chars f (Js.trim s) = remove_chars f s.
Proof.
  intros H. unfold Js.trim.
  now rewrite remove_chars_trimEnd, remove_chars_trimStart.
Qed.

(** *** Runs collapsed into one character *)

Lemma starts_in_drop_span (f : ascii -> bool) (s : string) :
  starts_in f (drop (span f s) s) = false.
Proof.
  induction s as [|c s IH]; [reflexivity|]. cbn [span].
  destruct (f c) eqn:E; cbn [drop starts_in]; [exact IH|exact E].
Qed.

Lemma span_zero (f : ascii -> bool) (s : string) :
  span f s = 0%nat -> starts_in f s = false.
Proof.
  destruct s as [|c s]; [reflexivity|]. cbn [span starts_in].
  now destruct (f c).
Qed.

(** The two steps of the replacement of runs: a run that is long enough
    gives way to [r], and any other character stays. *)
Lemma re_run_match (atLeast : nat) (f : ascii -> bool) (r c : ascii)
    (s : string) :
  f c = true -> (atLeast <=? S (span f s))%nat = true ->
  replace_from (re_run atLeast f) (String r "") 0 (String c s)
  = String r (replace_from (re_run atLeast f) (String r "") 0
                (drop (span f s) s)).
Proof.
  intros Hc Hl. cbn [replace_from]. unfold re_run at 1. cbn [span].
  rewrite Hc, Hl. now rewrite replace_from_drop.
Qed.

Lemma re_run_keep (atLeast : nat) (f : ascii -> bool) (r c : ascii)
    (s : string) :
  (atLeast <=? span f (String c s))%nat = false ->
  replace_from (re_run atLeast f) (String r "") 0 (String c s)
  = String c (replace_from (re_run atLeast f) (String r "") 0 s).
Proof.
  intros Hl. cbn [replace_from]. unfold re_run at 1. now rewrite Hl.
Qed.

(** Where the runs of a class, of [atLeast] characters or more for
    [atLeast] 1 or 2, give way to one character of the class, no two
    characters of the class are left side by side. *)
Lemma collapse_from (atLeast : nat) (f : ascii -> bool) (r : ascii)
    (s : string) :
  (1 <= atLeast <= 2)%nat -> f r = true ->
  forall k,
    no_adjacent f (replace (re_run atLeast f) (String r "") (drop k s)) = true
    /\ (starts_in f (drop k s) = false ->
        starts_in f (replace (re_run atLeast f) (String r "") (drop k s))
        = false).
Proof.
  intros Ha Hr. unfold replace.
  induction s as [|c s IH]; intros [|k]; try (split; reflexivity);
    [|apply IH].
  cbn [drop].
  pose proof (IH 0%nat) as [IH1 IH2]. cbn [drop] in IH1, IH2.
  destruct (f c) eqn:Ec.
  - destruct (atLeast <=? S (span f s))%nat eqn:El.
    + rewrite (re_run_match _ _ _ _ _ Ec El).
      destruct (IH (span f s)) as [IHa IHb].
      specialize (IHb (starts_in_drop_span f s)).
      split; [|cbn [starts_in]; congruence].
      cbn [no_adjacent]. now rewrite IHa, IHb, Hr.
    + rewrite re_run_keep by (cbn [span]; now rewrite Ec).
      apply Nat.leb_gt in El.
      assert (Hz : span f s = 0%nat) by lia.
      apply span_zero in Hz. specialize (IH2 Hz).
      split; [|cbn [starts_in]; congruence].
      cbn [no_adjacent]. now rewrite IH1, IH2, andb_false_r.
  - rewrite re_run_keep
      by (cbn [span]; rewrite Ec; apply Nat.leb_gt; lia).
    split; [|intros _; exact Ec].
    cbn [no_adjacent]. now rewrite IH1, Ec.
Qed.

(** Where every run of a class gives way to [r], what is left is [r] and
    the characters outside the class. *)
Lemma collapse_all_from (f g h : ascii -> bool) (r : ascii) (s : string) :
  (forall c, h c = true -> f c = false -> g c = true) -> g r = true ->
  all_chars h s = true ->
  forall k,
    all_chars g (replace (re_run 1 f) (String r "") (drop k s)) = true.
Proof.
  intros Hg Hr. unfold replace.
  induction s as [|c s IH]; intros Hs [|k]; try reflexivity;
    cbn [all_chars] in Hs; apply andb_true_iff in Hs as [Hc Hs];
    [|apply IH, Hs].
  cbn [drop]. destruct (f c) eqn:Ec.
  - rewrite (re_run_match 1 f r c s Ec eq_refl). cbn [all_chars].
    now rewrite Hr, (IH Hs).
  - rewrite re_run_keep by (cbn [span]; now rewrite Ec).
    pose proof (IH Hs 0%nat) as H0. cbn [drop] in H0.
    cbn [all_chars]. now rewrite H0, (Hg _ Hc Ec).
Qed.

Lemma collapse_no_adjacent (atLeast : nat) (f : ascii -> bool) (r : ascii)
    (s : string) :
  (1 <= atLeast <= 2)%nat -> f r = true ->
  no_adjacent f (replace (re_run atLeast f) (String r "") s) = true.
Proof. intros Ha Hr. apply (collapse_from atLeast f r s Ha Hr 0). Qed.

Lemma append_cons (x : ascii) (a b : string) :
  String x a ++ b = String x (a ++ b).
Proof. reflexivity. Qed.

Lemma all_chars_app (g : ascii -> bool) (a b : string) :
  all_chars g a = true -> all_chars g b = true -> all_chars g (a ++ b) = true.
Proof.
  intros Ha Hb. induction a as [|x a IHa]; [exact Hb|].
  rewrite append_cons. cbn [all_chars] in *.
  apply andb_true_iff in Ha as [-> Ha]. auto.
Qed.

Lemma replace_from_all (g : ascii -> bool) (m : matcher) (rep s : string) :
  all_chars g rep = true -> all_chars g s = true ->
  forall skip, all_chars g (replace_from m rep skip s) = true.
Proof.
  intros Hrep.
  induction s as [|c s IH]; intros Hs skip; [reflexivity|].
  cbn [all_chars] in Hs. apply andb_true_iff in Hs as [Hc Hs].
  cbn [replace_from]. destruct skip as [|k]; [|auto].
  destruct (m (String c s)) as [[|n]|].
  - cbn [all_chars]. rewrite Hc. apply (IH Hs).
  - apply all_chars_app; [exact Hrep|apply (IH Hs)].
  - cbn [all_chars]. rewrite Hc. apply (IH Hs).
Qed.

Lemma replace_chars_all (g f : ascii -> bool) (rep s : string) :
  all_chars g rep = true ->
  (forall c, f c = false -> g c = true) ->
  all_chars g (replace_chars f rep s) = true.
Proof.
  intros Hrep Hg. induction s as [|c s IH]; [reflexivity|].
  cbn [replace_chars]. destruct (f c) eqn:E.
  - now apply all_chars_app.
  - cbn [all_chars]. now rewrite (Hg _ E), IH.
Qed.

Lemma toLowerCase_no_adjacent (f : ascii -> bool) (s : string) :
  (forall c, f (lower_char c) = f c) ->
  no_adjacent f (toLowerCase s) = no_adjacent f s.
Proof.
  intros H. induction s as [|c s IH]; [reflexivity|].
  cbn [toLowerCase no_adjacent]. rewrite IH, H. f_equal. f_equal. f_equal.
  destruct s as [|d s]; [reflexivity|]. cbn [toLowerCase starts_in]. apply H.
Qed.

Section WithPurify.

Variable purify : list string -> string -> string.

(** [sanitizeInput] with [{trim: true}] is [sanitizeInput] with no
    option; on plain text, with a DOMPurify that keeps it, it trims. *)
Lemma sanitizeInput_trim_option (v : value) :
  sanitizeInput purify v trim_option = sanitizeInput purify v no_options.
Proof. reflexivity. Qed.

Lemma sanitizeInput_trim_plain (x : string) :
  keeps_plain_text purify -> plain_text x = true ->
  sanitizeInput purify (JStr x) trim_option = Js.trim x.
Proof. intros Hp Hx. exact (sanitized_plain purify Hp x Hx). Qed.

(** X2: [sanitizeEmail] returns lower-case letters, digits, [_] and the
    characters from [.] to [@] only: no upper-case letter, no white space
    and no hyphen is left, so the hyphen of an address is lost.  On
    plain text, with a DOMPurify that keeps it, the result is the
    trimmed text in lower case without the other characters. *)
Theorem sanitizeEmail_output (email : value) :
  all_chars email_output_char (sanitizeEmail purify email) = true
  /\ has_char (Ascii.eqb "-") (sanitizeEmail purify email) = false
  /\ has_char is_upper (sanitizeEmail purify email) = false
  /\ has_char is_space (sanitizeEmail purify email) = false
  /\ (is_string email = false -> sanitizeEmail purify email = "")
  /\ (keeps_plain_text purify ->
      forall x, email = JStr x -> plain_text x = true ->
        sanitizeEmail purify email
        = remove_chars (fun c => negb (email_char c))
            (toLowerCase (Js.trim x))).
Proof.
  assert (H : all_chars email_output_char (sanitizeEmail purify email) = true).
  { destruct email; try reflexivity. unfold sanitizeEmail.
    apply (all_chars_impl
             (fun c => negb (negb (email_char c)) && negb (is_upper c))%bool);
      [by_ascii|].
    apply all_chars_and; [apply remove_chars_all|].
    eapply subseq_all_chars; [apply remove_chars_subseq|].
    apply toLowerCase_all, lower_char_not_upper. }
  split; [exact H|].
  split; [revert H; apply all_chars_none; by_ascii|].
  split; [revert H; apply all_chars_none; by_ascii|].
  split; [revert H; apply all_chars_none; by_ascii|].
  split; [now destruct email|].
  intros Hp x -> Hx. unfold sanitizeEmail.
  now rewrite (sanitizeInput_trim_plain x Hp Hx).
Qed.

(** X3: [sanitizeName] returns letters and single spaces only: no two white
    space characters stand side by side, and a result that is not empty
    matches the pattern the validator asks of a name. *)
Theorem sanitizeName_output (name : value) :
  all_chars name_output_char (sanitizeName purify name) = true
  /\ no_adjacent is_space (sanitizeName purify name) = true
  /\ (sanitizeName purify name <> "" ->
      re_name (sanitizeName purify name) = true)
  /\ (is_string name = false -> sanitizeName purify name = "").
Proof.
  assert (H : all_chars name_output_char (sanitizeName purify name) = true
              /\ no_adjacent is_space (sanitizeName purify name) = true).
  { destruct name; try (split; reflexivity). unfold sanitizeName. split.
    - apply (collapse_all_from is_space name_output_char
               (fun c => negb (negb (name_char c))) " " _) with (k := 0%nat);
        [by_ascii|reflexivity|apply remove_chars_all].
    - apply collapse_no_adjacent; [lia|reflexivity]. }
  destruct H as [H1 H2]. split; [exact H1|]. split; [exact H2|].
  split; [|now destruct name].
  intros Hne. unfold re_name. apply andb_true_iff. split.
  - destruct (sanitizeName purify name); [contradiction|reflexivity].
  - revert H1. apply all_chars_impl. by_ascii.
Qed.

(** X4: [sanitizeFilename] returns lower-case letters, digits, [.], [-]
    and [_] only, with no two [_] side by side: no path separator, no
    white space and no upper-case letter is left. *)
Theorem sanitizeFilename_output (filename : value) :
  all_chars filename_output_char (sanitizeFilename purify filename) = true
  /\ no_adjacent (Ascii.eqb "_") (sanitizeFilename purify filename) = true
  /\ has_char (Ascii.eqb "/") (sanitizeFilename purify filename) = false
  /\ has_char (Ascii.eqb backslash) (sanitizeFilename purify filename) = false
  /\ has_char is_space (sanitizeFilename purify filename) = false
  /\ (is_string filename = false -> sanitizeFilename purify filename = "").
Proof.
  assert (H : all_chars filename_output_char
                (sanitizeFilename purify filename) = true).
  { destruct filename; try reflexivity. unfold sanitizeFilename.
    apply (toLowerCase_all_from
             (fun c => filename_char c || Ascii.eqb c "_")%bool);
      [by_ascii|].
    apply replace_from_all; [reflexivity|].
    apply replace_chars_all; [reflexivity|by_ascii]. }
  split; [exact H|]. split.
  { destruct filename; try reflexivity. unfold sanitizeFilename.
    rewrite toLowerCase_no_adjacent by by_ascii.
    apply collapse_no_adjacent; [lia|reflexivity]. }
  split; [revert H; apply all_chars_none; by_ascii|].
  split; [revert H; apply all_chars_none; by_ascii|].
  split; [revert H; apply all_chars_none; by_ascii|].
  now destruct filename.
Qed.

(** X5: [sanitizePhone] returns digits only; with a DOMPurify that keeps
    plain text it changes nothing in its own result, and of plain text
    it returns the digits. *)
Theorem sanitizePhone_output (phone : value) :
  all_chars is_digit (sanitizePhone purify phone) = true
  /\ (keeps_plain_text purify ->
      sanitizePhone purify (JStr (sanitizePhone purify phone))
      = sanitizePhone purify phone
      /\ (forall x, phone = JStr x -> plain_text x = true ->
            sanitizePhone purify phone = remove_chars non_digit x)).
Proof.
  assert (H : all_chars is_digit (sanitizePhone purify phone) = true).
  { destruct phone; try reflexivity. unfold sanitizePhone.
    apply (all_chars_impl (fun c => negb (negb (is_digit c))));
      [by_ascii|apply remove_chars_all]. }
  split; [exact H|]. intros Hp. split.
  - set (d := sanitizePhone purify phone) in *.
    assert (Hplain : plain_text d = true).
    { unfold plain_text. apply negb_true_iff.
      revert H. apply all_chars_none. by_ascii. }
    assert (Hspace : has_char is_space d = false)
      by (revert H; apply all_chars_none; by_ascii).
    assert (Hdigit : has_char non_digit d = false)
      by (revert H; apply all_chars_none; by_ascii).
    unfold sanitizePhone at 1.
    change (Options None None (Some true) None) with trim_option.
    rewrite (sanitizeInput_trim_plain d Hp Hplain), (trim_no_space d Hspace).
    now apply remove_chars_id.
  - intros x -> Hx. unfold sanitizePhone.
    change (Options None None (Some true) None) with trim_option.
    rewrite (sanitizeInput_trim_plain x Hp Hx).
    apply (remove_chars_trim non_digit). by_ascii.
Qed.

End WithPurify.

(** [sanitizeEmail] on an address with hyphens and capitals. *)
Lemma sanitizeEmail_output_witness :
  sanitizeEmail purify_text (JStr " John-Doe@My-Site.com ")
  = "johndoe@mysite.com".
Proof.
  destruct (sanitizeEmail_output purify_text (JStr " John-Doe@My-Site.com "))
    as (_ & _ & _ & _ & _ & H).
  exact (H purify_text_plain _ eq_refl eq_refl).
Defined.

(** [sanitizePhone] on a phone number with dashes. *)
Lemma sanitizePhone_output_witness :
  sanitizePhone purify_text (JStr "123-456-7890") = "1234567890"
  /\ sanitizePhone purify_text (JStr (sanitizePhone purify_text (JStr "12 ab")))
     = sanitizePhone purify_text (JStr "12 ab").
Proof.
  split.
  - destruct (sanitizePhone_output purify_text (JStr "123-456-7890"))
      as [_ H].
    exact (proj2 (H purify_text_plain) _ eq_refl eq_refl).
  - destruct (sanitizePhone_output purify_text (JStr "12 ab")) as [_ H].
    exact (proj1 (H purify_text_plain)).
Defined.

(** *** escapeForDatabase *)

Lemma append_nil_r (a : string) : a ++ "" = a.
Proof. induction a as [|x a IH]; [reflexivity|]. now rewrite append_cons, IH. Qed.

Lemma append_assoc (a b c : string) : (a ++ b) ++ c = a ++ (b ++ c).
Proof.
  induction a as [|x a IH]; [reflexivity|]. now rewrite !append_cons, IH.
Qed.

Lemma replace_chars_app (f : ascii -> bool) (rep a b : string) :
  replace_chars f rep (a ++ b)
  = replace_chars f rep a ++ replace_chars f rep b.
Proof.
  induction a as [|x a IH]; [reflexivity|].
  rewrite append_cons. cbn [replace_chars]. rewrite IH.
  destruct (f x); [now rewrite append_assoc|now rewrite append_cons].
Qed.

Lemma replace_chars_cons (f : ascii -> bool) (rep : string) (c : ascii)
    (s : string) :
  replace_chars f rep (String c s)
  = replace_chars f rep (String c "") ++ replace_chars f rep s.
Proof. exact (replace_chars_app f rep (String c "") s). Qed.

Lemma escapeForDatabase_cons (c : ascii) (s : string) :
  escapeForDatabase (JStr (String c s))
  = escapeForDatabase (JStr (String c "")) ++ escapeForDatabase (JStr s).
Proof.
  unfold escapeForDatabase. cbv zeta.
  rewrite (replace_chars_cons (Ascii.eqb backslash)).
  now rewrite !replace_chars_app.
Qed.

Lemma escapeForDatabase_char :
  forall c, escapeForDatabase (JStr (String c "")) = escape_char c.
Proof. by_ascii. Qed.

Lemma unescape_escape_char :
  forall c rest, unescape (escape_char c ++ rest) = String c (unescape rest).
Proof.
  intros c rest. destruct c as [[] [] [] [] [] [] [] []]; reflexivity.
Qed.

Lemma raw_break_escape_char :
  forall c rest,
    has_char raw_break (escape_char c ++ rest) = has_char raw_break rest.
Proof.
  intros c rest. destruct c as [[] [] [] [] [] [] [] []]; reflexivity.
Qed.

(** X6: [escapeForDatabase] writes each character on its own, a backslash
    before the backslash and the two quotes, two characters for a line
    feed, a carriage return and a tab; so the result holds none of these
    three, and the text can be read back from it: no two texts are
    escaped into the same one. *)
Theorem escapeForDatabase_round_trip (s : string) :
  escapeForDatabase (JStr s) = escape_all s
  /\ unescape (escapeForDatabase (JStr s)) = s
  /\ has_char raw_break (escapeForDatabase (JStr s)) = false.
Proof.
  assert (H : escapeForDatabase (JStr s) = escape_all s).
  { induction s as [|c s IH]; [reflexivity|].
    now rewrite escapeForDatabase_cons, escapeForDatabase_char, IH. }
  rewrite H. split; [reflexivity|]. clear H.
  induction s as [|c s [IH1 IH2]]; [split; reflexivity|].
  cbn [escape_all].
  now rewrite unescape_escape_char, raw_break_escape_char, IH1, IH2.
Qed.

End ShapeFacts.

(* ===================================================================== *)
(** ** Files: the pre-check, the stand-in swap, cleanup, the upload *)
(* ===================================================================== *)

Module FileFacts.
Import Js Http FaceSwapAPI FaceSwapFiles Upload ValidationMiddleware.
Import Spec Records FaceSwapAPIFacts.
Import Stdlib.Init.Byte.
Local Open Scope list_scope.

Lemma byte_at_lookup (b : buffer) (i : nat) (x : byte) :
  byte_at b i x = true <-> b !! i = Some x.
Proof.
  unfold byte_at. destruct (b !! i) as [y|]; [|easy].
  split.
  - intros H. f_equal. now apply Byte.byte_dec_bl.
  - intros [= ->]. now apply Byte.byte_dec_lb.
Qed.

Lemma byte_at_unique (b : buffer) (i : nat) (x y : byte) :
  byte_at b i x = true -> x <> y -> byte_at b i y = false.
Proof.
  intros Hx Hne. destruct (byte_at b i y) eqn:Hy; [|reflexivity].
  apply byte_at_lookup in Hx, Hy. congruence.
Qed.

(** X7: the format of a buffer of 4 bytes or more is decided by the
    signature it starts with, whatever the order of the tests: each
    format is reported exactly for its signature, and a buffer has one
    signature at most. *)
Theorem getImageFormat_by_signature (b : buffer) :
  (4 <= length b)%nat ->
  (getImageFormat b = "jpeg" <-> every_byte [xff; xd8; xff] b = true)
  /\ (getImageFormat b = "png" <-> every_byte [x89; x50; x4e; x47] b = true)
  /\ (getImageFormat b = "gif" <-> every_byte [x47; x49; x46] b = true)
  /\ (getImageFormat b = "webp" <-> every_byte [x52; x49; x46; x46] b = true).
Proof.
  intros Hlen. apply Nat.ltb_ge in Hlen. unfold getImageFormat. rewrite Hlen.
  cbn [every_byte length seq zip zip_with forallb]. rewrite !andb_true_r.
  destruct (byte_at b 0 xff) eqn:E0.
  - rewrite (byte_at_unique b 0 xff x89 E0), (byte_at_unique b 0 xff x47 E0),
      (byte_at_unique b 0 xff x52 E0) by discriminate.
    cbn [andb]. destruct (byte_at b 1 xd8 && byte_at b 2 xff)%bool;
      repeat split; intros; try discriminate; reflexivity.
  - cbn [andb]. destruct (byte_at b 0 x89) eqn:E1.
    + rewrite (byte_at_unique b 0 x89 x47 E1), (byte_at_unique b 0 x89 x52 E1)
        by discriminate.
      cbn [andb].
      destruct (byte_at b 1 x50 && (byte_at b 2 x4e && byte_at b 3 x47))%bool
        eqn:E; rewrite ?andb_assoc in *; rewrite ?E;
        repeat split; intros; try discriminate; try reflexivity.
    + cbn [andb]. destruct (byte_at b 0 x47) eqn:E2.
      * rewrite (byte_at_unique b 0 x47 x52 E2) by discriminate. cbn [andb].
        destruct (byte_at b 1 x49 && byte_at b 2 x46)%bool;
          repeat split; intros; try discriminate; reflexivity.
      * cbn [andb].
        destruct (byte_at b 0 x52 && byte_at b 1 x49 && byte_at b 2 x46
                  && byte_at b 3 x46)%bool eqn:E;
          rewrite <- ?andb_assoc in *; rewrite ?E;
          repeat split; intros; try discriminate; reflexivity.
Qed.

(** The first bytes of a JPEG file are told as such. *)
Lemma getImageFormat_by_signature_witness :
  getImageFormat jpegBytes = "jpeg".
Proof.
  assert (Hlen : (4 <= length jpegBytes)%nat) by (cbn; lia).
  destruct (getImageFormat_by_signature jpegBytes Hlen) as [H _].
  apply H. reflexivity.
Defined.

(** The format of a buffer the signature test accepts is a known one,
    and that of any other buffer is unknown. *)
Lemma getImageFormat_known (b : buffer) :
  if isValidImageBuffer b
  then In (getImageFormat b) knownFormats
  else getImageFormat b = "unknown".
Proof.
  rewrite isValidImageBuffer_tests. unfold getImageFormat, knownFormats.
  destruct (length b <? 4)%nat; [reflexivity|].
  destruct (byte_at b 0 xff && byte_at b 1 xd8 && byte_at b 2 xff)%bool;
    [cbn; auto|].
  destruct (byte_at b 0 x89 && byte_at b 1 x50 && byte_at b 2 x4e
            && byte_at b 3 x47)%bool; [cbn; auto|].
  destruct (byte_at b 0 x47 && byte_at b 1 x49 && byte_at b 2 x46)%bool;
    [cbn; auto|].
  destruct (byte_at b 0 x52 && byte_at b 1 x49 && byte_at b 2 x46
            && byte_at b 3 x46)%bool; [cbn; auto 6|reflexivity].
Qed.

(** X8: [validateImage] says valid exactly for a file that is there, of 2 MiB
    at most and with a known signature; the size it reports is the
    length of the file and the format is never [unknown].  Any other
    file gets one of three errors. *)
Theorem validateImage_verdict (d : disk) (imagePath : string) :
  match validateImage d imagePath with
  | Valid size format =>
      exists content,
        d !! imagePath = Some content
        /\ size = Z.of_nat (length content)
        /\ size <= 2 * 1024 * 1024
        /\ format = getImageFormat content
        /\ In format knownFormats
  | Invalid error =>
      (d !! imagePath = None
       /\ error
          = ("Failed to validate image: " ++ enoent "stat" imagePath)%string)
      \/ (exists content,
            d !! imagePath = Some content
            /\ 2 * 1024 * 1024 < Z.of_nat (length content)
            /\ error = "Image file is too large (max 2MB allowed)")
      \/ (exists content,
            d !! imagePath = Some content
            /\ getImageFormat content = "unknown"
            /\ error = "Invalid image format")
  end.
Proof.
  unfold validateImage. destruct (d !! imagePath) as [content|]; [|now left].
  destruct (Z.gtb_spec (Z.of_nat (length content)) (2 * 1024 * 1024))
    as [Hbig|Hsmall].
  - right. left. exists content. split; [reflexivity|]. split; [lia|reflexivity].
  - pose proof (getImageFormat_known content) as Hfmt.
    destruct (isValidImageBuffer content); cbn [negb].
    + exists content. split; [reflexivity|]. split; [reflexivity|].
      split; [lia|]. split; [reflexivity|exact Hfmt].
    + right. right. exists content. split; [reflexivity|].
      split; [exact Hfmt|reflexivity].
Qed.

(** X9: a swap that resolves has written a copy of the original under the
    path it reports, and nothing else; the copy gets from the pre-check
    the verdict of the original.  A swap that is rejected has written
    nothing. *)
Theorem swapFace_copies (e : env) (d : disk) (originalImagePath : string) :
  match swapFace e d originalImagePath with
  | (d', Resolve r) =>
      success r = true
      /\ d' !! swappedImagePath r = d !! originalImagePath
      /\ is_Some (d !! originalImagePath)
      /\ (forall p, p <> swappedImagePath r -> d' !! p = d !! p)
      /\ valid (validateImage d' (swappedImagePath r))
         = valid (validateImage d originalImagePath)
  | (d', Reject message) => d' = d
  end.
Proof.
  unfold swapFace, simulateFaceSwap, disk in *.
  destruct (negb (truthy (apiKey e))); [reflexivity|].
  destruct (d !! originalImagePath) as [content|] eqn:E; [|reflexivity].
  destruct (copyFails e); [reflexivity|]. cbn [success swappedImagePath].
  split; [reflexivity|]. split; [now rewrite lookup_insert_eq|].
  split; [eauto|]. split; [intros p Hp; now rewrite lookup_insert_ne|].
  unfold validateImage, disk. now rewrite lookup_insert_eq, E.
Qed.

Lemma cleanup_lookup (filePaths : list string) (d : disk) (p : string) :
  cleanup d filePaths !! p = if decide (p ∈ filePaths) then None else d !! p.
Proof.
  unfold cleanup, disk in *. revert d.
  induction filePaths as [|x l IH]; intros d.
  - cbn. rewrite decide_False; [reflexivity|]. apply not_elem_of_nil.
  - cbn [foldl]. rewrite IH.
    destruct (decide (p ∈ l)) as [Hl|Hl].
    + rewrite decide_True; [reflexivity|]. now apply list_elem_of_further.
    + destruct (decide (p = x)) as [->|Hne].
      * rewrite decide_True by apply list_elem_of_here.
        apply lookup_delete_eq.
      * rewrite decide_False.
        -- now apply lookup_delete_ne.
        -- rewrite elem_of_cons. tauto.
Qed.

(** X10: after [cleanup] none of the listed files is there, every other file
    is as it was, and a second [cleanup] of the same files changes
    nothing; files that are not there are no obstacle. *)
Theorem cleanup_removes (filePaths : list string) (d : disk) :
  (forall p, p ∈ filePaths -> cleanup d filePaths !! p = None)
  /\ (forall p, p ∉ filePaths -> cleanup d filePaths !! p = d !! p)
  /\ cleanup (cleanup d filePaths) filePaths = cleanup d filePaths.
Proof.
  split; [|split].
  - intros p Hp. rewrite cleanup_lookup. now rewrite decide_True.
  - intros p Hp. rewrite cleanup_lookup. now rewrite decide_False.
  - unfold disk in *. apply map_eq. intros p. rewrite !cleanup_lookup.
    now destruct (decide (p ∈ filePaths)).
Qed.

(** X11: what passes the image pre-check passes the check of the upload
    middleware, which looks at the size only and reports every failure
    with the same message. *)
Theorem validateUploadedFile_weaker (d : disk) (filePath : string) :
  (valid (validateImage d filePath) = true ->
   validateUploadedFile d filePath = Resolve true)
  /\ (validateUploadedFile d filePath = Resolve true
      \/ validateUploadedFile d filePath = Reject "Invalid file upload")
  /\ (validateUploadedFile d filePath = Resolve true <->
      exists content,
        d !! filePath = Some content
        /\ Z.of_nat (length content) <= 2 * 1024 * 1024).
Proof.
  unfold validateUploadedFile, validateImage.
  destruct (d !! filePath) as [content|].
  - destruct (Z.gtb_spec (Z.of_nat (length content)) (2 * 1024 * 1024))
      as [Hbig|Hsmall].
    + split; [discriminate|]. split; [now right|].
      split; [discriminate|]. intros (c & [= <-] & H). lia.
    + split; [reflexivity|]. split; [now left|].
      split; [|reflexivity]. intros _. exists content. split; [reflexivity|lia].
  - split; [discriminate|]. split; [now right|].
    split; [discriminate|]. now intros (c & H & _).
Qed.

End FileFacts.

(* ===================================================================== *)
(** ** The records: identifiers, details, deletion, pages *)
(* ===================================================================== *)

Module RecordFacts.
Import Js Http FaceSwapAPI FaceSwapFiles ValidationMiddleware
  SubmissionController Routes Api.
Import Spec Records JsFacts SanitizerFacts FileFacts.
Local Open Scope list_scope.

(** *** Identifiers *)

Lemma handleSubmission_submissions (api : api) (now : Z) (st : state)
    (req : request) :
  (handleSubmission api now st req).1 = st
  \/ (submissions (handleSubmission api now st req).1 = submissions st
      /\ submissionId (handleSubmission api now st req).1 = submissionId st)
  \/ (exists s,
        s_id s = submissionId st
        /\ submissions (handleSubmission api now st req).1
           = submissions st ++ [s]
        /\ submissionId (handleSubmission api now st req).1
           = submissionId st + 1).
Proof.
  unfold handleSubmission.
  destruct (req_body req) as [name email phone terms].
  destruct (req_file req) as [f|]; [|now left].
  destruct (api_validateImage api (files st) (path f)); [|now left].
  destruct (api_swapFace api (files st) (path f)) as [d [res|msg]];
    [|right; left; now split].
  destruct (success res); cbn [negb fst];
    [|right; left; now split].
  right. right. eexists. split; [|split; reflexivity]. reflexivity.
Qed.

Lemma handleSubmission_ids (api : api) (now : Z) (st : state) (req : request) :
  ids_fresh st -> ids_fresh (handleSubmission api now st req).1.
Proof.
  intros (Hnd & Hlt & Hpos).
  destruct (handleSubmission_submissions api now st req)
    as [->|[[Hs Hn]|(s & Hid & Hs & Hn)]]; [now repeat split| |];
    unfold ids_fresh, ids; rewrite Hs, Hn; [now repeat split|].
  rewrite map_app. cbn [map]. rewrite Hid. split; [|split; [|lia]].
  - apply NoDup_app. split; [exact Hnd|]. split; [|apply NoDup_singleton].
    intros n Hin Hn'. apply list_elem_of_singleton in Hn'. subst n.
    rewrite Forall_forall in Hlt. specialize (Hlt _ Hin). lia.
  - apply Forall_app. split.
    + eapply Forall_impl; [exact Hlt|]. intros n Hn'. cbn in Hn'. lia.
    + apply Forall_singleton. lia.
Qed.

Lemma handleSubmission_counter (api : api) (now : Z) (st : state)
    (req : request) :
  submissionId st <= submissionId (handleSubmission api now st req).1
    <= submissionId st + 1.
Proof.
  destruct (handleSubmission_submissions api now st req)
    as [->|[[_ ->]|(s & _ & _ & ->)]]; lia.
Qed.

(** Where [findIndex] finds the record. *)
Lemma findIndex_split (l : list submission) (n : Z) (i : nat) :
  findIndex l n = Some i ->
  exists l1 s l2,
    l = l1 ++ s :: l2 /\ s_id s = n /\ l !! i = Some s
    /\ delete i l = l1 ++ l2
    /\ Forall (fun x => s_id x <> n) l1
    /\ i = length l1.
Proof.
  revert i. induction l as [|x l IH]; intros i; [discriminate|].
  cbn [findIndex]. destruct (Z.eqb_spec (s_id x) n) as [He|Hne].
  - intros [= <-]. exists [], x, l. now repeat split.
  - destruct (findIndex l n) as [j|]; [|discriminate]. intros [= <-].
    destruct (IH j eq_refl) as (l1 & s & l2 & -> & Hs & Hl & Hd & Hf & Hj).
    exists (x :: l1), s, l2.
    split; [reflexivity|]. split; [exact Hs|]. split; [exact Hl|].
    split; [|split; [now constructor|cbn [length]; now rewrite Hj]].
    change (x :: delete j (l1 ++ s :: l2) = x :: l1 ++ l2). now rewrite Hd.
Qed.

(** A [deleteSubmission] that runs alone, in one piece. *)
Lemma deleteSubmission_alone (st : state) (id : string) :
  deleteSubmission st id
  = match parseInt id ≫= findIndex (submissions st) with
    | None => (st, Failure 404 "Submission not found")
    | Some submissionIndex =>
        match submissions st !! submissionIndex with
        | None => (st, Failure 404 "Submission not found")
        | Some submission =>
            ({| submissions := delete submissionIndex (submissions st);
                submissionId := submissionId st;
                files :=
                  cleanup (files st)
                    (nonEmpty [s_originalImagePath submission;
                               s_swappedImagePath submission]) |},
             Done "Submission deleted successfully")
        end
    end.
Proof.
  unfold deleteSubmission, deleteFind.
  destruct (parseInt id ≫= findIndex (submissions st)) as [i|]; [|reflexivity].
  now destruct (submissions st !! i).
Qed.

Lemma findIndex_none (l : list submission) (n : Z) :
  findIndex l n = None <-> List.find (fun s => s_id s =? n) l = None.
Proof.
  induction l as [|x l IH]; [easy|]. cbn [findIndex List.find].
  destruct (s_id x =? n); [easy|].
  destruct (findIndex l n); cbn; [|tauto].
  split; [discriminate|]. intros H. apply IH in H. discriminate.
Qed.

Lemma find_skip (l1 l2 : list submission) (m : Z) :
  Forall (fun x => s_id x <> m) l1 ->
  List.find (fun s => s_id s =? m) (l1 ++ l2)
  = List.find (fun s => s_id s =? m) l2.
Proof.
  induction 1 as [|x l1 Hx _ IH]; [reflexivity|]. cbn [List.app List.find].
  now destruct (Z.eqb_spec (s_id x) m).
Qed.

Lemma find_other (l1 l2 : list submission) (s : submission) (m : Z) :
  s_id s <> m ->
  List.find (fun x => s_id x =? m) (l1 ++ s :: l2)
  = List.find (fun x => s_id x =? m) (l1 ++ l2).
Proof.
  intros Hne. induction l1 as [|x l1 IH]; cbn [List.app List.find].
  - now destruct (Z.eqb_spec (s_id s) m).
  - now rewrite IH.
Qed.

Lemma find_absent (l : list submission) (m : Z) :
  m ∉ map s_id l -> List.find (fun x => s_id x =? m) l = None.
Proof.
  induction l as [|x l IH]; [reflexivity|]. cbn [map List.find].
  rewrite not_elem_of_cons. intros [Hne Hl].
  destruct (Z.eqb_spec (s_id x) m); [congruence|auto].
Qed.

Lemma deleteSubmission_ids (st : state) (id : string) :
  ids_fresh st -> ids_fresh (deleteSubmission st id).1.
Proof.
  intros Hst. rewrite deleteSubmission_alone.
  destruct (parseInt id ≫= findIndex (submissions st)) as [i|] eqn:E;
    [|exact Hst].
  destruct (parseInt id) as [n|]; [|discriminate]. cbn in E.
  destruct (findIndex_split _ _ _ E) as (l1 & s & l2 & Hl & Hs & Hi & Hd & _).
  rewrite Hi. destruct Hst as (Hnd & Hlt & Hpos). unfold ids_fresh, ids in *.
  cbn [fst submissions submissionId]. rewrite Hd. rewrite Hl in Hnd, Hlt.
  rewrite map_app in *. cbn [map] in *.
  apply NoDup_app in Hnd as (H1 & H2 & H3).
  apply NoDup_cons in H3 as [_ H3]. apply Forall_app in Hlt as [Hlt1 Hlt2].
  inversion Hlt2; subst. split; [|split; [|exact Hpos]].
  - apply NoDup_app. split; [exact H1|]. split; [|exact H3].
    intros m Hm Hm'. apply (H2 m Hm). now apply list_elem_of_further.
  - now apply Forall_app.
Qed.

Lemma deleteSubmission_counter (st : state) (id : string) :
  submissionId (deleteSubmission st id).1 = submissionId st.
Proof.
  rewrite deleteSubmission_alone.
  destruct (parseInt id ≫= findIndex (submissions st)) as [i|]; [|reflexivity].
  now destruct (submissions st !! i).
Qed.

Lemma step_counter (st : state) (a : action) :
  submissionId st <= submissionId (step st a) <= submissionId st + 1.
Proof.
  destruct a as [api now req|id]; cbn [step].
  - apply handleSubmission_counter.
  - rewrite deleteSubmission_counter. lia.
Qed.

Lemma step_ids (st : state) (a : action) :
  ids_fresh st -> ids_fresh (step st a).
Proof.
  destruct a as [api now req|id]; cbn [step].
  - apply handleSubmission_ids.
  - apply deleteSubmission_ids.
Qed.

Lemma steps_ids (actions : list action) (st : state) :
  ids_fresh st ->
  ids_fresh (foldl step st actions)
  /\ submissionId st <= submissionId (foldl step st actions)
       <= submissionId st + Z.of_nat (length actions).
Proof.
  revert st. induction actions as [|a l IH]; intros st Hst.
  - cbn. split; [exact Hst|lia].
  - cbn [foldl length]. pose proof (step_counter st a) as Hc.
    destruct (IH (step st a) (step_ids st a Hst)) as [Hi Hn].
    split; [exact Hi|lia].
Qed.

(** X13: whatever is submitted and deleted, in any order, from the start on
    (fewer than [2 ^ 53] times, so that the counter counts exactly): no
    two records in store have the same identifier, and every identifier
    in store is below the next one to give, so that the identifier of a
    deleted record is not given again. *)
Theorem ids_fresh_always (d : disk) (actions : list action) :
  Z.of_nat (length actions) < maxSafe ->
  ids_fresh (foldl step (initial d) actions)
  /\ 1 <= submissionId (foldl step (initial d) actions)
       <= 1 + Z.of_nat (length actions)
  /\ submissionId (foldl step (initial d) actions) <= maxSafe.
Proof.
  intros Hlen.
  assert (H0 : ids_fresh (initial d)).
  { split; [apply NoDup_nil_2|]. split; [constructor|cbn; lia]. }
  destruct (steps_ids actions (initial d) H0) as [Hi Hn].
  cbn [initial submissionId] in Hn. split; [exact Hi|]. split; lia.
Qed.

Lemma initial_fresh (d : disk) : ids_fresh (initial d).
Proof.
  split; [apply NoDup_nil_2|]. split; [constructor|cbn; lia].
Qed.

(** Three submissions with a deletion in between. *)
Lemma ids_fresh_always_witness :
  ids_fresh
    (foldl step (initial (files (db freshApp)))
       [johnSubmits; johnSubmits; Delete "1"; johnSubmits])
  /\ 1 <= submissionId
            (foldl step (initial (files (db freshApp)))
               [johnSubmits; johnSubmits; Delete "1"; johnSubmits])
       <= 1 + Z.of_nat 4
  /\ submissionId
       (foldl step (initial (files (db freshApp)))
          [johnSubmits; johnSubmits; Delete "1"; johnSubmits])
     <= maxSafe.
Proof.
  apply (ids_fresh_always (files (db freshApp))
           [johnSubmits; johnSubmits; Delete "1"; johnSubmits]).
  reflexivity.
Defined.

(** X14: a submission the handler answers 200 to, with the identifier [n], is
    found again under any spelling of [n] (the identifiers being below
    [2 ^ 53]): the details are those of the request as it was sent, with
    the URL and the time of the answer. *)
Theorem submitted_then_found (api : api) (now : Z) (st : state)
    (req : request) (message : string) (n : Z) (url : string) (time : Z)
    (id : string) :
  ids_fresh st ->
  submissionId st < maxSafe ->
  (handleSubmission api now st req).2 = JsonSubmitted 200 message n url time ->
  parseInt id = Some n ->
  exists d,
    getSubmissionDetails (handleSubmission api now st req).1 id = Found d
    /\ d_id d = n
    /\ d_name d = b_name (req_body req)
    /\ d_email d = b_email (req_body req)
    /\ d_phone d = b_phone (req_body req)
    /\ d_createdAt d = now
    /\ d_status d = "completed"%string
    /\ d_processingTime d = time
    /\ d_swappedImageUrl d = url.
Proof.
  intros (_ & Hlt & _) _. unfold getSubmissionDetails. intros Hr ->.
  unfold handleSubmission in *.
  destruct (req_body req) as [name email phone terms].
  destruct (req_file req) as [f|]; [|discriminate].
  destruct (api_validateImage api (files st) (path f)); [|discriminate].
  destruct (api_swapFace api (files st) (path f)) as [d' [res|msg]];
    [|discriminate].
  destruct (success res); [|discriminate]. cbn [negb fst snd] in *.
  injection Hr as _ Hn Hurl Htime.
  cbn [submissions findSubmission].
  rewrite find_skip.
  - cbn [List.find s_id]. rewrite Hn, Z.eqb_refl.
    eexists. split; [reflexivity|]. cbn. now repeat split.
  - unfold ids in Hlt. rewrite List.Forall_forall in *. intros x Hx.
    specialize (Hlt (s_id x) (in_map s_id _ _ Hx)). lia.
Qed.

(** John's submission is found under [1], with the email as he sent
    it. *)
Lemma submitted_then_found_witness :
  exists d,
    getSubmissionDetails oneRecord "1" = Found d
    /\ d_id d = 1
    /\ d_name d = JStr "John Doe"
    /\ d_email d = JStr "JOHN@EXAMPLE.COM"
    /\ d_phone d = JStr "1234567890"
    /\ d_createdAt d = 1700000000600
    /\ d_status d = "completed"%string
    /\ d_processingTime d = 2000
    /\ d_swappedImageUrl d
       = "/uploads/swapped/swapped_1700000000500_q7w8e9r0t1y.jpg"%string.
Proof.
  apply (submitted_then_found (faceSwapAPI someEnv) 1700000000600
           (db freshApp) johnRequest "Face swap completed successfully!" 1
           "/uploads/swapped/swapped_1700000000500_q7w8e9r0t1y.jpg" 2000 "1").
  - apply initial_fresh.
  - reflexivity.
  - vm_compute. reflexivity.
  - reflexivity.
Defined.

(** What taking the record at its place out of the list does to the
    look-ups, the identifiers being all different. *)
Lemma removed_at (l1 l2 : list submission) (s : submission) :
  NoDup (map s_id (l1 ++ s :: l2)) ->
  delete (length l1) (l1 ++ s :: l2) = l1 ++ l2
  /\ List.find (fun x => s_id x =? s_id s) (l1 ++ s :: l2) = Some s
  /\ List.find (fun x => s_id x =? s_id s) (l1 ++ l2) = None
  /\ (forall m, m <> s_id s ->
        List.find (fun x => s_id x =? m) (l1 ++ l2)
        = List.find (fun x => s_id x =? m) (l1 ++ s :: l2)).
Proof.
  intros Hnd. rewrite map_app in Hnd. cbn [map] in Hnd.
  apply NoDup_app in Hnd as (H1 & H2 & H3).
  apply NoDup_cons in H3 as [H3 _].
  assert (Hf : Forall (fun x => s_id x <> s_id s) l1).
  { apply List.Forall_forall. intros x Hx Heq.
    apply (H2 (s_id x)).
    - apply list_elem_of_In. now apply in_map.
    - rewrite Heq. apply list_elem_of_here. }
  split; [apply delete_middle|]. split; [|split].
  - rewrite find_skip by exact Hf. cbn [List.find]. now rewrite Z.eqb_refl.
  - rewrite find_skip by exact Hf. now apply find_absent.
  - intros m Hm. symmetry. apply find_other. congruence.
Qed.

(** Taking any one record out keeps the identifiers as they should
    be. *)
Lemma deleteSplice_ids (st : state) (d : deletion) :
  ids_fresh st -> ids_fresh (deleteSplice st d).1.
Proof.
  intros (Hnd & Hlt & Hpos). unfold ids_fresh, ids in *.
  cbn [deleteSplice fst submissions submissionId].
  assert (Hmap : forall i l,
            map s_id (delete i l) = delete i (map s_id l)).
  { intros i l. revert i. induction l as [|x l IH]; intros [|i];
      try reflexivity. cbn. now rewrite <- IH. }
  rewrite Hmap. split; [|split; [|exact Hpos]].
  - exact (sublist_NoDup _ _ Hnd (sublist_delete _ _)).
  - now apply Forall_delete.
Qed.

(** X15: a deletion looks the record up, awaits the cleanup of its
    files, and then takes out of the list what stands at the index it
    found.  When it runs alone, a record that is there is taken out, and
    only it, its two files are unlinked, and the next identifier stays;
    a record that is not there gets 404 and nothing changes.  When
    submissions are handled while it awaits, the index still holds the
    record, which is the one that goes.  (The identifiers are below
    [2 ^ 53].) *)
Theorem deleteSubmission_removes (st : state) (id : string) (n : Z) :
  ids_fresh st ->
  submissionId st <= maxSafe ->
  parseInt id = Some n ->
  match findSubmission (submissions st) (Some n) with
  | None =>
      deleteFind st id = None
      /\ deleteSubmission st id = (st, Failure 404 "Submission not found")
  | Some s =>
      exists d,
        deleteFind st id = Some d
        /\ submissions st !! del_index d = Some s
        /\ del_files d
           = nonEmpty [s_originalImagePath s; s_swappedImagePath s]
        /\ (deleteSubmission st id).2 = Done "Submission deleted successfully"
        /\ findSubmission (submissions (deleteSubmission st id).1) (Some n)
           = None
        /\ (forall m, m <> n ->
              findSubmission (submissions (deleteSubmission st id).1) (Some m)
              = findSubmission (submissions st) (Some m))
        /\ (length (submissions (deleteSubmission st id).1) + 1
            = length (submissions st))%nat
        /\ submissionId (deleteSubmission st id).1 = submissionId st
        /\ files (deleteSubmission st id).1
           = cleanup (files st)
               (nonEmpty [s_originalImagePath s; s_swappedImagePath s])
        /\ (forall st' more,
              ids_fresh st' ->
              submissions st' = submissions st ++ more ->
              (deleteSplice st' d).2 = Done "Submission deleted successfully"
              /\ findSubmission (submissions (deleteSplice st' d).1) (Some n)
                 = None
              /\ (forall m, m <> n ->
                    findSubmission (submissions (deleteSplice st' d).1)
                      (Some m)
                    = findSubmission (submissions st') (Some m))
              /\ (length (submissions (deleteSplice st' d).1) + 1
                  = length (submissions st'))%nat
              /\ submissionId (deleteSplice st' d).1 = submissionId st')
  end.
Proof.
  intros (Hnd & _ & _) _ Hid. rewrite !deleteSubmission_alone.
  unfold deleteFind. rewrite Hid. cbn [mbind option_bind findSubmission].
  destruct (findIndex (submissions st) n) as [i|] eqn:E.
  - destruct (findIndex_split _ _ _ E)
      as (l1 & s & l2 & Hl & Hs & Hi & Hd & Hf & Hlen).
    rewrite Hi. unfold ids in Hnd. rewrite Hl in *. subst n i.
    destruct (removed_at l1 l2 s Hnd) as (Hdel & Hfind & Hgone & Hrest).
    rewrite Hfind. eexists. split; [reflexivity|].
    cbn [del_index del_files fst snd submissions submissionId files].
    rewrite Hdel.
    split; [now apply list_lookup_middle|]. split; [reflexivity|].
    split; [reflexivity|]. split; [exact Hgone|]. split; [exact Hrest|].
    split; [rewrite !length_app; cbn [length]; lia|].
    split; [reflexivity|]. split; [reflexivity|].
    intros st' more (Hnd' & _ & _) Hst'.
    cbn [deleteSplice del_index fst snd submissions submissionId].
    unfold ids in Hnd'. rewrite Hst' in *.
    rewrite <- app_assoc in *. cbn [List.app] in *.
    destruct (removed_at l1 (l2 ++ more) s Hnd')
      as (Hdel' & _ & Hgone' & Hrest').
    rewrite Hdel'. split; [reflexivity|]. split; [exact Hgone'|].
    split; [exact Hrest'|].
    split; [|reflexivity].
    rewrite !length_app. cbn [length]. rewrite !length_app. lia.
  - apply findIndex_none in E. now rewrite E.
Qed.

(** John's record, deleted under [1]. *)
Lemma deleteSubmission_removes_witness :
  (deleteSubmission oneRecord "1").2 = Done "Submission deleted successfully"
  /\ findSubmission (submissions (deleteSubmission oneRecord "1").1) (Some 1)
     = None
  /\ (length (submissions (deleteSubmission oneRecord "1").1) + 1
      = length (submissions oneRecord))%nat.
Proof.
  assert (Hfresh : ids_fresh oneRecord)
    by apply (step_ids (db freshApp) johnSubmits), initial_fresh.
  assert (Hsafe : submissionId oneRecord <= maxSafe)
    by (vm_compute; discriminate).
  pose proof (deleteSubmission_removes oneRecord "1" 1 Hfresh Hsafe eq_refl)
    as H.
  change (findSubmission (submissions oneRecord) (Some 1))
    with (Some (johnRecord 1)) in H.
  destruct H as (d & _ & _ & _ & H1 & H2 & _ & H3 & _).
  split; [exact H1|]. split; [exact H2|exact H3].
Defined.

Lemma findIndex_skip (l k : list submission) (n : Z) :
  Forall (fun x => s_id x <> n) l ->
  findIndex (l ++ k) n = (fun i => (length l + i)%nat) <$> findIndex k n.
Proof.
  induction 1 as [|x l Hx _ IH]; cbn [List.app findIndex length].
  - now destruct (findIndex k n).
  - destruct (Z.eqb_spec (s_id x) n); [contradiction|]. rewrite IH.
    now destruct (findIndex k n).
Qed.

Lemma delete_after (k l : list submission) :
  delete (length k) (k ++ l) = k ++ tail l.
Proof.
  induction k as [|x k IH]; [now destruct l|]. cbn [length List.app].
  change (x :: delete (length k) (k ++ l) = x :: k ++ tail l). now rewrite IH.
Qed.

(** X27: two deletions that overlap.  The deletion of [b] has looked its
    index up and awaits its cleanup; the deletion of [a], a record that
    stands before [b], runs in between and moves [b] down by one; then
    the first deletion takes out what stands at the index it found.
    Both answer with success, but [b] stays in the list with its files
    unlinked, and the record that stood after [b], which nobody asked
    for, is the one that goes (no record when [b] was the last).  The
    identifiers stay all different. *)
Theorem delete_with_stale_index (st : state) (l1 l2 l3 : list submission)
    (a b : submission) (ida idb : string) :
  ids_fresh st ->
  submissionId st <= maxSafe ->
  submissions st = l1 ++ a :: l2 ++ b :: l3 ->
  parseInt ida = Some (s_id a) ->
  parseInt idb = Some (s_id b) ->
  exists d,
    deleteFind st idb = Some d
    /\ submissions st !! del_index d = Some b
    /\ del_files d = nonEmpty [s_originalImagePath b; s_swappedImagePath b]
    /\ (deleteSubmission st ida).2 = Done "Submission deleted successfully"
    /\ submissions (deleteSubmission st ida).1 = l1 ++ l2 ++ b :: l3
    /\ let st1 := deleteCleanup (deleteSubmission st ida).1 d in
       (deleteSplice st1 d).2 = Done "Submission deleted successfully"
       /\ submissions (deleteSplice st1 d).1 = l1 ++ l2 ++ b :: tail l3
       /\ findSubmission (submissions (deleteSplice st1 d).1) (Some (s_id b))
          = Some b
       /\ (forall c, head l3 = Some c ->
             findSubmission (submissions (deleteSplice st1 d).1)
               (Some (s_id c)) = None)
       /\ (forall p, p ∈ del_files d -> files (deleteSplice st1 d).1 !! p = None)
       /\ ids_fresh (deleteSplice st1 d).1.
Proof.
  intros Hfresh _ Hl Hida Hidb.
  pose proof Hfresh as (Hnd & _ & _). unfold ids in Hnd. rewrite Hl in Hnd.
  assert (Hnd' : NoDup (map s_id ((l1 ++ a :: l2) ++ b :: l3)))
    by now rewrite <- app_assoc.
  destruct (removed_at l1 (l2 ++ b :: l3) a Hnd) as (Hdela & _ & _ & Hresta).
  destruct (removed_at (l1 ++ a :: l2) l3 b Hnd') as (_ & Hfindb & _ & _).
  assert (Hfa : Forall (fun x => s_id x <> s_id a) l1).
  { rewrite map_app in Hnd. apply NoDup_app in Hnd as (_ & H2 & _).
    apply List.Forall_forall. intros x Hx Heq. apply (H2 (s_id x)).
    - apply list_elem_of_In. now apply in_map.
    - rewrite Heq. cbn [map]. apply list_elem_of_here. }
  assert (Hfb : Forall (fun x => s_id x <> s_id b) (l1 ++ a :: l2)).
  { rewrite map_app in Hnd'. apply NoDup_app in Hnd' as (_ & H2 & _).
    apply List.Forall_forall. intros x Hx Heq. apply (H2 (s_id x)).
    - apply list_elem_of_In. now apply in_map.
    - rewrite Heq. cbn [map]. apply list_elem_of_here. }
  assert (Hib : findIndex (submissions st) (s_id b)
                = Some (length (l1 ++ a :: l2))).
  { rewrite Hl.
    change (l1 ++ a :: l2 ++ b :: l3) with (l1 ++ (a :: l2) ++ b :: l3).
    rewrite app_assoc, (findIndex_skip _ _ _ Hfb). cbn [findIndex].
    rewrite Z.eqb_refl. cbn. f_equal. lia. }
  assert (Hia : findIndex (submissions st) (s_id a) = Some (length l1)).
  { rewrite Hl, (findIndex_skip _ _ _ Hfa). cbn [findIndex].
    rewrite Z.eqb_refl. cbn. f_equal. lia. }
  assert (Hlb : submissions st !! length (l1 ++ a :: l2) = Some b).
  { rewrite Hl.
    change (l1 ++ a :: l2 ++ b :: l3) with (l1 ++ (a :: l2) ++ b :: l3).
    rewrite app_assoc. now apply list_lookup_middle. }
  assert (Hla : submissions st !! length l1 = Some a)
    by (rewrite Hl; now apply list_lookup_middle).
  unfold deleteFind. rewrite Hidb. cbn [mbind option_bind].
  rewrite Hib, Hlb. eexists. split; [reflexivity|].
  cbn [del_index del_files]. split; [exact Hlb|]. split; [reflexivity|].
  rewrite !deleteSubmission_alone, Hida. cbn [mbind option_bind].
  rewrite Hia, Hla. cbn [fst snd submissions].
  assert (Hsub : delete (length l1) (submissions st) = l1 ++ l2 ++ b :: l3)
    by (rewrite Hl; exact Hdela).
  rewrite Hsub. split; [reflexivity|]. split; [reflexivity|].
  cbn zeta. cbn [deleteSplice deleteCleanup with_files del_index del_files
                 fst snd submissions submissionId files].
  assert (Hfinal : delete (length (l1 ++ a :: l2)) (l1 ++ l2 ++ b :: l3)
                   = l1 ++ l2 ++ b :: tail l3).
  { replace (length (l1 ++ a :: l2)) with (length (l1 ++ l2 ++ [b]))
      by (rewrite !length_app; cbn [length]; lia).
    replace (l1 ++ l2 ++ b :: l3) with ((l1 ++ l2 ++ [b]) ++ l3)
      by (now rewrite <- !app_assoc).
    rewrite delete_after. now rewrite <- !app_assoc. }
  rewrite Hfinal.
  assert (Hnd1 : NoDup (map s_id (l1 ++ l2 ++ b :: l3))).
  { rewrite <- Hsub.
    apply (deleteSplice_ids st (Deletion (length l1) []) Hfresh). }
  assert (Hnd1' : NoDup (map s_id ((l1 ++ l2) ++ b :: l3)))
    by now rewrite <- app_assoc.
  split; [reflexivity|]. split; [reflexivity|]. split; [|split; [|split]].
  - assert (Hfb' : Forall (fun x => s_id x <> s_id b) (l1 ++ l2)).
    { apply Forall_app in Hfb as [H1 H2]. inversion H2; subst.
      apply Forall_app. now split. }
    cbn [findSubmission]. rewrite app_assoc, (find_skip _ _ _ Hfb').
    cbn [List.find]. now rewrite Z.eqb_refl.
  - intros c Hc. destruct l3 as [|c' l3]; [discriminate|].
    injection Hc as ->. cbn [tail findSubmission].
    assert (Hnd2 : NoDup (map s_id (((l1 ++ l2) ++ [b]) ++ c :: l3)))
      by (rewrite <- !app_assoc; exact Hnd1).
    destruct (removed_at ((l1 ++ l2) ++ [b]) l3 c Hnd2) as (_ & _ & H & _).
    now rewrite <- !app_assoc in H.
  - intros p Hp. rewrite cleanup_lookup. now rewrite decide_True.
  - pose proof (deleteSplice_ids _ (Deletion (length (l1 ++ a :: l2)) [])
                  (deleteSplice_ids st (Deletion (length l1) []) Hfresh))
      as H.
    unfold ids_fresh, ids in H |- *.
    cbn [deleteSplice fst submissions submissionId del_index] in H |- *.
    rewrite Hsub, Hfinal in H. exact H.
Qed.

(** John's first two records, deleted at the same time: the second stays
    and the third goes. *)
Lemma delete_with_stale_index_witness :
  exists d,
    deleteFind threeRecords "2" = Some d
    /\ let st1 := deleteCleanup (deleteSubmission threeRecords "1").1 d in
       (deleteSplice st1 d).2 = Done "Submission deleted successfully"
       /\ submissions (deleteSplice st1 d).1 = [johnRecord 2]
       /\ findSubmission (submissions (deleteSplice st1 d).1) (Some 3) = None.
Proof.
  assert (Hfresh : ids_fresh threeRecords).
  { apply (steps_ids [johnSubmits; johnSubmits; johnSubmits] (db freshApp)),
      initial_fresh. }
  assert (Hsafe : submissionId threeRecords <= maxSafe)
    by (vm_compute; discriminate).
  destruct (delete_with_stale_index threeRecords [] [] [johnRecord 3]
              (johnRecord 1) (johnRecord 2) "1" "2" Hfresh Hsafe
              eq_refl eq_refl eq_refl)
    as (d & Hd & _ & _ & _ & _ & H1 & H2 & _ & H3 & _).
  exists d. split; [exact Hd|]. cbn zeta in *.
  split; [exact H1|]. split; [exact H2|]. exact (H3 _ eq_refl).
Defined.

Lemma findIndex_last (l : list submission) (s : submission) (n : Z) :
  Forall (fun x => s_id x <> n) l -> s_id s = n ->
  findIndex (l ++ [s]) n = Some (length l).
Proof.
  intros Hl Hs. induction Hl as [|x l Hx _ IH]; cbn [List.app findIndex length].
  - now rewrite Hs, Z.eqb_refl.
  - destruct (Z.eqb_spec (s_id x) n); [contradiction|]. now rewrite IH.
Qed.

Lemma append_not_empty (a : string) (c : ascii) (b : string) :
  String.eqb (a ++ String c b) "" = false.
Proof. now destruct a. Qed.

(** X16: with the transformation client of the source, a submission that
    is answered 200 has stored a record that names the upload and the
    copy [swapFace] reports, both on the disk and of the same content,
    and the URL of the answer is that of the copy.  Deleting that
    submission, with no other request handled meanwhile, gives the
    records back as they were before it, with the upload and the copy
    gone from the disk and every other file as it was before the
    submission; the identifier is not given again. *)
Theorem submit_then_delete (e : env) (now : Z) (st : state) (req : request)
    (f : file) (message : string) (n : Z) (url : string) (time : Z)
    (id : string) :
  ids_fresh st ->
  submissionId st < maxSafe ->
  req_file req = Some f ->
  path f <> "" ->
  (handleSubmission (faceSwapAPI e) now st req).2
  = JsonSubmitted 200 message n url time ->
  parseInt id = Some n ->
  let st' := (handleSubmission (faceSwapAPI e) now st req).1 in
  exists r s content,
    (swapFace e (files st) (path f)).2 = Resolve r
    /\ url = ("/uploads/swapped/" ++ swappedImageFilename r)%string
    /\ findSubmission (submissions st') (Some n) = Some s
    /\ s_originalImagePath s = path f
    /\ s_swappedImagePath s = swappedImagePath r
    /\ swappedImagePath r <> ""
    /\ files st !! path f = Some content
    /\ files st' !! swappedImagePath r = Some content
    /\ is_Some (files st' !! path f)
    /\ (deleteSubmission st' id).2 = Done "Submission deleted successfully"
    /\ submissions (deleteSubmission st' id).1 = submissions st
    /\ submissionId (deleteSubmission st' id).1 = submissionId st + 1
    /\ files (deleteSubmission st' id).1 !! path f = None
    /\ files (deleteSubmission st' id).1 !! swappedImagePath r = None
    /\ (forall p, p <> path f -> p <> swappedImagePath r ->
          files (deleteSubmission st' id).1 !! p = files st !! p).
Proof.
  intros (_ & Hlt & _) _ Hfile Hpath Hr Hid st'. subst st'.
  assert (Hold : Forall (fun x => s_id x <> submissionId st) (submissions st)).
  { unfold ids in Hlt. rewrite List.Forall_forall in *. intros x Hx.
    specialize (Hlt (s_id x) (in_map s_id _ _ Hx)). lia. }
  rewrite !deleteSubmission_alone.
  unfold handleSubmission in *. rewrite Hfile in *.
  destruct (req_body req) as [name email phone terms].
  cbn [faceSwapAPI api_validateImage api_swapFace] in *.
  destruct (validateImage (files st) (path f)) as [sz fmt|err] eqn:Ev;
    [|discriminate].
  unfold swapFace, simulateFaceSwap in *.
  destruct (negb (truthy (apiKey e))); [cbn in Hr; discriminate|].
  destruct (files st !! path f) as [content|] eqn:Ec;
    [|cbn in Hr; discriminate].
  destruct (copyFails e); [cbn in Hr; discriminate|].
  unfold disk in *.
  cbn [success negb fst snd swappedImagePath swappedImageFilename
       processingTime s_id] in *.
  injection Hr as _ Hn Hurl _. subst n.
  set (copy := (swappedDir e ++ "/" ++ "swapped_" ++ decimal (FaceSwapAPI.now e)
                ++ "_" ++ random e ++ extname (path f))%string) in *.
  assert (Hcopy : String.eqb copy "" = false) by apply append_not_empty.
  assert (Hp : String.eqb (path f) "" = false) by now apply String.eqb_neq.
  eexists. eexists. exists content.
  split; [reflexivity|]. cbn [swappedImagePath swappedImageFilename].
  split; [now rewrite Hurl|].
  cbn [findSubmission submissions]. rewrite (find_skip _ _ _ Hold).
  cbn [List.find s_id]. rewrite Z.eqb_refl.
  split; [reflexivity|]. cbn [s_originalImagePath s_swappedImagePath].
  split; [reflexivity|]. split; [reflexivity|].
  split; [now apply String.eqb_neq|]. split; [reflexivity|].
  rewrite Hid. cbn [mbind option_bind submissions].
  rewrite (findIndex_last (submissions st) _ (submissionId st));
    [|exact Hold|reflexivity].
  rewrite list_lookup_middle by reflexivity.
  cbn [fst snd submissions submissionId files s_originalImagePath
       s_swappedImagePath nonEmpty List.filter].
  rewrite Hp, Hcopy. cbn [negb].
  replace (delete (length (submissions st)) (submissions st ++ [_]))
    with (submissions st)
    by (rewrite delete_middle; now rewrite app_nil_r).
  assert (Hother : forall p, p <> path f -> p <> copy ->
            cleanup (<[copy := content]> (files st)) [path f; copy] !! p
            = files st !! p).
  { intros p H1 H2. rewrite cleanup_lookup. unfold disk in *.
    rewrite decide_False
      by (rewrite !elem_of_cons, elem_of_nil; intuition congruence).
    now apply lookup_insert_ne. }
  assert (Hgone : forall p, p ∈ [path f; copy] ->
            cleanup (<[copy := content]> (files st)) [path f; copy] !! p
            = None).
  { intros p Hin. rewrite cleanup_lookup. now rewrite decide_True. }
  split; [unfold disk in *; now rewrite lookup_insert_eq|].
  split.
  { unfold disk in *. destruct (decide (path f = copy)) as [Heq|Hne].
    - rewrite Heq, lookup_insert_eq. eauto.
    - rewrite lookup_insert_ne by congruence. exists content. exact Ec. }
  split; [reflexivity|]. split; [reflexivity|]. split; [reflexivity|].
  split; [apply Hgone, list_elem_of_here|].
  split; [apply Hgone, list_elem_of_further, list_elem_of_here|].
  exact Hother.
Qed.

(** John's submission, deleted again: the copy is the file the answer
    names. *)
Lemma submit_then_delete_witness :
  exists r s content,
    (swapFace someEnv (files (db freshApp)) (path johnFile)).2 = Resolve r
    /\ "/uploads/swapped/swapped_1700000000500_q7w8e9r0t1y.jpg"%string
       = ("/uploads/swapped/" ++ swappedImageFilename r)%string
    /\ findSubmission (submissions oneRecord) (Some 1) = Some s
    /\ s_originalImagePath s = path johnFile
    /\ s_swappedImagePath s = swappedImagePath r
    /\ swappedImagePath r <> ""
    /\ files (db freshApp) !! path johnFile = Some content
    /\ files oneRecord !! swappedImagePath r = Some content
    /\ is_Some (files oneRecord !! path johnFile)
    /\ (deleteSubmission oneRecord "1").2
       = Done "Submission deleted successfully"
    /\ submissions (deleteSubmission oneRecord "1").1 = []
    /\ submissionId (deleteSubmission oneRecord "1").1 = 2
    /\ files (deleteSubmission oneRecord "1").1 !! path johnFile = None
    /\ files (deleteSubmission oneRecord "1").1 !! swappedImagePath r = None
    /\ (forall p, p <> path johnFile -> p <> swappedImagePath r ->
          files (deleteSubmission oneRecord "1").1 !! p
          = files (db freshApp) !! p).
Proof.
  apply (submit_then_delete someEnv 1700000000600 (db freshApp) johnRequest
           johnFile "Face swap completed successfully!" 1
           "/uploads/swapped/swapped_1700000000500_q7w8e9r0t1y.jpg" 2000 "1").
  - apply initial_fresh.
  - reflexivity.
  - reflexivity.
  - discriminate.
  - vm_compute. reflexivity.
  - reflexivity.
Defined.

End RecordFacts.

(* ===================================================================== *)
(** ** The pages of the list of submissions *)
(* ===================================================================== *)

Module PageFacts.
Import Js Http FaceSwapAPI ValidationMiddleware SubmissionController.
Import Spec Records.
Local Open Scope list_scope.

(** From a start that is not negative, [slice] is a window. *)
Lemma slice_window {A} (l : list A) (start limit : Z) :
  0 <= start -> 0 <= limit ->
  slice l start (start + limit)
  = firstn (Z.to_nat limit) (skipn (Z.to_nat start) l).
Proof.
  intros Hs Hl. unfold slice.
  destruct (Z.ltb_spec start 0) as [?|_]; [lia|].
  destruct (Z.ltb_spec (start + limit) 0) as [?|_]; [lia|].
  destruct (Z_le_gt_dec (Z.of_nat (length l)) start) as [Hout|Hin].
  - rewrite !skipn_all2 by lia. now rewrite !firstn_nil.
  - rewrite (Z.min_l start) by lia.
    destruct (Z_le_gt_dec (start + limit) (Z.of_nat (length l))) as [Hfit|Hcut].
    + rewrite Z.min_l by lia. f_equal. lia.
    + rewrite Z.min_r by lia.
      rewrite !firstn_all2; [reflexivity| |]; rewrite length_skipn; lia.
Qed.

(** Windows of [k] elements, one after the other, give the list back. *)
Lemma windows_concat {A} (k : nat) (n : nat) (l : list A) :
  (length l <= n * k)%nat ->
  concat (map (fun p => firstn k (skipn (p * k) l)) (seq 0 n)) = l.
Proof.
  revert l. induction n as [|n IH]; intros l Hl.
  - destruct l; [reflexivity|cbn in Hl; lia].
  - assert (Hrest :
      concat (map (fun p => firstn k (skipn (S p * k) l)) (seq 0 n))
      = skipn k l).
    { etransitivity;
        [|apply (IH (skipn k l)); rewrite length_skipn; lia].
      f_equal. apply map_ext. intros p. f_equal.
      rewrite skipn_skipn. f_equal. lia. }
    cbn [seq map concat]. rewrite <- seq_shift, map_map, Hrest.
    cbn [Nat.mul skipn]. apply firstn_skipn.
Qed.

Lemma ceil_div_bounds (a b : Z) :
  0 < b -> (ceil_div a b - 1) * b < a <= ceil_div a b * b.
Proof.
  intros Hb. unfold ceil_div.
  pose proof (Z_div_mod_eq_full (- a) b) as He.
  pose proof (Z.mod_pos_bound (- a) b Hb) as Hr. nia.
Qed.

Lemma limitOf_max (q : query) : limitOf q <= 50.
Proof. unfold limitOf. lia. Qed.

Section WithSort.

Variable sortedBy : string -> list submission -> list submission.

(** Sorting keeps the number of records. *)
Hypothesis sortedBy_length :
  forall key l, length (sortedBy key l) = length l.

(** X17: for a page number and a limit of 1 at least, the page is the window
    of [limit] records that starts after the [page - 1] pages before it:
    it holds 50 records at most, it is empty exactly when the pages
    before hold all records, and there is a next page exactly when
    records are left after it. *)
Theorem renderSubmissions_page (st : state) (req : request) :
  let page := pageOf (req_query req) in
  let limit := limitOf (req_query req) in
  let sorted := sortedBy (sortKeyOf (req_query req)) (submissions st) in
  let total := Z.of_nat (length (submissions st)) in
  let r := renderSubmissions sortedBy st req in
  1 <= page -> 1 <= limit ->
  status_of r = 200
  /\ itemsOf r
     = firstn (Z.to_nat limit) (skipn (Z.to_nat ((page - 1) * limit)) sorted)
  /\ Z.of_nat (length (itemsOf r))
     = Z.min limit (Z.max 0 (total - (page - 1) * limit))
  /\ (length (itemsOf r) <= 50)%nat
  /\ (itemsOf r = [] <-> total <= (page - 1) * limit)
  /\ exists p,
       paginationOf r = Some p
       /\ totalCount p = total
       /\ currentPage p = page
       /\ (totalPages p - 1) * limit < total <= totalPages p * limit
       /\ (hasNext p = true <-> page * limit < total)
       /\ (hasPrev p = true <-> 1 < page).
Proof.
  intros page limit sorted total r Hpage Hlimit.
  pose proof (limitOf_max (req_query req)) as Hmax. fold limit in Hmax.
  assert (Hitems : itemsOf r
    = firstn (Z.to_nat limit) (skipn (Z.to_nat ((page - 1) * limit)) sorted)).
  { subst r. unfold renderSubmissions. cbn [itemsOf].
    fold page limit. fold sorted. apply slice_window; nia. }
  assert (Hlen : Z.of_nat (length (itemsOf r))
                 = Z.min limit (Z.max 0 (total - (page - 1) * limit))).
  { rewrite Hitems, length_firstn, length_skipn. subst sorted total.
    rewrite sortedBy_length. nia. }
  split; [reflexivity|]. split; [exact Hitems|]. split; [exact Hlen|].
  split; [lia|]. split.
  { split.
    - intros H0. rewrite H0 in Hlen. cbn [length] in Hlen. lia.
    - intros Hout. apply length_zero_iff_nil. lia. }
  eexists. split; [reflexivity|].
  cbn [totalCount currentPage totalPages hasNext hasPrev].
  fold page limit. fold total.
  pose proof (ceil_div_bounds total limit ltac:(lia)) as Hc.
  split; [reflexivity|]. split; [reflexivity|]. split; [exact Hc|]. split.
  - rewrite Z.ltb_lt. nia.
  - now rewrite Z.ltb_lt.
Qed.

(** X18: the pages 1 to [totalPages] of one limit and one sort key, one after
    the other, are the sorted list: every record is on one page, and on
    one only. *)
Theorem renderSubmissions_pages (st : state) (reqs : nat -> request)
    (limit : Z) (sort : string) :
  1 <= limit ->
  (forall p,
     (1 <= p <= Z.to_nat (ceil_div (Z.of_nat (length (submissions st))) limit))%nat ->
     pageOf (req_query (reqs p)) = Z.of_nat p
     /\ limitOf (req_query (reqs p)) = limit
     /\ sortKeyOf (req_query (reqs p)) = sort) ->
  concat
    (map (fun p => itemsOf (renderSubmissions sortedBy st (reqs p)))
       (seq 1 (Z.to_nat
                 (ceil_div (Z.of_nat (length (submissions st))) limit))))
  = sortedBy sort (submissions st).
Proof.
  intros Hlimit Hreqs.
  pose proof (ceil_div_bounds (Z.of_nat (length (submissions st))) limit
                ltac:(lia)) as Hc.
  set (n := Z.to_nat (ceil_div (Z.of_nat (length (submissions st))) limit))
    in *.
  rewrite <- (windows_concat (Z.to_nat limit) n
                (sortedBy sort (submissions st)))
    by (rewrite sortedBy_length; subst n; nia).
  rewrite <- seq_shift, map_map. f_equal. apply map_ext_in. intros p Hp.
  apply in_seq in Hp.
  destruct (Hreqs (S p) ltac:(lia)) as (Hpage & Hl & Hs).
  unfold renderSubmissions. cbn [itemsOf]. rewrite Hpage, Hl, Hs.
  rewrite slice_window by nia. do 2 f_equal. nia.
Qed.

End WithSort.

(** The second page of two records, of three records. *)
Lemma renderSubmissions_page_witness :
  itemsOf (renderSubmissions unsorted threeRecords (pageRequest "2" "2"))
  = firstn 2 (skipn 2 (submissions threeRecords))
  /\ (length
        (itemsOf (renderSubmissions unsorted threeRecords (pageRequest "2" "2")))
      <= 50)%nat.
Proof.
  assert (Hpage : 1 <= pageOf (req_query (pageRequest "2" "2")))
    by (vm_compute; discriminate).
  assert (Hlimit : 1 <= limitOf (req_query (pageRequest "2" "2")))
    by (vm_compute; discriminate).
  destruct (renderSubmissions_page unsorted (fun _ _ => eq_refl) threeRecords
              (pageRequest "2" "2") Hpage Hlimit)
    as (_ & Hitems & _ & Hmax & _).
  split; [exact Hitems|exact Hmax].
Defined.

(** The two pages of two records, of three records. *)
Lemma renderSubmissions_pages_witness :
  concat
    (map (fun p =>
            itemsOf (renderSubmissions unsorted threeRecords
                       (pageRequest (decimal (Z.of_nat p)) "2")))
       [1; 2]%nat)
  = submissions threeRecords.
Proof.
  apply (renderSubmissions_pages unsorted (fun _ _ => eq_refl) threeRecords
           (fun p => pageRequest (decimal (Z.of_nat p)) "2") 2 "createdAt").
  - vm_compute. discriminate.
  - intros p Hp.
    change (Z.to_nat (ceil_div (Z.of_nat (length (submissions threeRecords))) 2))
      with 2%nat in Hp.
    assert (Hcases : p = 1%nat \/ p = 2%nat) by lia.
    destruct Hcases as [->| ->]; repeat split.
Defined.

End PageFacts.

(* ===================================================================== *)
(** ** The routes of one submission and the check of the identifier *)
(* ===================================================================== *)

Module RouteFacts.
Import Js Http FaceSwapAPI FaceSwapFiles ValidationMiddleware
  SubmissionController Routes Api.
Import Spec Records JsFacts SanitizerFacts ShapeFacts.

Section WithPurify.

Variable purify : list string -> string -> string.
Hypothesis purify_plain : keeps_plain_text purify.

Lemma validateObjectId_plain (paramName id : string) :
  plain_text id = true ->
  validateObjectId purify paramName (Some id)
  = if String.eqb id "" then
      Refused (ErrorOnly 400 (paramName ++ " parameter is required"))
    else if re_objectid (Js.trim id) then Passed (Js.trim id)
    else Refused (ErrorOnly 400 ("Invalid " ++ paramName ++ " format")).
Proof.
  intros Hid. unfold validateObjectId. cbn [param truthy].
  destruct (String.eqb id ""); [reflexivity|]. cbn [negb].
  change (sanitizeInput purify (JStr id) no_options) with (sanitized purify id).
  rewrite (sanitized_plain purify purify_plain id Hid).
  now destruct (re_objectid (Js.trim id)).
Qed.

(** X21: the routes of one submission hand the handler nothing but an
    identifier of 24 hexadecimal digits: for plain text that is one, the
    handler gets it trimmed; any other, the decimal identifier the
    submission was answered with among them, is answered 400 and changes
    nothing. *)
Theorem routes_ask_24_hex (st : state) (id : string) :
  plain_text id = true ->
  if re_objectid (Js.trim id)
  then getSubmission purify st id = getSubmissionDetails st (Js.trim id)
       /\ deleteRoute purify st id = deleteSubmission st (Js.trim id)
  else exists error,
      (error = "id parameter is required" \/ error = "Invalid id format")
      /\ getSubmission purify st id = ErrorOnly 400 error
      /\ deleteRoute purify st id = (st, ErrorOnly 400 error).
Proof.
  intros Hid. unfold getSubmission, deleteRoute.
  rewrite (validateObjectId_plain "id" id Hid).
  destruct (String.eqb_spec id "") as [->|Hne].
  - cbn. eexists. split; [left; reflexivity|]. now split.
  - destruct (re_objectid (Js.trim id)); [now split|].
    eexists. split; [right; reflexivity|]. now split.
Qed.

End WithPurify.

(** John's record is not reached under [1], the identifier the
    submission was answered with. *)
Lemma routes_ask_24_hex_witness :
  exists error,
    (error = "id parameter is required"%string
     \/ error = "Invalid id format"%string)
    /\ getSubmission purify_text oneRecord "1" = ErrorOnly 400 error
    /\ deleteRoute purify_text oneRecord "1" = (oneRecord, ErrorOnly 400 error).
Proof.
  exact (routes_ask_24_hex purify_text purify_text_plain oneRecord "1" eq_refl).
Defined.

End RouteFacts.

(* ===================================================================== *)
(** ** The scripts of the form page and the checks of the server *)
(* ===================================================================== *)

Module BrowserFacts.
Import Js Http ValidationMiddleware Browser.
Import Spec Shapes JsFacts SanitizerFacts ShapeFacts.

(** X23: the page and the server say yes to the same files, by type and by
    size; where both say no, the server names every reason and the page
    the first one. *)
Theorem validateImageFile_agrees (f : file) :
  (validateImageFile (mimetype f) (size f) = IsValid
   <-> check_file (Some f) [] = [])
  /\ (validateImageFile (mimetype f) (size f) = IsValid
      <-> includes allowedMimeTypes (mimetype f) = true
          /\ size f <= 2 * 1024 * 1024).
Proof.
  unfold validateImageFile, check_file, maxFileSize.
  change ["image/jpeg"; "image/jpg"; "image/png"] with allowedMimeTypes.
  destruct (includes allowedMimeTypes (mimetype f)); cbn [negb];
    destruct (Z.gtb_spec (size f) (2 * 1024 * 1024)) as [Hbig|Hsmall];
    cbn [push app]; repeat split; intros; try discriminate; try tauto;
    try reflexivity; try lia.
  all: destruct H; try discriminate; lia.
Qed.

Lemma take_all (n : nat) (s : string) :
  (String.length s <= n)%nat -> take n s = s.
Proof.
  revert s. induction n as [|n IH]; intros [|c s]; cbn; try reflexivity;
    try lia.
  intros H. now rewrite IH by lia.
Qed.

Lemma take_length_min (n : nat) (s : string) :
  String.length (take n s) = Nat.min n (String.length s).
Proof.
  revert s. induction n as [|n IH]; intros [|c s]; cbn; try reflexivity.
  now rewrite IH.
Qed.

Lemma digits_no_space (s : string) :
  all_chars is_digit s = true -> has_char is_space s = false.
Proof. apply all_chars_none. by_ascii. Qed.

Lemma no_non_digit (s : string) :
  all_chars is_digit s = true
  -> has_char (fun c => negb (is_digit c)) s = false.
Proof.
  intros H. apply has_char_false_all.
  eapply all_chars_impl; [|exact H]. intros c Hc. now rewrite Hc.
Qed.

Lemma digits_only (value : string) :
  all_chars is_digit (remove_chars (fun c => negb (is_digit c)) value) = true.
Proof.
  eapply all_chars_impl; [|apply remove_chars_all].
  intros c Hc. cbn in Hc. now rewrite negb_involutive in Hc.
Qed.

Lemma phoneInput_digits (value : string) :
  all_chars is_digit (phoneInput value) = true.
Proof.
  unfold phoneInput. pose proof (digits_only value) as Hd.
  destruct (10 <? _)%nat; [|exact Hd].
  eapply subseq_all_chars; [apply take_subseq|exact Hd].
Qed.

Lemma phoneInput_length (value : string) :
  String.length (phoneInput value)
  = Nat.min 10 (String.length (remove_chars non_digit value)).
Proof.
  unfold phoneInput, non_digit.
  destruct (Nat.ltb_spec 10
              (String.length (remove_chars (fun c => negb (is_digit c)) value)))
    as [Hlong|Hshort].
  - apply take_length_min.
  - lia.
Qed.

(** X24: what the listener of the phone field leaves in it, whatever was
    typed or pasted: the first 10 digits of the text, so digits only and
    10 at most; the listener changes nothing the second time, and the
    field passes the rule of the page exactly when the text had 10
    digits or more. *)
Theorem phoneInput_output (value : string) :
  phoneInput value = take 10 (remove_chars non_digit value)
  /\ all_chars is_digit (phoneInput value) = true
  /\ (String.length (phoneInput value) <= 10)%nat
  /\ phoneInput (phoneInput value) = phoneInput value
  /\ (validateField "phone" (phoneInput value) phoneRules = []
      <-> (10 <= String.length (remove_chars non_digit value))%nat).
Proof.
  pose proof (phoneInput_digits value) as Hd.
  pose proof (phoneInput_length value) as Hl.
  split; [|split; [exact Hd|]]; [|split; [lia|]]; [|split].
  - unfold phoneInput, non_digit.
    destruct (Nat.ltb_spec 10
                (String.length
                   (remove_chars (fun c => negb (is_digit c)) value)))
      as [Hlong|Hshort]; [reflexivity|].
    symmetry. now apply take_all.
  - unfold phoneInput at 1.
    rewrite (remove_chars_id _ _ (no_non_digit _ Hd)).
    destruct (Nat.ltb_spec 10 (String.length (phoneInput value)));
      [lia|reflexivity].
  - unfold validateField. cbn [required minLength maxLength pattern
      patternMessage phoneRules rule_length message_or].
    rewrite (trim_no_space _ (digits_no_space _ Hd)).
    unfold re_phone. rewrite Hd, andb_true_r.
    destruct (Nat.eqb_spec (String.length (phoneInput value)) 10)
      as [H10|H10];
      destruct (String.eqb_spec (phoneInput value) "") as [He|Hne];
      cbn [negb andb push app].
    + rewrite He in H10. discriminate.
    + split; [lia|reflexivity].
    + split; [discriminate|lia].
    + split; [discriminate|lia].
Qed.

Section WithPurify.

Variable purify : list string -> string -> string.
Hypothesis purify_plain : keeps_plain_text purify.

Lemma sanitize_field (x : string) :
  plain_text x = true ->
  sanitize purify (or_else (JStr x) (JStr "")) = Js.trim x.
Proof.
  intros Hx. unfold or_else, sanitize. cbn [truthy].
  destruct (String.eqb_spec x "") as [->|Hne]; cbn [negb].
  - exact (sanitized_plain purify purify_plain "" eq_refl).
  - exact (sanitized_plain purify purify_plain x Hx).
Qed.

(** X25: on plain text the page and the server accept the same names and the
    same phone numbers: a form the page lets through is not refused by
    the server for its name or its phone number, and the other way
    round. *)
Theorem browser_rules_agree (name phone : string) (email terms : value) :
  plain_text name = true ->
  plain_text phone = true ->
  let fd := formDataOf purify (Body (JStr name) email (JStr phone) terms) in
  (validateField "name" name nameRules = [] <-> check_name fd [] = [])
  /\ (validateField "phone" phone phoneRules = [] <-> check_phone fd [] = []).
Proof.
  intros Hname Hphone fd. split.
  - unfold check_name, validateField. subst fd. cbn [fd_name formDataOf b_name].
    rewrite (sanitize_field name Hname).
    cbn [required minLength maxLength pattern patternMessage nameRules
         rule_length message_or].
    destruct (String.eqb (Js.trim name) ""),
      (String.length (Js.trim name) <? 4)%nat,
      (30 <? String.length (Js.trim name))%nat,
      (re_name (Js.trim name));
      cbn [andb orb negb push app String.eqb];
      split; intros; try discriminate; reflexivity.
  - unfold check_phone, validateField. subst fd.
    cbn [fd_phone formDataOf b_phone].
    rewrite (sanitize_field phone Hphone).
    cbn [required minLength maxLength pattern patternMessage phoneRules
         rule_length message_or].
    destruct (String.eqb (Js.trim phone) ""), (re_phone (Js.trim phone));
      cbn [andb orb negb push app String.eqb];
      split; intros; try discriminate; reflexivity.
Qed.

End WithPurify.

(** John's name and phone number. *)
Lemma browser_rules_agree_witness :
  (validateField "name" "John Doe" nameRules = []
   <-> check_name (formDataOf purify_text johnBody) [] = [])
  /\ (validateField "phone" "1234567890" phoneRules = []
      <-> check_phone (formDataOf purify_text johnBody) [] = []).
Proof.
  exact (browser_rules_agree purify_text purify_text_plain
           "John Doe" "1234567890" (JStr "JOHN@EXAMPLE.COM") (JStr "on")
           eq_refl eq_refl).
Defined.

End BrowserFacts.

(* ===================================================================== *)
(** ** The upload: the file filter and the names of the files *)
(* ===================================================================== *)

Module UploadFacts.
Import Js Http FaceSwapAPI Upload ValidationMiddleware SanitizerHelpers.
Import Spec Shapes JsFacts ShapeFacts.

Lemma endsWith_refl (s : string) : endsWith s s = true.
Proof. destruct s; cbn [endsWith]; now rewrite String.eqb_refl. Qed.

Lemma endsWith_tail (ext : string) (c : ascii) (s : string) :
  endsWith ext s = true -> endsWith ext (String c s) = true.
Proof. intros H. cbn [endsWith]. rewrite H. apply orb_true_r. Qed.

Lemma endsWith_trans (a b c : string) :
  endsWith a b = true -> endsWith b c = true -> endsWith a c = true.
Proof.
  intros Hab. induction c as [|x c IH]; cbn [endsWith].
  - rewrite orb_false_r. intros H. apply String.eqb_eq in H. now subst b.
  - intros H. apply orb_true_iff in H as [H|H].
    + apply String.eqb_eq in H. now subst b.
    + specialize (IH H). rewrite IH. apply orb_true_r.
Qed.

Lemma endsWith_last (ext s : string) :
  endsWith ext s = true -> ext <> "" -> last_char s = last_char ext.
Proof.
  intros H Hne. induction s as [|c s IH]; cbn [endsWith] in H.
  - rewrite orb_false_r in H. apply String.eqb_eq in H. now subst ext.
  - apply orb_true_iff in H as [H|H].
    + apply String.eqb_eq in H. now subst ext.
    + specialize (IH H). cbn [last_char]. destruct s as [|d s]; [|exact IH].
      cbn [endsWith] in H. rewrite orb_false_r in H.
      apply String.eqb_eq in H. congruence.
Qed.

Lemma endsWith_toLowerCase (ext s : string) :
  endsWith ext s = true -> endsWith (toLowerCase ext) (toLowerCase s) = true.
Proof.
  induction s as [|c s IH]; cbn [endsWith].
  - rewrite orb_false_r. intros H. apply String.eqb_eq in H. subst ext.
    reflexivity.
  - intros H. apply orb_true_iff in H as [H|H].
    + apply String.eqb_eq in H. subst ext. apply endsWith_refl.
    + cbn [toLowerCase]. apply endsWith_tail. auto.
Qed.

Lemma after_last_suffix (c : ascii) (s r : string) :
  after_last c s = Some r -> endsWith (String c r) s = true.
Proof.
  revert r. induction s as [|d s IH]; intros r; [discriminate|].
  cbn [after_last]. destruct (after_last c s) as [r'|].
  - intros [= <-]. apply endsWith_tail. now apply IH.
  - destruct (Ascii.eqb_spec c d) as [->|_]; [|discriminate].
    intros [= <-]. apply endsWith_refl.
Qed.

(** [extname] gives an end of the path. *)
Lemma extname_suffix (p : string) : endsWith (extname p) p = true.
Proof.
  assert (Hnil : forall s, endsWith "" s = true).
  { induction s as [|c s IH]; [reflexivity|]. now apply endsWith_tail. }
  unfold extname.
  destruct (String.eqb _ ".."); [apply Hnil|].
  assert (Hbase : endsWith (default p (after_last "/" p)) p = true).
  { destruct (after_last "/" p) as [b|] eqn:E; cbn [default id].
    - eapply endsWith_trans; [|apply (after_last_suffix _ _ _ E)].
      apply endsWith_tail, endsWith_refl.
    - apply endsWith_refl. }
  destruct (default p (after_last "/" p)) as [|x rest]; [apply Hnil|].
  destruct (after_last "." rest) as [e|] eqn:E; [|apply Hnil].
  eapply endsWith_trans; [|exact Hbase].
  apply endsWith_tail. exact (after_last_suffix _ _ _ E).
Qed.

Lemma includes_In (l : list string) (s : string) :
  includes l s = true -> In s l.
Proof.
  unfold includes. rewrite existsb_exists. intros (x & Hx & He).
  apply String.eqb_eq in He. now subst x.
Qed.

Lemma endsWith_app (ext a : string) : endsWith ext (a ++ ext) = true.
Proof.
  induction a as [|c a IH]; [apply endsWith_refl|].
  rewrite append_cons. now apply endsWith_tail.
Qed.

(** X12: a file the filter of the upload lets through (multer hands it the
    base name of the file) has a type and an extension of the three
    allowed; its name passes the test of the dangerous extensions, and
    so does the name it is stored under, which ends in the extension in
    lower case. *)
Theorem fileFilter_safe (timestamp : Z) (randomString : string) (f : file) :
  has_char (Ascii.eqb "/") (originalname f) = false ->
  fileFilter f = Resolve true ->
  let extension := toLowerCase (extname (originalname f)) in
  In (mimetype f) allowedMimeTypes
  /\ In extension allowedExtensions
  /\ endsWith extension (toLowerCase (originalname f)) = true
  /\ endsWith extension (storageFilename timestamp randomString f) = true
  /\ isSafeFilename (JStr (originalname f)) = true
  /\ isSafeFilename (JStr (storageFilename timestamp randomString f)) = true.
Proof.
  intros _ Hf extension. unfold fileFilter in Hf. fold extension in Hf.
  destruct (includes allowedMimeTypes (mimetype f)) eqn:Em; [|discriminate].
  destruct (includes allowedExtensions extension) eqn:Ee; [|discriminate].
  apply includes_In in Em, Ee.
  assert (Hend : endsWith extension (toLowerCase (originalname f)) = true)
    by apply endsWith_toLowerCase, extname_suffix.
  assert (Hstored :
    endsWith extension (storageFilename timestamp randomString f) = true).
  { unfold storageFilename. fold extension.
    rewrite <- !append_assoc. apply endsWith_app. }
  assert (Hg : last_char extension = Some "g"%char /\ extension <> "").
  { destruct Ee as [<-|[<-|[<-|[]]]]; now split. }
  destruct Hg as [Hg Hne].
  assert (Hlower : toLowerCase extension = extension).
  { destruct Ee as [<-|[<-|[<-|[]]]]; reflexivity. }
  assert (Hsafe : forall s,
    endsWith extension (toLowerCase s) = true -> isSafeFilename (JStr s) = true).
  { intros s Hs. unfold isSafeFilename. apply negb_true_iff.
    apply not_true_is_false. rewrite existsb_exists. intros (d & Hd & He).
    pose proof (endsWith_last _ _ Hs Hne) as H1.
    assert (Hd' : d <> "" /\ last_char d <> Some "g"%char).
    { unfold dangerousExtensions in Hd. cbn [In] in Hd.
      repeat (destruct Hd as [<-|Hd]; [split; discriminate|]).
      destruct Hd. }
    destruct Hd' as [Hdne Hdg].
    pose proof (endsWith_last _ _ He Hdne) as H2. congruence. }
  split; [exact Em|]. split; [exact Ee|]. split; [exact Hend|].
  split; [exact Hstored|]. split; [now apply Hsafe|].
  apply Hsafe. rewrite <- Hlower. now apply endsWith_toLowerCase.
Qed.

(** John's upload and the name it was stored under. *)
Lemma fileFilter_safe_witness :
  storageFilename 1700000000000 "k3j2h1g0f9e" johnFile = filename johnFile
  /\ isSafeFilename (JStr (originalname johnFile)) = true
  /\ isSafeFilename (JStr (filename johnFile)) = true.
Proof.
  destruct (fileFilter_safe 1700000000000 "k3j2h1g0f9e" johnFile
              eq_refl eq_refl) as (_ & _ & _ & _ & H1 & H2).
  split; [reflexivity|]. split; [exact H1|exact H2].
Defined.

End UploadFacts.

(* ===================================================================== *)
(** ** models/submission.js: create, find, delete, count *)
(* ===================================================================== *)

Module StoreFacts.
Import Js FaceSwapAPI SubmissionModel SubmissionStore.
Import Spec.

Section WithObjectId.

Variable isValid : string -> bool.
Variable objectId : string -> string.

(** X26: a document created under a fresh identifier is found again under
    every valid spelling of the identifier, as it was returned: with the
    fields of the data, but both dates set to the time of the creation,
    whatever dates the data carried.  The collection has one document
    more, the other documents are found as before, and deleting the
    document gives the collection back. *)
Theorem create_find_delete (now : Z) (insertedId : string) (c : collection)
    (submissionData : document) (id : string) :
  c !! insertedId = None ->
  submissionData !! "_id" = None ->
  isValid id = true ->
  objectId id = insertedId ->
  let c' := (create now insertedId c submissionData).1 in
  let created := (create now insertedId c submissionData).2 in
  created.1 = insertedId
  /\ findById isValid objectId c' id = Some created.2
  /\ created.2 !! "createdAt" = Some (JDate now)
  /\ created.2 !! "updatedAt" = Some (JDate now)
  /\ (forall field, field <> "createdAt" -> field <> "updatedAt" ->
        created.2 !! field = submissionData !! field)
  /\ count c' = S (count c)
  /\ (forall other, objectId other <> insertedId ->
        findById isValid objectId c' other = findById isValid objectId c other)
  /\ deleteById isValid objectId c' id = (c, true)
  /\ findById isValid objectId (deleteById isValid objectId c' id).1 id = None
  /\ deleteById isValid objectId c id = (c, false).
Proof.
  intros Hfresh _ Hvalid Hkey c' created. subst c' created.
  unfold create, findById, deleteById, count. cbn [fst snd].
  rewrite Hvalid, Hkey. cbn [negb].
  rewrite lookup_insert_eq, Hfresh.
  rewrite (delete_insert_id c insertedId _ Hfresh). cbn [fst].
  split; [reflexivity|]. split; [reflexivity|].
  split; [rewrite lookup_insert_ne by discriminate; apply lookup_insert_eq|].
  split; [apply lookup_insert_eq|].
  split; [intros field H1 H2; now rewrite !lookup_insert_ne by congruence|].
  split; [now apply map_size_insert_None|].
  split; [|now repeat split].
  intros other Hother. destruct (isValid other); [|reflexivity]. cbn [negb].
  now rewrite lookup_insert_ne by congruence.
Qed.

End WithObjectId.

(** A document created beside the stored one, found under the capital
    spelling of its identifier. *)
Lemma create_find_delete_witness :
  let c' :=
    (create 1700000000700 "65a1b2c3d4e5f60718293a4c" someCollection
       {[ "name" := JStr "Jane Roe"; "createdAt" := JDate 0 ]}).1 in
  findById isValid_hex24 objectId_hex24 c' "65A1B2C3D4E5F60718293A4C"
  = Some (<["updatedAt" := JDate 1700000000700]>
            (<["createdAt" := JDate 1700000000700]>
               {[ "name" := JStr "Jane Roe"; "createdAt" := JDate 0 ]}))
  /\ deleteById isValid_hex24 objectId_hex24 c' "65A1B2C3D4E5F60718293A4C"
     = (someCollection, true).
Proof.
  intros c'.
  assert (Hfresh : someCollection !! "65a1b2c3d4e5f60718293a4c" = None)
    by (vm_compute; reflexivity).
  assert (Hid : ({[ "name" := JStr "Jane Roe"; "createdAt" := JDate 0 ]}
                   : document) !! "_id" = None)
    by (vm_compute; reflexivity).
  destruct (create_find_delete isValid_hex24 objectId_hex24 1700000000700
              "65a1b2c3d4e5f60718293a4c" someCollection
              {[ "name" := JStr "Jane Roe"; "createdAt" := JDate 0 ]}
              "65A1B2C3D4E5F60718293A4C" Hfresh Hid eq_refl eq_refl)
    as (_ & Hfind & _ & _ & _ & _ & _ & Hdel & _).
  split; [exact Hfind|exact Hdel].
Defined.

End StoreFacts.

(* ===================================================================== *)
(** ** The query of the list: the validator and the controller *)
(* ===================================================================== *)

Module QueryFacts.
Import Js Http ValidationMiddleware SubmissionController.
Import Spec Records JsFacts SanitizerFacts ShapeFacts.

(** *** [parseInt] does not see the white space [trim] removes *)

Lemma trimEnd_cons (c : ascii) (s : string) :
  is_space c = false -> trimEnd (String c s) = String c (trimEnd s).
Proof. intros H. cbn [trimEnd]. rewrite H. now destruct (trimEnd s). Qed.

Lemma trimEnd_space (c : ascii) (s : string) :
  is_space c = true ->
  trimEnd (String c s) = "" \/ exists r, trimEnd (String c s) = String c r.
Proof. intros H. cbn [trimEnd]. rewrite H. destruct (trimEnd s); eauto. Qed.

Lemma digits_from_trimEnd (base : Z) (isd : ascii -> bool) (s : string) :
  (forall c, is_space c = true -> isd c = false) ->
  forall acc,
    digits_from base isd acc (trimEnd s) = digits_from base isd acc s.
Proof.
  intros H. induction s as [|c s IH]; intros acc; [reflexivity|].
  destruct (is_space c) eqn:Ec.
  - pose proof (H c Ec) as Hd.
    destruct (trimEnd_space c s Ec) as [->|[r ->]]; cbn [digits_from];
      now rewrite Hd.
  - rewrite (trimEnd_cons c s Ec). cbn [digits_from].
    destruct (isd c); [apply IH|reflexivity].
Qed.

Lemma space_not_digit : forall c, is_space c = true -> is_digit c = false.
Proof. by_ascii. Qed.

Lemma space_not_hex : forall c, is_space c = true -> is_hex c = false.
Proof. by_ascii. Qed.

Lemma space_not_x :
  forall c, is_space c = true -> (Ascii.eqb c "x" || Ascii.eqb c "X")%bool = false.
Proof. by_ascii. Qed.

Lemma space_not_zero : forall c, is_space c = true -> Ascii.eqb c "0" = false.
Proof. by_ascii. Qed.

(** [parse_magnitude] with its tests written out. *)
Lemma parse_magnitude_tests (s : string) :
  parse_magnitude s
  = match s with
    | String d r =>
        if Ascii.eqb d "0" then
          match r with
          | String x r' =>
              if (Ascii.eqb x "x" || Ascii.eqb x "X")%bool then
                match r' with
                | String d' _ =>
                    if is_hex d' then Some (digits_from 16 is_hex 0 r') else None
                | EmptyString => None
                end
              else Some (digits_from 10 is_digit 0 s)
          | EmptyString => Some (digits_from 10 is_digit 0 s)
          end
        else if is_digit d then Some (digits_from 10 is_digit 0 s) else None
    | EmptyString => None
    end.
Proof.
  destruct s as [|d r]; [reflexivity|].
  destruct (Ascii.eqb_spec d "0") as [->|Hne]; [now destruct r|].
  destruct d as [[] [] [] [] [] [] [] []]; try reflexivity. now destruct Hne.
Qed.

Lemma parse_magnitude_trimEnd (s : string) :
  parse_magnitude (trimEnd s) = parse_magnitude s.
Proof.
  rewrite !parse_magnitude_tests. destruct s as [|d r]; [reflexivity|].
  destruct (is_space d) eqn:Ed.
  - rewrite (space_not_zero d Ed), (space_not_digit d Ed).
    destruct (trimEnd_space d r Ed) as [->|[r' ->]]; [reflexivity|].
    now rewrite (space_not_zero d Ed), (space_not_digit d Ed).
  - pose proof (digits_from_trimEnd 10 is_digit (String d r) space_not_digit 0)
      as Hten.
    rewrite (trimEnd_cons d r Ed) in *.
    destruct (Ascii.eqb d "0"); [|now rewrite Hten].
    destruct r as [|x r2]; [reflexivity|].
    destruct (is_space x) eqn:Ex.
    + rewrite (space_not_x x Ex).
      destruct (trimEnd_space x r2 Ex) as [E|[r' E]]; rewrite E in *;
        rewrite ?(space_not_x x Ex); now rewrite Hten.
    + rewrite (trimEnd_cons x r2 Ex) in *.
      destruct (Ascii.eqb x "x" || Ascii.eqb x "X")%bool; [|now rewrite Hten].
      pose proof (digits_from_trimEnd 16 is_hex r2 space_not_hex 0) as Hhex.
      destruct r2 as [|d' r3]; [reflexivity|].
      destruct (is_space d') eqn:Ed'.
      * rewrite (space_not_hex d' Ed').
        destruct (trimEnd_space d' r3 Ed') as [->|[r' ->]]; [reflexivity|].
        now rewrite (space_not_hex d' Ed').
      * rewrite (trimEnd_cons d' r3 Ed') in *. now rewrite Hhex.
Qed.

(** The reading of the sign with its tests written out. *)
Lemma parseInt_tests (s : string) :
  parseInt s
  = match trimStart s with
    | String c r =>
        if Ascii.eqb c "-" then Z.opp <$> parse_magnitude r
        else if Ascii.eqb c "+" then parse_magnitude r
        else parse_magnitude (String c r)
    | EmptyString => parse_magnitude ""
    end.
Proof.
  unfold parseInt. destruct (trimStart s) as [|c r]; [reflexivity|].
  destruct c as [[] [] [] [] [] [] [] []]; reflexivity.
Qed.

Lemma parseInt_trim (s : string) : parseInt (Js.trim s) = parseInt s.
Proof.
  rewrite !parseInt_tests. unfold Js.trim.
  destruct (trimStart_head s) as [->|(c & r & -> & Hc)]; [reflexivity|].
  rewrite (trimEnd_cons c r Hc), (trimStart_id c _ Hc).
  destruct (Ascii.eqb c "-"); [now rewrite parse_magnitude_trimEnd|].
  destruct (Ascii.eqb c "+"); [now rewrite parse_magnitude_trimEnd|].
  rewrite <- (trimEnd_cons c r Hc). apply parse_magnitude_trimEnd.
Qed.

Section WithPurify.

Variable purify : list string -> string -> string.

(** X20: [validateSubmissionsQuery] always calls [next()] and leaves on
    [req.queryOptions], the rest of the request staying as it came, a
    page of 1 at least, a limit between 1 and 50, the number of records
    to skip, which is [(page - 1) * limit], a sort field of the four
    allowed and an order of 1 or -1; an absent parameter gives page 1,
    limit 10 and [createdAt] descending.  This is for a page number that
    is read exactly and whose multiples by a limit are exact, so up to
    [2 ^ 53 / 50]: beyond, the numbers of the program are rounded. *)
Theorem validateSubmissionsQuery_options (req : request) :
  (forall p n,
     q_page (req_query req) = Some p ->
     parseInt (sanitize purify (JStr p)) = Some n ->
     n * 50 <= maxSafe) ->
  exists o,
    (validateSubmissionsQuery purify req).2 = Next
    /\ req_queryOptions (validateSubmissionsQuery purify req).1 = Some o
    /\ req_ip (validateSubmissionsQuery purify req).1 = req_ip req
    /\ req_body (validateSubmissionsQuery purify req).1 = req_body req
    /\ req_file (validateSubmissionsQuery purify req).1 = req_file req
    /\ req_query (validateSubmissionsQuery purify req).1 = req_query req
    /\ req_validatedData (validateSubmissionsQuery purify req).1
       = req_validatedData req
    /\ 1 <= qo_page o
    /\ qo_page o * 50 <= maxSafe
    /\ 1 <= qo_limit o <= 50
    /\ qo_skip o = (qo_page o - 1) * qo_limit o
    /\ 0 <= qo_skip o < maxSafe
    /\ includes allowedSortFields (qo_sortBy o) = true
    /\ (qo_sortOrder o = 1 \/ qo_sortOrder o = -1)
    /\ (q_page (req_query req) = None -> qo_page o = 1)
    /\ (q_limit (req_query req) = None -> qo_limit o = 10)
    /\ (q_sort (req_query req) = None ->
          qo_sortBy o = "createdAt" /\ qo_sortOrder o = -1).
Proof.
  intros Hsafe.
  destruct (ValidationFacts.validateSubmissionsQuery_bounds purify req)
    as (o & Heq & Hpage & Hlimit & Hskip & Hsort & Horder & Hp & Hl & Hs).
  assert (Hbound : qo_page o * 50 <= maxSafe).
  { pose proof (f_equal (fun x => req_queryOptions x.1) Heq) as Hq.
    unfold validateSubmissionsQuery in Hq. cbv zeta in Hq.
    destruct (sortOf purify (q_sort (req_query req))) as [f ord].
    cbn [fst with_queryOptions req_queryOptions] in Hq.
    injection Hq as Hq. rewrite <- Hq. cbn [qo_page]. unfold pageNumOf.
    destruct (q_page (req_query req)) as [p|] eqn:Ep;
      [|cbn; unfold maxSafe; lia].
    destruct (truthy (param (Some p))); [|unfold maxSafe; lia].
    cbn [param]. specialize (Hsafe p).
    destruct (parseInt (sanitize purify (JStr p))) as [n|];
      [|unfold maxSafe; lia].
    specialize (Hsafe n eq_refl eq_refl).
    destruct (Z.ltb_spec n 1); [unfold maxSafe; lia|exact Hsafe]. }
  exists o. rewrite Heq. cbn [fst snd with_queryOptions req_queryOptions
    req_ip req_body req_file req_query req_validatedData].
  repeat (split; [reflexivity|]).
  split; [exact Hpage|]. split; [exact Hbound|]. split; [exact Hlimit|].
  split; [exact Hskip|]. split; [rewrite Hskip; nia|].
  split; [exact Hsort|]. split; [exact Horder|].
  split; [exact Hp|]. split; [exact Hl|exact Hs].
Qed.

Hypothesis purify_plain : keeps_plain_text purify.

Lemma parseInt_sanitize (p : string) :
  plain_text p = true -> parseInt (sanitize purify (JStr p)) = parseInt p.
Proof.
  intros Hp. unfold sanitize.
  change (sanitizeInput purify (JStr p) no_options) with (sanitized purify p).
  rewrite (sanitized_plain purify purify_plain p Hp). apply parseInt_trim.
Qed.

(** X19: for a page and a limit that are plain text (or absent), what the
    validator leaves as options against what the controller reads from
    the same query: the validator's page is the controller's, raised to
    1; the validator's limit is the number read where that is between 1
    and 50 and 10 otherwise, while the controller cuts it at 50.  So the
    two agree on the page exactly from 1 on, and on the limit exactly
    from 1 to 50. *)
Theorem validator_and_controller (req : request) :
  (forall p, q_page (req_query req) = Some p -> plain_text p = true) ->
  (forall l, q_limit (req_query req) = Some l -> plain_text l = true) ->
  let read := num_or (q_limit (req_query req) ≫= parseInt) 10 in
  exists o,
    req_queryOptions (validateSubmissionsQuery purify req).1 = Some o
    /\ qo_page o = Z.max 1 (pageOf (req_query req))
    /\ qo_limit o = (if ((1 <=? read) && (read <=? 50))%bool then read else 10)
    /\ limitOf (req_query req) = Z.min read 50
    /\ (qo_page o = pageOf (req_query req) <-> 1 <= pageOf (req_query req))
    /\ (qo_limit o = limitOf (req_query req) <-> 1 <= read <= 50).
Proof.
  intros Hpage Hlimit read.
  assert (Hp : pageNumOf purify (q_page (req_query req))
               = Z.max 1 (pageOf (req_query req))).
  { unfold pageNumOf, pageOf.
    destruct (q_page (req_query req)) as [p|]; [|reflexivity].
    cbn [param truthy mbind option_bind].
    destruct (String.eqb_spec p "") as [->|Hne]; [reflexivity|]. cbn [negb].
    rewrite (parseInt_sanitize p (Hpage p eq_refl)).
    destruct (parseInt p) as [n|]; [|reflexivity]. cbn [num_or].
    destruct (Z.ltb_spec n 1), (Z.eqb_spec n 0); lia. }
  assert (Hl : limitNumOf purify (q_limit (req_query req))
               = if ((1 <=? read) && (read <=? 50))%bool then read else 10).
  { subst read. unfold limitNumOf.
    destruct (q_limit (req_query req)) as [l|]; [|reflexivity].
    cbn [param truthy mbind option_bind].
    destruct (String.eqb_spec l "") as [->|Hne]; [reflexivity|]. cbn [negb].
    rewrite (parseInt_sanitize l (Hlimit l eq_refl)).
    destruct (parseInt l) as [n|]; [|reflexivity]. cbn [num_or].
    destruct (Z.ltb_spec n 1), (Z.ltb_spec 50 n), (Z.eqb_spec n 0);
      cbn [orb]; try lia;
      try (destruct (Z.leb_spec 1 n), (Z.leb_spec n 50); cbn [andb]; lia).
    all: destruct (Z.leb_spec 1 10), (Z.leb_spec 10 50); cbn [andb]; lia. }
  unfold validateSubmissionsQuery. cbv zeta. rewrite Hp, Hl.
  destruct (sortOf purify (q_sort (req_query req))) as [f o].
  eexists. split; [reflexivity|].
  cbn [qo_page qo_limit]. split; [reflexivity|]. split; [reflexivity|].
  split; [reflexivity|]. split; [lia|].
  unfold limitOf. fold read.
  destruct (Z.leb_spec 1 read), (Z.leb_spec read 50); cbn [andb]; lia.
Qed.

End WithPurify.

(** The query [?page=3&limit=20]: page 3, limit 20, and 40 records to
    skip. *)
Lemma validateSubmissionsQuery_options_witness :
  exists o,
    req_queryOptions
      (validateSubmissionsQuery purify_text (pageRequest "3" "20")).1 = Some o
    /\ qo_page o = 3 /\ qo_limit o = 20 /\ qo_skip o = 40
    /\ qo_sortBy o = "createdAt"%string /\ qo_sortOrder o = -1.
Proof.
  assert (Hsafe : forall p n,
            q_page (req_query (pageRequest "3" "20")) = Some p ->
            parseInt (sanitize purify_text (JStr p)) = Some n ->
            n * 50 <= maxSafe).
  { intros p n [= <-] [= <-]. vm_compute. discriminate. }
  destruct (validateSubmissionsQuery_options purify_text
              (pageRequest "3" "20") Hsafe)
    as (o & _ & Ho & _).
  exists o. split; [exact Ho|]. injection Ho as <-. repeat split.
Defined.

(** The query [?page=-1&limit=100]: the validator leaves page 1 and
    limit 10, the controller reads page -1 and limit 50. *)
Lemma validator_and_controller_witness :
  exists o,
    req_queryOptions
      (validateSubmissionsQuery purify_text (pageRequest "-1" "100")).1 = Some o
    /\ qo_page o = 1
    /\ qo_limit o = 10
    /\ limitOf (req_query (pageRequest "-1" "100")) = 50
    /\ (qo_page o = pageOf (req_query (pageRequest "-1" "100")) <-> 1 <= -1)
    /\ (qo_limit o = limitOf (req_query (pageRequest "-1" "100"))
        <-> 1 <= 100 <= 50).
Proof.
  apply (validator_and_controller purify_text purify_text_plain
           (pageRequest "-1" "100")).
  - intros p [= <-]. reflexivity.
  - intros l [= <-]. reflexivity.
Defined.

End QueryFacts.
